(** * Rejection-batch pipeline: a shallow embedding of the edge functions

  The three ingestion handlers of the repository (text+PDF, spreadsheet+PDF
  and archive) are embedded as pure functions over their already-uploaded
  inputs.  JavaScript strings are modelled by [string], one [ascii] per code
  unit (code units U+0000..U+00FF); JavaScript numbers by IEEE-754 binary64
  values ([spec_float] at precision 53, maximal exponent 1024), except
  where a number is an array index or a record number, which is kept as
  the exact integer it denotes.  A handler is embedded from the point
  where the form has been read: the pre-flight branch and the transport
  around it are not part of the embedding. *)

From Stdlib Require Import ZArith Bool List Lia Ascii String SpecFloat.
From Stdlib Require Import Sorted Permutation.
Import ListNotations.

Open Scope string_scope.
Open Scope Z_scope.

(** ** JavaScript strings *)

Module JsString.

Definition code (c : ascii) : N := N_of_ascii c.

(** [\d] of a regular expression without the [u] flag: ASCII digits. *)
Definition isDigit (c : ascii) : bool :=
  (48 <=? code c)%N && (code c <=? 57)%N.

(** White space and line terminators ([\s], [trim], [parseFloat]) among
    the code units below U+0100. *)
Definition isSpace (c : ascii) : bool :=
  ((9 <=? code c)%N && (code c <=? 13)%N)
  || (code c =? 32)%N || (code c =? 160)%N.

Definition digitValue (c : ascii) : Z := Z.of_N (code c) - 48.

Fixpoint filterStr (keep : ascii -> bool) (s : string) : string :=
  match s with
  | EmptyString => EmptyString
  | String c s' =>
      if keep c then String c (filterStr keep s') else filterStr keep s'
  end.

Fixpoint mapStr (f : ascii -> ascii) (s : string) : string :=
  match s with
  | EmptyString => EmptyString
  | String c s' => String (f c) (mapStr f s')
  end.

Fixpoint existsChar (p : ascii -> bool) (s : string) : bool :=
  match s with
  | EmptyString => false
  | String c s' => p c || existsChar p s'
  end.

(** [s.includes(kw)] *)
Fixpoint includes (s kw : string) : bool :=
  prefix kw s
  || match s with
     | EmptyString => false
     | String _ s' => includes s' kw
     end.

(** [s.replace(/c/g, "")] and [s.replace(/c/g, d)] for one code unit. *)
Definition removeAll (c : ascii) (s : string) : string :=
  filterStr (fun x => negb (Ascii.eqb x c)) s.

Definition replaceAll (c d : ascii) (s : string) : string :=
  mapStr (fun x => if Ascii.eqb x c then d else x) s.

(** [s.split(sep)] for a one-unit separator: never the empty array. *)
Fixpoint split (sep : ascii) (s : string) : list string :=
  match s with
  | EmptyString => [EmptyString]
  | String c s' =>
      if Ascii.eqb c sep then EmptyString :: split sep s'
      else match split sep s' with
           | h :: t => String c h :: t
           | [] => [String c EmptyString]
           end
  end.

(** [parts.join("")] *)
Definition join (parts : list string) : string :=
  fold_right append EmptyString parts.

Fixpoint trimStart (s : string) : string :=
  match s with
  | EmptyString => EmptyString
  | String c s' => if isSpace c then trimStart s' else s
  end.

Fixpoint trimEnd (s : string) : string :=
  match s with
  | EmptyString => EmptyString
  | String c s' =>
      match trimEnd s' with
      | EmptyString => if isSpace c then EmptyString else String c EmptyString
      | r => String c r
      end
  end.

Definition trim (s : string) : string := trimEnd (trimStart s).

Definition len (s : string) : Z := Z.of_nat (String.length s).

(** [s.slice(from, to)] on integer arguments; a negative argument counts
    from the end of the string. *)
Definition slice (s : string) (from to : Z) : string :=
  let rel k := if k <? 0 then Z.max (len s + k) 0 else Z.min k (len s) in
  let a := rel from in
  let b := rel to in
  substring (Z.to_nat a) (Z.to_nat (Z.max (b - a) 0)) s.

Definition lowerChar (c : ascii) : ascii :=
  let n := code c in
  if ((65 <=? n)%N && (n <=? 90)%N)
     || ((192 <=? n)%N && (n <=? 222)%N && negb (n =? 215)%N)
  then ascii_of_N (n + 32) else c.

Definition toLowerCase (s : string) : string := mapStr lowerChar s.

Fixpoint drop (n : nat) (s : string) : string :=
  match n, s with
  | O, _ => s
  | S n', String _ s' => drop n' s'
  | S _, EmptyString => EmptyString
  end.

(** The longest run of digits at the head of [s], and what follows it. *)
Fixpoint spanDigits (s : string) : string * string :=
  match s with
  | String c s' =>
      if isDigit c then
        let '(ds, rest) := spanDigits s' in (String c ds, rest)
      else (EmptyString, s)
  | EmptyString => (EmptyString, EmptyString)
  end.

(** The mathematical value of a run of decimal digits. *)
Fixpoint digitsValueFrom (acc : Z) (ds : string) : Z :=
  match ds with
  | EmptyString => acc
  | String c ds' => digitsValueFrom (acc * 10 + digitValue c) ds'
  end.

Definition digitsValue (ds : string) : Z := digitsValueFrom 0 ds.

End JsString.

(** ** JavaScript numbers *)

Module JsNumber.
Import JsString.

Definition prec : Z := 53.
Definition emax : Z := 1024.

Definition number := spec_float.

Definition NaN : number := S754_nan.
Definition zero : number := S754_zero false.

(** [a + b] *)
Definition add (a b : number) : number := SFadd prec emax a b.

(** ToBoolean on a number: [NaN], [+0] and [-0] are falsy. *)
Definition truthy (x : number) : bool :=
  match x with
  | S754_nan | S754_zero _ => false
  | _ => true
  end.

(** [x || 0.0] *)
Definition orZero (x : number) : number := if truthy x then x else zero.

Definition isFinite (x : number) : bool :=
  match x with
  | S754_zero _ | S754_finite _ _ _ => true
  | _ => false
  end.

Definition isNaN (x : number) : bool :=
  match x with S754_nan => true | _ => false end.

(** Neither negative nor [NaN]. *)
Definition nonNegative (x : number) : bool :=
  match x with
  | S754_zero _ => true
  | S754_finite s _ _ | S754_infinity s => negb s
  | S754_nan => false
  end.

(** The binary64 value nearest to [(-1)^neg * m * 10^e] (ties to even):
    the value of a decimal literal with digits [m] and scale [e]. *)
Definition ofDecimal (neg : bool) (m e : Z) : number :=
  match m with
  | Z0 => S754_zero neg
  | Zpos p =>
      if 0 <=? e then binary_round prec emax neg (p * Z.to_pos (10 ^ e)) 0
      else SFdiv prec emax (S754_finite neg p 0)
                           (S754_finite false (Z.to_pos (10 ^ (- e))) 0)
  | Zneg _ => S754_nan
  end.

(** The optional exponent part of a decimal literal: [e] or [E], an
    optional sign, at least one digit.  Anything else contributes 0. *)
Definition exponentPart (s : string) : Z :=
  match s with
  | String c s1 =>
      if Ascii.eqb c "e" || Ascii.eqb c "E" then
        let '(neg, s2) :=
          match s1 with
          | String d s2 =>
              if Ascii.eqb d "-" then (true, s2)
              else if Ascii.eqb d "+" then (false, s2)
              else (false, s1)
          | EmptyString => (false, s1)
          end in
        let '(ds, _) := spanDigits s2 in
        match ds with
        | EmptyString => 0
        | _ => if neg then - digitsValue ds else digitsValue ds
        end
      else 0
  | EmptyString => 0
  end.

(** The unsigned part of [parseFloat]: the longest prefix that is a
    decimal literal, [NaN] when there is none. *)
Definition parseUnsigned (neg : bool) (s : string) : number :=
  if prefix "Infinity" s then S754_infinity neg
  else
    let '(ip, r1) := spanDigits s in
    let '(fp, r2, dot) :=
      match r1 with
      | String c r =>
          if Ascii.eqb c "." then
            let '(fp, r2) := spanDigits r in (fp, r2, true)
          else (EmptyString, r1, false)
      | EmptyString => (EmptyString, r1, false)
      end in
    match ip, fp with
    | EmptyString, EmptyString => S754_nan
    | _, _ =>
        ofDecimal neg (digitsValue (ip ++ fp))
                  (exponentPart r2 - Z.of_nat (String.length fp))
    end.

(** [parseFloat(s)] *)
Definition parseFloat (s : string) : number :=
  match trimStart s with
  | String c r =>
      if Ascii.eqb c "-" then parseUnsigned true r
      else if Ascii.eqb c "+" then parseUnsigned false r
      else parseUnsigned false (String c r)
  | EmptyString => S754_nan
  end.

End JsNumber.

(** ** JavaScript values held by spreadsheet cells *)

Module JsValue.
Import JsString JsNumber.

Inductive value :=
| VUndefined
| VNull
| VBool (b : bool)
| VNum (x : number)
| VStr (s : string).

(** ToBoolean *)
Definition truthy (v : value) : bool :=
  match v with
  | VUndefined | VNull => false
  | VBool b => b
  | VNum x => JsNumber.truthy x
  | VStr s => negb (String.eqb s "")
  end.

(** [v || ''] *)
Definition orEmpty (v : value) : value :=
  if truthy v then v else VStr "".

Definition isNullish (v : value) : bool :=
  match v with
  | VUndefined | VNull => true
  | _ => false
  end.

(** [row[k]]: reading past the end of an array gives [undefined]. *)
Definition get (row : list value) (k : nat) : value := nth k row VUndefined.

Section ToString.
(** Number-to-string conversion is the host's; the handlers are
    embedded over any such conversion. *)
Variable numberToString : number -> string.

(** [String(v)] *)
Definition ToString (v : value) : string :=
  match v with
  | VUndefined => "undefined"
  | VNull => "null"
  | VBool true => "true"
  | VBool false => "false"
  | VNum x => numberToString x
  | VStr s => s
  end.
End ToString.

End JsValue.

(** ** Regular expressions of the two PDF scanners *)

Module JsRegExp.
Import JsString.

Fixpoint countSpaces (s : string) : nat :=
  match s with
  | String c s' => if isSpace c then S (countSpaces s') else O
  | EmptyString => O
  end.

(** At most [n] digits from the head of [s]: the greedy [\d{1,n}]. *)
Fixpoint takeDigits (n : nat) (s : string) : string :=
  match n, s with
  | S n', String c s' =>
      if isDigit c then String c (takeDigits n' s') else EmptyString
  | _, _ => EmptyString
  end.

(** One attempt of [/Registro\s+(digits)/] at the head of [s]: the
    capture and the length of the whole match.  White space and digits
    are disjoint, so the greedy [\s+] never has to give a unit back. *)
Definition execRegistro (digits : string -> string) (s : string)
  : option (string * nat) :=
  if prefix "Registro" s then
    let r := drop 8 s in
    match countSpaces r with
    | O => None
    | S _ as ws =>
        match digits (drop ws r) with
        | EmptyString => None
        | ds => Some (ds, (8 + ws + String.length ds)%nat)
        end
    end
  else None.

(** [/Registro\s+(\d{1,5})/] and [/Registro\s+(\d+)/] *)
Definition execRegistro5 : string -> option (string * nat) :=
  execRegistro (takeDigits 5).

Definition execRegistroAny : string -> option (string * nat) :=
  execRegistro (fun s => fst (spanDigits s)).

(** [[...text.matchAll(re)].map(m => m[1])] for a global expression whose
    matches are never empty: [skip] is the number of units still covered
    by the previous match (the distance to [lastIndex]). *)
Fixpoint matchAllFrom (exec : string -> option (string * nat))
         (skip : nat) (s : string) : list string :=
  match s with
  | EmptyString => []
  | String _ s' =>
      match skip with
      | S k => matchAllFrom exec k s'
      | O =>
          match exec s with
          | Some (cap, n) => cap :: matchAllFrom exec (Nat.pred n) s'
          | None => matchAllFrom exec 0 s'
          end
      end
  end.

Definition matchAll (exec : string -> option (string * nat)) (s : string)
  : list string :=
  matchAllFrom exec 0 s.

End JsRegExp.

(** ** Arrays of numbers: [Set] de-duplication and [sort((a, b) => a - b)] *)

Module JsArray.

Section Ordered.
Variable A : Type.
Variable eqb leb : A -> A -> bool.

(** [Array.from(new Set(xs))]: first occurrences, in insertion order. *)
Fixpoint dedupeFrom (seen xs : list A) : list A :=
  match xs with
  | [] => []
  | x :: r =>
      if existsb (eqb x) seen then dedupeFrom seen r
      else x :: dedupeFrom (x :: seen) r
  end.

Definition dedupe (xs : list A) : list A := dedupeFrom [] xs.

Fixpoint insert (x : A) (xs : list A) : list A :=
  match xs with
  | [] => [x]
  | y :: r => if leb x y then x :: y :: r else y :: insert x r
  end.

(** [xs.sort(cmp)] for a comparator that is a total order: the
    ascending arrangement of [xs]. *)
Definition sort (xs : list A) : list A := fold_right insert [] xs.
End Ordered.

Arguments dedupeFrom {A} eqb seen xs.
Arguments dedupe {A} eqb xs.
Arguments insert {A} leb x xs.
Arguments sort {A} leb xs.

End JsArray.

(** ** The response payload shared by the three handlers *)

Module Api.
Import JsNumber.

Record ResultData := {
  dni_cex : string;
  nombre : string;
  importe : number;
  Referencia : string;
  Estado : string;
  Codigo_de_Rechazo : string;
  Descripcion_de_Rechazo : string
}.

Record Payload := {
  results : list ResultData;
  totalTransactions : nat;
  totalAmount : number
}.

Inductive Response :=
| Ok (body : Payload)
| Error (status : Z) (error : string).

(** [rows.reduce((sum, row) => sum + row.importe, 0)] *)
Definition sumImporte (rows : list ResultData) : number :=
  fold_left (fun sum row => add sum (importe row)) rows zero.

(** The success response built at the end of every handler. *)
Definition respond (rows : list ResultData) : Response :=
  Ok {| results := rows;
        totalTransactions := List.length rows;
        totalAmount := sumImporte rows |}.

(** A spreadsheet as decoded by the spreadsheet library, or the message
    of the exception it raised. *)
Inductive Workbook :=
| Unreadable (message : string)
| Sheet (data : list (list JsValue.value)).

End Api.

(** The cleaning shared by every copy of [parseAmount]: the characters
    kept by [replace(/[^\d,.-]/g, "")]. *)
Definition amountChar (c : ascii) : bool :=
  JsString.isDigit c || Ascii.eqb c "," || Ascii.eqb c "." || Ascii.eqb c "-".

(** ** Text + PDF handler (process-pre-bcp-txt) *)

Module PreBcpTxt.
Import JsString JsNumber JsRegExp JsArray Api.

Record Pos := { start : Z; stop : Z }.

Definition TXT_POS_dni : Pos := {| start := 25; stop := 33 |}.
Definition TXT_POS_nombre : Pos := {| start := 40; stop := 85 |}.
Definition TXT_POS_referencia : Pos := {| start := 115; stop := 126 |}.
Definition TXT_POS_importe : Pos := {| start := 186; stop := 195 |}.

Definition MULT : Z := 2.
Definition ESTADO : string := "rechazada".

Definition sliceFixed (line : string) (start stop : Z) : string :=
  if String.eqb line "" then ""
  else
    let idx := Z.max 0 (start - 1) in
    if idx <? len line then trim (slice line idx stop) else "".

(** [parseFloat] never raises, so the [catch] branch is never entered. *)
Definition parseAmount (raw : string) : number :=
  if String.eqb raw "" then zero
  else
    let s := filterStr amountChar raw in
    let s :=
      if includes s "." && includes s "," then
        replaceAll "," "." (removeAll "." s)
      else if includes s "," then replaceAll "," "." s
      else s in
    let parts := split "." s in
    let s :=
      if (2 <? List.length parts)%nat then
        join (removelast parts) ++ "." ++ last parts ""
      else s in
    orZero (parseFloat s).

(** [pdfText] is the decoded text of the uploaded PDF bytes.  A capture
    has at most five digits, so [parseInt] is exact. *)
Definition extractRegistrosFromPdf (pdfText : string) : list Z :=
  let matches := matchAll execRegistro5 pdfText in
  let registros := dedupe Z.eqb (map digitsValue matches) in
  sort Z.leb registros.

Definition buildRow (ln code desc : string) : ResultData :=
  let dni := sliceFixed ln (start TXT_POS_dni) (stop TXT_POS_dni) in
  let nombre := sliceFixed ln (start TXT_POS_nombre) (stop TXT_POS_nombre) in
  let ref :=
    sliceFixed ln (start TXT_POS_referencia) (stop TXT_POS_referencia) in
  let impStr :=
    sliceFixed ln (start TXT_POS_importe) (stop TXT_POS_importe) in
  let imp := parseAmount impStr in
  {| dni_cex := dni;
     nombre := nombre;
     importe := imp;
     Referencia := ref;
     Estado := ESTADO;
     Codigo_de_Rechazo := code;
     Descripcion_de_Rechazo := desc |}.

(** [lines[k]] *)
Definition lineAt (lines : list string) (k : Z) : string :=
  nth (Z.to_nat k) lines "".

(** One turn of [for (const i of indices)]. *)
Definition pushRow (lines : list string) (code desc : string)
           (rows : list ResultData) (i : Z) : list ResultData :=
  if (1 <=? i) && (i <=? Z.of_nat (List.length lines)) then
    rows ++ [buildRow (lineAt lines (i - 1)) code desc]
  else rows.

(** The handler after the form has been read: each file is the text of
    the upload, or [None] when the field is missing. *)
Definition serve (pdfFile txtFile : option string) (code desc : string)
  : Response :=
  match pdfFile, txtFile with
  | Some pdfText, Some txtContent =>
      let lines := split "010" txtContent in
      let registros := extractRegistrosFromPdf pdfText in
      let indices := sort Z.leb (map (fun r => r * MULT) registros) in
      let rows := fold_left (pushRow lines code desc) indices [] in
      respond rows
  | _, _ => Error 500 "Missing files"
  end.

End PreBcpTxt.

(** ** Spreadsheet + PDF handler (process-pre-bcp-xlsx) *)

Module PreBcpXlsx.
Import JsString JsNumber JsValue JsRegExp JsArray Api.

Definition ESTADO : string := "rechazada".

(** An integer-valued number: the exact integer, or [+Infinity]. *)
Inductive rowNumber :=
| Fin (z : Z)
| Inf.

(** The number nearest to the integer [z]. *)
Definition ofInteger (z : Z) : rowNumber :=
  match binary_normalize prec emax z 0 false with
  | S754_finite s m e => Fin (cond_Zopp s (Z.shiftl (Zpos m) e))
  | S754_infinity _ => Inf
  | _ => Fin 0
  end.

(** [parseInt(m[1]) + 1] on a run of digits. *)
Definition nextRow (ds : string) : rowNumber :=
  match ofInteger (digitsValue ds) with
  | Fin z => ofInteger (z + 1)
  | Inf => Inf
  end.

Definition rowEqb (a b : rowNumber) : bool :=
  match a, b with
  | Fin x, Fin y => x =? y
  | Inf, Inf => true
  | _, _ => false
  end.

Definition rowLeb (a b : rowNumber) : bool :=
  match a, b with
  | Fin x, Fin y => x <=? y
  | _, Inf => true
  | Inf, Fin _ => false
  end.

Definition extractRowNumbersFromPdf (pdfText : string) : list rowNumber :=
  let matches := matchAll execRegistroAny pdfText in
  let rowNumbers := dedupe rowEqb (map nextRow matches) in
  sort rowLeb rowNumbers.

(** [i >= 0 && i < data.length] *)
Definition inRange (A : Type) (data : list A) (i : rowNumber) : bool :=
  match i with
  | Fin z => (0 <=? z) && (z <? Z.of_nat (List.length data))
  | Inf => false
  end.
Arguments inRange {A} data i.

(** [data[i]] *)
Definition rowAt (data : list (list value)) (i : rowNumber) : list value :=
  match i with
  | Fin z => nth (Z.to_nat z) data []
  | Inf => []
  end.

Section Handler.
Variable numberToString : number -> string.

Definition parseAmount (raw : value) : number :=
  if isNullish raw then zero
  else
    let s := filterStr amountChar (ToString numberToString raw) in
    let cleaned :=
      if includes s "." && includes s "," then
        replaceAll "," "." (removeAll "." s)
      else if includes s "," then replaceAll "," "." s
      else s in
    let parts := split "." cleaned in
    let cleaned :=
      if (2 <? List.length parts)%nat then
        join (removelast parts) ++ "." ++ last parts ""
      else cleaned in
    orZero (parseFloat cleaned).

Definition buildRow (code desc : string) (row : list value) : ResultData :=
  {| dni_cex := ToString numberToString (orEmpty (get row 0));
     nombre :=
       ToString numberToString
         (if truthy (get row 3) then get row 3 else orEmpty (get row 1));
     importe := parseAmount (get row 12);
     Referencia := ToString numberToString (orEmpty (get row 7));
     Estado := ESTADO;
     Codigo_de_Rechazo := code;
     Descripcion_de_Rechazo := desc |}.

Definition serve (pdfFile : option string) (excelFile : option Workbook)
           (code desc : string) : Response :=
  match pdfFile, excelFile with
  | Some pdfText, Some workbook =>
      let rowNumbers := extractRowNumbersFromPdf pdfText in
      match workbook with
      | Unreadable message => Error 500 message
      | Sheet data =>
          let validRows := filter (inRange data) rowNumbers in
          let selectedData := map (rowAt data) validRows in
          let rows := map (buildRow code desc) selectedData in
          respond rows
      end
  | _, _ => Error 500 "Missing files"
  end.
End Handler.

End PreBcpXlsx.

(** ** Archive handler (process-rechazo-ibk) *)

Module RechazoIbk.
Import JsString JsNumber JsValue Api.

Definition ESTADO : string := "rechazada".

Definition KEYWORDS_NO_TIT : list string :=
  [ "no es titular";
    "beneficiario no";
    "cliente no titular";
    "no titular";
    "continuar";
    "puedes continuar";
    "si deseas, puedes continuar" ].

Section Handler.
Variable numberToString : number -> string.

Definition parseAmount (raw : value) : number :=
  if isNullish raw then zero
  else
    let s := filterStr amountChar (ToString numberToString raw) in
    let cleaned :=
      if includes s "." && includes s "," then
        replaceAll "," "." (removeAll "." s)
      else if includes s "," then replaceAll "," "." s
      else s in
    let parts := split "." cleaned in
    let cleaned :=
      if (2 <? List.length parts)%nat then
        join (removelast parts) ++ "." ++ last parts ""
      else cleaned in
    orZero (parseFloat cleaned).

(** The filter on column O (index 14). *)
Definition hasStatus (row : list value) : bool :=
  let colO := get row 14 in
  negb (isNullish colO)
  && negb (String.eqb (trim (ToString numberToString colO)) "").

Definition situacion (row : list value) : string :=
  toLowerCase (ToString numberToString (orEmpty (get row 14))).

Definition isNoTitular (row : list value) : bool :=
  existsb (fun kw => includes (situacion row) kw) KEYWORDS_NO_TIT.

Definition buildRow (row : list value) : ResultData :=
  {| dni_cex := ToString numberToString (orEmpty (get row 4));
     nombre := ToString numberToString (orEmpty (get row 5));
     importe := parseAmount (get row 13);
     Referencia := ToString numberToString (orEmpty (get row 7));
     Estado := ESTADO;
     Codigo_de_Rechazo := if isNoTitular row then "R016" else "R002";
     Descripcion_de_Rechazo :=
       if isNoTitular row then "CLIENTE NO TITULAR DE LA CUENTA"
       else "CUENTA INVALIDA" |}.

(** What unpacking the uploaded archive gave: the exception raised on
    the way, no spreadsheet entry, or the first one decoded. *)
Inductive Archive :=
| Corrupt (message : string)
| NoExcel
| Excel (workbook : Workbook).

Definition serve (zipFile : option Archive) : Response :=
  match zipFile with
  | None => Error 500 "Missing ZIP file"
  | Some (Corrupt message) => Error 500 message
  | Some NoExcel => Error 500 "No Excel file found in ZIP"
  | Some (Excel (Unreadable message)) => Error 500 message
  | Some (Excel (Sheet data)) =>
      let dataFrom11 := skipn 11 data in
      let validRows := filter hasStatus dataFrom11 in
      let rows := map buildRow validRows in
      respond rows
  end.
End Handler.

End RechazoIbk.

(** ** Forwarding handler (send-to-endpoint) *)

Module SendToEndpoint.
Import JsNumber.

(** A value read from a JSON body.  An object is the list of its own
    properties in insertion order. *)
#[warnings="-register-all"]
Inductive Json :=
| JNull
| JBool (b : bool)
| JNum (x : number)
| JStr (s : string)
| JArr (items : list Json)
| JObj (fields : list (string * Json)).

Definition SUBSET_COLS : list string :=
  [ "Referencia";
    "Estado";
    "Codigo de Rechazo";
    "Descripcion de Rechazo" ].

Fixpoint lookup (fields : list (string * Json)) (col : string)
  : option Json :=
  match fields with
  | [] => None
  | (k, v) :: rest => if String.eqb k col then Some v else lookup rest col
  end.

(** [row[col]] on a row that is not [null]; [None] is [undefined], which
    is what a number, a boolean, a string or an array gives for these
    column names. *)
Definition prop (row : Json) (col : string) : option Json :=
  match row with
  | JObj fields => lookup fields col
  | _ => None
  end.

(** The callback of [data.map]: the columns of [SUBSET_COLS], assigned in
    that order.  Reading a property of [null] raises: [None]. *)
Definition filterRow (row : Json) : option (list (string * option Json)) :=
  match row with
  | JNull => None
  | _ => Some (map (fun col => (col, prop row col)) SUBSET_COLS)
  end.

(** [data.map(...)], stopped by the first row that raises. *)
Fixpoint filterData (data : list Json)
  : option (list (list (string * option Json))) :=
  match data with
  | [] => Some []
  | row :: rest =>
      match filterRow row with
      | None => None
      | Some filtered =>
          match filterData rest with
          | None => None
          | Some others => Some (filtered :: others)
          end
      end
  end.

Inductive Response :=
| Ok (status : Z) (message : string)
| Error (status : Z) (error : string).

Section Handler.
(** The message of the [TypeError] raised by reading a property of
    [null], and the rest of the handler as one capability: the encoding of
    the rows as a workbook and the POST, giving the message of the
    exception raised or the status and text of the answer. *)
Variable nullRowMessage : string.
Variable post : list (list (string * option Json)) -> string + (Z * string).

(** The handler from the [data] member of the body ([None] when the body
    has none). *)
Definition serve (data : option Json) : Response :=
  match data with
  | Some (JArr rows) =>
      match filterData rows with
      | None => Error 500 nullRowMessage
      | Some filteredData =>
          match post filteredData with
          | inl message => Error 500 message
          | inr (status, responseText) => Ok status responseText
          end
      end
  | _ => Error 500 "Invalid data format"
  end.
End Handler.

End SendToEndpoint.

(** ** Vocabulary of the statements *)

(** The 0-based offset of a 1-based start column. *)
Definition offsetOf (startCol : Z) : nat := Z.to_nat (Z.max 0 (startCol - 1)).

(** The two steps of [parseAmount] between cleaning and [parseFloat]. *)
Definition decimalPoint (s : string) : string :=
  if JsString.includes s "." && JsString.includes s "," then
    JsString.replaceAll "," "." (JsString.removeAll "." s)
  else if JsString.includes s "," then JsString.replaceAll "," "." s
  else s.

Definition lastPointOnly (s : string) : string :=
  let parts := JsString.split "." s in
  if (2 <? List.length parts)%nat then
    JsString.join (removelast parts) ++ "." ++ last parts ""
  else s.

(** [x] is a positive binary64 number within half a unit in the last place
    of the fraction [num / den]: the number a decimal literal of that value
    denotes. *)
Definition nearestDouble (x : JsNumber.number) (num den : Z) : bool :=
  match x with
  | S754_finite false m e =>
      bounded JsNumber.prec JsNumber.emax m e
      && (2 * Z.abs (Zpos m * den * 2 ^ Z.max e 0 - num * 2 ^ Z.max (- e) 0)
          <=? den * 2 ^ Z.max e 0)
  | _ => false
  end.

(** The numbers written [1234.56] and [1.23456]. *)
Definition lit_1234_56 : JsNumber.number :=
  S754_finite false 5429652300748554 (-42).

Definition lit_1_23456 : JsNumber.number :=
  S754_finite false 5559963955966520 (-52).

(** The success payload with no record. *)
Definition emptyPayload : Api.Payload :=
  {| Api.results := [];
     Api.totalTransactions := 0;
     Api.totalAmount := JsNumber.zero |}.

(** A sheet whose row [k] is [row], below [k] empty rows. *)
Definition sheetWithRowAt (k : nat) (row : list JsValue.value)
  : list (list JsValue.value) :=
  repeat [] k ++ [row].

(** A row whose column O (index 14) holds the text [status]. *)
Definition rowWithStatus (status : string) : list JsValue.value :=
  repeat (JsValue.VStr "") 14 ++ [JsValue.VStr status].

(** Every code unit of [s] satisfies [p]. *)
Fixpoint allChars (p : ascii -> bool) (s : string) : bool :=
  match s with
  | EmptyString => true
  | String c s' => p c && allChars p s'
  end.

(** The number of positions of [s] at which [kw] occurs. *)
Fixpoint occurrences (kw s : string) : nat :=
  (if prefix kw s then 1 else 0)
  + match s with
    | EmptyString => 0
    | String _ s' => occurrences kw s'
    end.

(** A text of [n + 1] lines: [n] empty ones, then [final]. *)
Fixpoint linesThen (n : nat) (final : string) : string :=
  match n with
  | O => final
  | S k => String "010" (linesThen k final)
  end.

(** The guard of the text handler's loop and the indices it is run on. *)
Definition lineInRange (lines : list string) (i : Z) : bool :=
  (1 <=? i) && (i <=? Z.of_nat (List.length lines)).

Definition lineIndices (pdfText : string) : list Z :=
  JsArray.sort Z.leb
    (map (fun r => r * PreBcpTxt.MULT)
         (PreBcpTxt.extractRegistrosFromPdf pdfText)).

(** Strictly ascending row numbers. *)
Definition rowLt (a b : PreBcpXlsx.rowNumber) : Prop :=
  PreBcpXlsx.rowLeb a b = true /\ a <> b.

(** The separators kept by the cleaning of [parseAmount]. *)
Definition separatorChar (c : ascii) : bool :=
  Ascii.eqb c "," || Ascii.eqb c "." || Ascii.eqb c "-".

Definition notMinus (c : ascii) : bool := negb (Ascii.eqb c "-").

(** [x] is [NaN] or carries the sign [neg]. *)
Definition signed (neg : bool) (x : JsNumber.number) : Prop :=
  match x with
  | S754_zero s | S754_infinity s | S754_finite s _ _ => s = neg
  | S754_nan => True
  end.

(** A run of [n] nines. *)
Fixpoint nines (n : nat) : string :=
  match n with
  | O => EmptyString
  | S k => String "9" (nines k)
  end.

(** The number written [-5]. *)
Definition lit_minus_5 : JsNumber.number :=
  S754_finite true 5629499534213120 (-50).

(** [s] begins with a digit. *)
Definition startsWithDigit (s : string) : bool :=
  match s with
  | String c _ => JsString.isDigit c
  | EmptyString => false
  end.

(** The number of occurrences of the code unit [c] in [s]. *)
Fixpoint countChar (c : ascii) (s : string) : nat :=
  match s with
  | EmptyString => O
  | String x s' => ((if Ascii.eqb x c then 1 else 0) + countChar c s')%nat
  end.

(** The string [parseAmount] hands to [parseFloat]. *)
Definition prepared (raw : string) : string :=
  lastPointOnly (decimalPoint (JsString.filterStr amountChar raw)).

(** The integer a number denotes, when it denotes one. *)
Definition integerOf (x : JsNumber.number) : option Z :=
  match x with
  | S754_zero _ => Some 0
  | S754_finite s m e =>
      if 0 <=? e then Some (cond_Zopp s (Zpos m * 2 ^ e))
      else if Zpos m mod 2 ^ (- e) =? 0 then
        Some (cond_Zopp s (Zpos m / 2 ^ (- e)))
      else None
  | _ => None
  end.

(** A number as [JSON.stringify] writes it: [NaN] and the infinities
    become [null], and [-0] becomes [0]. *)
Definition jsonNumber (x : JsNumber.number) : SendToEndpoint.Json :=
  match x with
  | S754_zero _ => SendToEndpoint.JNum JsNumber.zero
  | S754_finite _ _ _ => SendToEndpoint.JNum x
  | _ => SendToEndpoint.JNull
  end.

(** A record of a handler's answer as the results table hands it on in
    the body of its request: the seven properties in the order the
    handlers write them. *)
Definition toJson (r : Api.ResultData) : SendToEndpoint.Json :=
  SendToEndpoint.JObj
    [ ("dni/cex", SendToEndpoint.JStr (Api.dni_cex r));
      ("nombre", SendToEndpoint.JStr (Api.nombre r));
      ("importe", jsonNumber (Api.importe r));
      ("Referencia", SendToEndpoint.JStr (Api.Referencia r));
      ("Estado", SendToEndpoint.JStr (Api.Estado r));
      ("Codigo de Rechazo", SendToEndpoint.JStr (Api.Codigo_de_Rechazo r));
      ("Descripcion de Rechazo",
       SendToEndpoint.JStr (Api.Descripcion_de_Rechazo r)) ].

(** The four columns forwarded for a record. *)
Definition forwarded (r : Api.ResultData)
  : list (string * option SendToEndpoint.Json) :=
  [ ("Referencia", Some (SendToEndpoint.JStr (Api.Referencia r)));
    ("Estado", Some (SendToEndpoint.JStr (Api.Estado r)));
    ("Codigo de Rechazo",
     Some (SendToEndpoint.JStr (Api.Codigo_de_Rechazo r)));
    ("Descripcion de Rechazo",
     Some (SendToEndpoint.JStr (Api.Descripcion_de_Rechazo r))) ].

(** The four phrases that decide the classification of the archive path. *)
Definition decisivePhrases : list string :=
  [ "no es titular"; "beneficiario no"; "no titular"; "continuar" ].

Definition notSpace (c : ascii) : bool := negb (JsString.isSpace c).

(** White space at the two ends of a text. *)
Definition startsWithSpace (s : string) : bool :=
  match s with
  | String c _ => JsString.isSpace c
  | EmptyString => false
  end.

Fixpoint endsWithSpace (s : string) : bool :=
  match s with
  | EmptyString => false
  | String c s' =>
      match s' with
      | EmptyString => JsString.isSpace c
      | String _ _ => endsWithSpace s'
      end
  end.

(** [t] is [s] without the white space around it: [s] is [t] between two
    runs of white space, and [t] neither begins nor ends with white
    space. *)
Definition trimmedOf (t s : string) : Prop :=
  (exists lead trail,
      s = lead ++ t ++ trail
      /\ allChars JsString.isSpace lead = true
      /\ allChars JsString.isSpace trail = true)
  /\ startsWithSpace t = false
  /\ endsWithSpace t = false.

(** [c] is the letter [k] or its capital: what a unit of a lower-case
    phrase stands for when case is ignored. *)
Definition foldsTo (c k : ascii) : bool :=
  Ascii.eqb c k
  || ((97 <=? JsString.code k)%N && (JsString.code k <=? 122)%N
      && (JsString.code c + 32 =? JsString.code k)%N).

Fixpoint prefixIgnoringCase (kw s : string) : bool :=
  match kw with
  | EmptyString => true
  | String k kw' =>
      match s with
      | EmptyString => false
      | String c s' => foldsTo c k && prefixIgnoringCase kw' s'
      end
  end.

(** The phrase [kw] occurs in [s], letters compared without case. *)
Fixpoint containsIgnoringCase (s kw : string) : bool :=
  prefixIgnoringCase kw s
  || match s with
     | EmptyString => false
     | String _ s' => containsIgnoringCase s' kw
     end.

(** The units a phrase of the keyword list is written with: below U+00C0
    and no capital letter. *)
Definition plainChar (k : ascii) : bool :=
  (JsString.code k <? 192)%N
  && negb ((65 <=? JsString.code k)%N && (JsString.code k <=? 90)%N).

Definition allAscii : list ascii := map ascii_of_nat (seq 0 256).

(** The exact sum of numbers that all denote non-negative integers. *)
Fixpoint integerSum (xs : list JsNumber.number) : option Z :=
  match xs with
  | [] => Some 0
  | x :: rest =>
      match integerOf x, integerSum rest with
      | Some a, Some b => if 0 <=? a then Some (a + b) else None
      | _, _ => None
      end
  end.

(** A line of the companion text whose amount field (columns 186 to 195)
    holds [amount]. *)
Fixpoint spaces (n : nat) : string :=
  match n with
  | O => EmptyString
  | S k => String " " (spaces k)
  end.

Definition amountLine (amount : string) : string := spaces 185 ++ amount.

(** A text of two records of two lines each, with the amounts [a] and [b]. *)
Definition twoRecords (a b : string) : string :=
  String "010" (amountLine a ++ String "010" (String "010" (amountLine b))).

(** The numbers written [0.1], [0.2], [0.3] and [0.30000000000000004]. *)
Definition lit_0_1 : JsNumber.number :=
  S754_finite false 7205759403792794 (-56).

Definition lit_0_2 : JsNumber.number :=
  S754_finite false 7205759403792794 (-55).

Definition lit_0_3 : JsNumber.number :=
  S754_finite false 5404319552844595 (-54).

Definition lit_0_30000000000000004 : JsNumber.number :=
  S754_finite false 5404319552844596 (-54).

(** No capital R. *)
Definition notR (c : ascii) : bool := negb (Ascii.eqb c "R").

(** A marker of a report, read off the text alone: after [pre] comes the
    word, a run [ws] of white space and a run [ds] of digits. *)
Definition markerAt (text pre ws ds rest : string) : Prop :=
  text = pre ++ "Registro" ++ ws ++ ds ++ rest
  /\ (1 <= String.length ws)%nat
  /\ allChars JsString.isSpace ws = true
  /\ (1 <= String.length ds)%nat
  /\ allChars JsString.isDigit ds = true.

(** The digits of a marker taken as far as they go, but no more than five
    of them; and taken as far as they go. *)
Definition marker5 (text pre ws ds rest : string) : Prop :=
  markerAt text pre ws ds rest
  /\ (String.length ds <= 5)%nat
  /\ (String.length ds = 5%nat \/ startsWithDigit rest = false).

Definition markerAny (text pre ws ds rest : string) : Prop :=
  markerAt text pre ws ds rest /\ startsWithDigit rest = false.

(** The tenth line of a companion text, with its four fields in place. *)
Definition sampleLine : string :=
  spaces 24 ++ "12345678 " ++ spaces 6 ++ "PEREZ JUAN" ++ spaces 36
  ++ spaces 29 ++ "REF000000001" ++ spaces 59 ++ "   1234,56".

(** The amount written as 1 followed by 308 zeros, and a row of the
    archive sheet with an amount (column N) and a status (column O). *)
Fixpoint zeros (n : nat) : string :=
  match n with
  | O => EmptyString
  | S k => String "0" (zeros k)
  end.

Definition bigAmount : string := String "1" (zeros 308).

Definition rowWithAmount (amount status : string) : list JsValue.value :=
  repeat (JsValue.VStr "") 13 ++ [JsValue.VStr amount; JsValue.VStr status].

(** * Properties *)

(** ** Strings *)

Section StringFacts.
Import JsString.

Lemma eqb_empty_length (s : string) :
  String.eqb s "" = true -> String.length s = O.
Proof. destruct s; simpl; [reflexivity | discriminate]. Qed.

(** [slice] with an offset inside the string and a non-negative end is the
    substring between the offset and the clipped end. *)
Lemma slice_inside (s : string) (from to : Z) :
  0 <= from < len s -> 0 <= to ->
  slice s from to =
  substring (Z.to_nat from)
            (Nat.min (Z.to_nat to) (String.length s) - Z.to_nat from) s.
Proof.
  intros Hfrom Hto. unfold slice, len in *.
  destruct (Z.ltb_spec from 0); [lia|].
  destruct (Z.ltb_spec to 0); [lia|].
  f_equal; lia.
Qed.

End StringFacts.

(** ** FixedFieldExtractor *)

Section SliceFixed.
Import JsString PreBcpTxt.

Lemma sliceFixed_beyond (line : string) (startCol endCol : Z) :
  (String.length line <= offsetOf startCol)%nat ->
  sliceFixed line startCol endCol = "".
Proof.
  unfold sliceFixed, offsetOf, len. intros H.
  destruct (String.eqb line ""); [reflexivity|].
  destruct (Z.ltb_spec (Z.max 0 (startCol - 1)) (Z.of_nat (String.length line)));
    [lia | reflexivity].
Qed.

Lemma sliceFixed_within (line : string) (startCol endCol : Z) :
  0 <= endCol ->
  (offsetOf startCol < String.length line)%nat ->
  sliceFixed line startCol endCol =
  trim (substring (offsetOf startCol)
                  (Nat.min (Z.to_nat endCol) (String.length line)
                   - offsetOf startCol) line).
Proof.
  unfold sliceFixed, offsetOf. intros Hend H.
  destruct (String.eqb line "") eqn:E.
  - apply eqb_empty_length in E. lia.
  - destruct (Z.ltb_spec (Z.max 0 (startCol - 1)) (len line)) as [L|L].
    + rewrite slice_inside by lia. reflexivity.
    + unfold len in L. lia.
Qed.

End SliceFixed.

(** ** AmountParser *)

Section ParseAmountSteps.
Import JsString JsNumber JsValue.

Lemma parseAmount_steps (raw : string) :
  PreBcpTxt.parseAmount raw =
  orZero (parseFloat (lastPointOnly (decimalPoint (filterStr amountChar raw)))).
Proof.
  unfold PreBcpTxt.parseAmount.
  destruct (String.eqb_spec raw "") as [->|_]; reflexivity.
Qed.

Lemma xlsx_parseAmount_steps (f : number -> string) (v : value) :
  PreBcpXlsx.parseAmount f v =
  if isNullish v then zero
  else orZero (parseFloat
                 (lastPointOnly (decimalPoint (filterStr amountChar (ToString f v))))).
Proof. reflexivity. Qed.

Lemma ibk_parseAmount_steps (f : number -> string) (v : value) :
  RechazoIbk.parseAmount f v =
  if isNullish v then zero
  else orZero (parseFloat
                 (lastPointOnly (decimalPoint (filterStr amountChar (ToString f v))))).
Proof. reflexivity. Qed.

(** On a string, the copies of the spreadsheet and archive handlers agree
    with the copy of the text handler. *)
Lemma xlsx_parseAmount_string (f : number -> string) (s : string) :
  PreBcpXlsx.parseAmount f (VStr s) = PreBcpTxt.parseAmount s.
Proof. rewrite xlsx_parseAmount_steps, parseAmount_steps. reflexivity. Qed.

Lemma ibk_parseAmount_string (f : number -> string) (s : string) :
  RechazoIbk.parseAmount f (VStr s) = PreBcpTxt.parseAmount s.
Proof. rewrite ibk_parseAmount_steps, parseAmount_steps. reflexivity. Qed.

Lemma decimalPoint_both (s : string) :
  includes s "." = true -> includes s "," = true ->
  decimalPoint s = replaceAll "," "." (removeAll "." s).
Proof. unfold decimalPoint. intros -> ->. reflexivity. Qed.

End ParseAmountSteps.

Section ParseAmountExamples.
Import JsString JsNumber JsValue.

(** C1, as the code has it: with both separators present every [.] is
    removed and [,] becomes the decimal point, so ["1,234.56"] parses as
    [1.23456]; the other four worked examples hold as written, in the text
    handler's copy and, on strings, in the two other copies. *)
Theorem parseAmount_worked_examples (f : number -> string) (raw : string) :
  includes (filterStr amountChar raw) "." = true ->
  includes (filterStr amountChar raw) "," = true ->
  PreBcpTxt.parseAmount raw =
    orZero (parseFloat
              (lastPointOnly
                 (replaceAll "," "." (removeAll "." (filterStr amountChar raw)))))
  /\ PreBcpXlsx.parseAmount f (VStr raw) = PreBcpTxt.parseAmount raw
  /\ RechazoIbk.parseAmount f (VStr raw) = PreBcpTxt.parseAmount raw
  /\ PreBcpTxt.parseAmount "1.234,56" = lit_1234_56
  /\ PreBcpTxt.parseAmount "1,234.56" = lit_1_23456
  /\ PreBcpTxt.parseAmount "1234,56" = lit_1234_56
  /\ PreBcpTxt.parseAmount "" = zero
  /\ PreBcpTxt.parseAmount "abc" = zero
  /\ nearestDouble lit_1234_56 123456 100 = true
  /\ nearestDouble lit_1_23456 123456 100000 = true.
Proof.
  intros Hdot Hcomma. split.
  - rewrite parseAmount_steps, decimalPoint_both by assumption. reflexivity.
  - split; [apply xlsx_parseAmount_string|].
    split; [apply ibk_parseAmount_string|].
    repeat split; vm_compute; reflexivity.
Qed.

Lemma parseAmount_worked_examples_witness :
  PreBcpTxt.parseAmount "S/ 1.234,56" = lit_1234_56
  /\ PreBcpXlsx.parseAmount (fun _ => "0") (VStr "S/ 1.234,56") = lit_1234_56.
Proof.
  destruct (parseAmount_worked_examples (fun _ => "0") "S/ 1.234,56")
    as (H1 & H2 & _); [reflexivity | reflexivity |].
  rewrite H2, H1. split; vm_compute; reflexivity.
Defined.

(** C1, the third-listed example as the specification words it: the code
    does not return [1234.56] on ["1,234.56"]. *)
Lemma parseAmount_us_format_counterexample :
  PreBcpTxt.parseAmount "1,234.56" <> lit_1234_56
  /\ nearestDouble (PreBcpTxt.parseAmount "1,234.56") 123456 100 = false
  /\ PreBcpXlsx.parseAmount (fun _ => "0") (VStr "1,234.56") <> lit_1234_56
  /\ RechazoIbk.parseAmount (fun _ => "0") (VStr "1,234.56") <> lit_1234_56.
Proof. repeat split; vm_compute; discriminate. Qed.

End ParseAmountExamples.

(** ** BatchAggregator *)

Section Aggregate.
Import JsNumber JsValue Api.

Lemma respond_inv (rows : list ResultData) (body : Payload) :
  respond rows = Ok body ->
  results body = rows
  /\ totalTransactions body = List.length rows
  /\ totalAmount body = sumImporte rows.
Proof. unfold respond. intros H. injection H as <-. auto. Qed.

Lemma sumImporte_snoc (rows : list ResultData) (r : ResultData) :
  sumImporte (rows ++ [r]) = add (sumImporte rows) (importe r).
Proof. unfold sumImporte. rewrite fold_left_app. reflexivity. Qed.

Lemma txt_serve_inv pdf txt code desc body :
  PreBcpTxt.serve pdf txt code desc = Ok body ->
  exists rows, respond rows = Ok body.
Proof.
  unfold PreBcpTxt.serve. destruct pdf, txt; try discriminate.
  intros H. eexists. exact H.
Qed.

Lemma xlsx_serve_inv f pdf excel code desc body :
  PreBcpXlsx.serve f pdf excel code desc = Ok body ->
  exists rows, respond rows = Ok body.
Proof.
  unfold PreBcpXlsx.serve. destruct pdf, excel as [[m|data]|]; try discriminate.
  intros H. eexists. exact H.
Qed.

Lemma ibk_serve_inv f zip body :
  RechazoIbk.serve f zip = Ok body ->
  exists rows, respond rows = Ok body.
Proof.
  unfold RechazoIbk.serve.
  destruct zip as [[m| |[m|data]]|]; try discriminate.
  intros H. eexists. exact H.
Qed.

End Aggregate.

(** ** Archive path: classification by keyword *)

Section Keywords.
Import JsString JsNumber JsValue Api RechazoIbk.

Variable f : number -> string.

Lemma ibk_serve_sheet (data : list (list value)) :
  serve f (Some (Excel (Sheet data))) =
  respond (map (buildRow f) (filter (hasStatus f) (skipn 11 data))).
Proof. reflexivity. Qed.

Lemma row_from_11 (data : list (list value)) (k : nat) (row : list value) :
  (11 <= k)%nat -> nth_error data k = Some row -> In row (skipn 11 data).
Proof.
  intros Hk Hrow. apply nth_error_In with (n := (k - 11)%nat).
  rewrite nth_error_skipn. replace (11 + (k - 11))%nat with k by lia.
  exact Hrow.
Qed.

(** Every qualifying row has its record in the answer. *)
Lemma qualifying_row_emitted (data : list (list value)) (k : nat)
      (row : list value) :
  (11 <= k)%nat -> nth_error data k = Some row -> hasStatus f row = true ->
  exists body,
    serve f (Some (Excel (Sheet data))) = Ok body
    /\ results body = map (buildRow f) (filter (hasStatus f) (skipn 11 data))
    /\ In (buildRow f row) (results body).
Proof.
  intros Hk Hrow Hst. rewrite ibk_serve_sheet. unfold respond.
  eexists. split; [reflexivity|]. simpl. split; [reflexivity|].
  apply in_map, filter_In. split; [eapply row_from_11; eauto | exact Hst].
Qed.

Lemma situacion_of_text (row : list value) (status : string) :
  get row 14 = VStr status -> situacion f row = toLowerCase status.
Proof.
  unfold situacion, orEmpty. intros ->. simpl.
  destruct (String.eqb_spec status "") as [->|_]; reflexivity.
Qed.

End Keywords.

(** ** De-duplication and sorting *)

Section DedupeSort.
Import JsArray.

Variable A : Type.
Variable eqb leb : A -> A -> bool.
Hypothesis eqb_eq : forall x y, eqb x y = true <-> x = y.
Hypothesis leb_total : forall x y, leb x y = true \/ leb y x = true.
Hypothesis leb_trans :
  forall x y z, leb x y = true -> leb y z = true -> leb x z = true.

Lemma existsb_eqb_In (x : A) (seen : list A) :
  existsb (eqb x) seen = true <-> In x seen.
Proof.
  rewrite existsb_exists. split.
  - intros (y & Hy & E). apply eqb_eq in E. now subst.
  - intros H. exists x. split; [exact H | now apply eqb_eq].
Qed.

Lemma dedupeFrom_In (xs seen : list A) (x : A) :
  In x (dedupeFrom eqb seen xs) <-> In x xs /\ ~ In x seen.
Proof.
  revert seen. induction xs as [|y r IH]; intros seen; simpl.
  - tauto.
  - destruct (existsb (eqb y) seen) eqn:E.
    + apply existsb_eqb_In in E. rewrite IH. split.
      * tauto.
      * intros [[->|H] N]; [contradiction | tauto].
    + assert (~ In y seen) as N.
      { intros H. apply existsb_eqb_In in H. congruence. }
      simpl. rewrite IH. simpl. split.
      * intros [<-|[H M]]; [tauto|]. split; [tauto|]. intros K. apply M. tauto.
      * intros [[<-|H] M]; [tauto|].
        destruct (existsb (eqb x) [y]) eqn:F.
        -- apply existsb_eqb_In in F. destruct F as [<-|[]]. tauto.
        -- right. split; [exact H|]. intros [<-|K]; [|contradiction].
           assert (existsb (eqb y) [y] = true) as G
               by (apply existsb_eqb_In; simpl; tauto).
           congruence.
Qed.

Lemma dedupeFrom_NoDup (xs seen : list A) : NoDup (dedupeFrom eqb seen xs).
Proof.
  revert seen. induction xs as [|y r IH]; intros seen; simpl.
  - constructor.
  - destruct (existsb (eqb y) seen); [apply IH|].
    constructor; [|apply IH].
    rewrite dedupeFrom_In. simpl. tauto.
Qed.

Lemma dedupe_In (xs : list A) (x : A) : In x (dedupe eqb xs) <-> In x xs.
Proof. unfold dedupe. rewrite dedupeFrom_In. simpl. tauto. Qed.

Lemma dedupe_NoDup (xs : list A) : NoDup (dedupe eqb xs).
Proof. apply dedupeFrom_NoDup. Qed.

Lemma insert_perm (x : A) (xs : list A) : Permutation (insert leb x xs) (x :: xs).
Proof.
  induction xs as [|y r IH]; simpl.
  - reflexivity.
  - destruct (leb x y); [reflexivity|].
    rewrite IH. apply perm_swap.
Qed.

Lemma sort_perm (xs : list A) : Permutation (sort leb xs) xs.
Proof.
  induction xs as [|x r IH]; simpl.
  - reflexivity.
  - rewrite insert_perm. now constructor.
Qed.

Lemma sort_In (xs : list A) (x : A) : In x (sort leb xs) <-> In x xs.
Proof.
  split; apply Permutation_in; [|symmetry]; apply sort_perm.
Qed.

Lemma sort_NoDup (xs : list A) : NoDup xs -> NoDup (sort leb xs).
Proof.
  apply Permutation_NoDup. symmetry. apply sort_perm.
Qed.

Lemma insert_sorted (x : A) (xs : list A) :
  StronglySorted (fun a b => leb a b = true) xs ->
  StronglySorted (fun a b => leb a b = true) (insert leb x xs).
Proof.
  induction 1 as [|y r Hs IH Hall]; simpl.
  - repeat constructor.
  - destruct (leb x y) eqn:E.
    + constructor; [now constructor|].
      constructor; [exact E|].
      eapply Forall_impl; [|exact Hall]. intros z. now apply leb_trans.
    + assert (leb y x = true) as Hyx
          by (destruct (leb_total x y); congruence).
      constructor; [exact IH|].
      eapply Permutation_Forall; [symmetry; apply insert_perm|].
      now constructor.
Qed.

Lemma sort_sorted (xs : list A) :
  StronglySorted (fun a b => leb a b = true) (sort leb xs).
Proof.
  induction xs as [|x r IH]; simpl; [constructor | now apply insert_sorted].
Qed.

(** A duplicate-free ascending list is strictly ascending. *)
Lemma sorted_NoDup_strict (xs : list A) :
  StronglySorted (fun a b => leb a b = true) xs -> NoDup xs ->
  StronglySorted (fun a b => leb a b = true /\ a <> b) xs.
Proof.
  induction 1 as [|x r Hs IH Hall]; intros Hnd; [constructor|].
  inversion Hnd as [|? ? Hnotin Hnd']; subst.
  constructor; [now apply IH|].
  rewrite Forall_forall in *. intros y Hy. split; [now apply Hall|].
  intros ->. contradiction.
Qed.

Lemma sort_dedupe_strict (xs : list A) :
  StronglySorted (fun a b => leb a b = true /\ a <> b)
                 (sort leb (dedupe eqb xs)).
Proof.
  apply sorted_NoDup_strict; [apply sort_sorted|].
  apply sort_NoDup, dedupe_NoDup.
Qed.

End DedupeSort.

(** ** The record-number scan *)

Section Scan.
Import JsString JsRegExp.

Lemma prefix_drop (p s : string) :
  prefix p s = true -> s = p ++ drop (String.length p) s.
Proof.
  revert s. induction p as [|c p IH]; intros s H.
  - reflexivity.
  - destruct s as [|d s]; [discriminate|].
    simpl in H. destruct (ascii_dec c d) as [->|]; [|discriminate].
    simpl. f_equal. now apply IH.
Qed.

Lemma countSpaces_drop (r : string) :
  exists ws,
    r = ws ++ drop (countSpaces r) r
    /\ String.length ws = countSpaces r
    /\ allChars isSpace ws = true.
Proof.
  induction r as [|c r (ws & E & L & W)]; simpl.
  - exists "". auto.
  - destruct (isSpace c) eqn:S.
    + exists (String c ws). simpl. rewrite S, W, L. repeat split.
      f_equal. exact E.
    + exists "". auto.
Qed.

Lemma takeDigits_drop (n : nat) (t : string) :
  t = takeDigits n t ++ drop (String.length (takeDigits n t)) t
  /\ allChars isDigit (takeDigits n t) = true
  /\ (String.length (takeDigits n t) <= n)%nat.
Proof.
  revert t. induction n as [|n IH]; intros t; simpl.
  - destruct t; simpl; auto.
  - destruct t as [|c t]; simpl; [auto with arith|].
    destruct (isDigit c) eqn:D; simpl; [|auto with arith].
    destruct (IH t) as (E & W & L). rewrite D, W. repeat split.
    + f_equal. exact E.
    + lia.
Qed.

Lemma digitValue_range (c : ascii) : isDigit c = true -> 0 <= digitValue c <= 9.
Proof.
  unfold isDigit, digitValue. intros H.
  apply andb_true_iff in H. destruct H as [L U].
  apply N.leb_le in L, U. lia.
Qed.

Lemma digitsValueFrom_range (ds : string) (acc : Z) :
  allChars isDigit ds = true -> 0 <= acc ->
  0 <= digitsValueFrom acc ds
  /\ digitsValueFrom acc ds < (acc + 1) * 10 ^ Z.of_nat (String.length ds).
Proof.
  revert acc. induction ds as [|c ds IH]; intros acc H Hacc.
  - simpl. lia.
  - cbn [allChars] in H. apply andb_true_iff in H. destruct H as [Hc H].
    apply digitValue_range in Hc.
    cbn [digitsValueFrom String.length].
    destruct (IH (acc * 10 + digitValue c) H) as [L U]; [lia|].
    split; [exact L|].
    rewrite Nat2Z.inj_succ, Z.pow_succ_r by lia.
    assert (0 < 10 ^ Z.of_nat (String.length ds)) by (apply Z.pow_pos_nonneg; lia).
    nia.
Qed.

(** What one match of the five-digit expression looks like. *)
Lemma execRegistro5_sound (s ds : string) (n : nat) :
  execRegistro5 s = Some (ds, n) ->
  exists ws rest,
    s = "Registro" ++ ws ++ ds ++ rest
    /\ (1 <= String.length ws)%nat
    /\ allChars isSpace ws = true
    /\ allChars isDigit ds = true
    /\ (1 <= String.length ds <= 5)%nat
    /\ n = (8 + String.length ws + String.length ds)%nat.
Proof.
  unfold execRegistro5, execRegistro.
  destruct (prefix "Registro" s) eqn:P; [|discriminate].
  apply prefix_drop in P. cbn [String.length] in P.
  destruct (countSpaces_drop (drop 8 s)) as (ws & E & L & W).
  destruct (countSpaces (drop 8 s)) as [|k] eqn:C; [discriminate|].
  destruct (takeDigits_drop 5 (drop (S k) (drop 8 s))) as (E' & D & U).
  destruct (takeDigits 5 (drop (S k) (drop 8 s))) as [|c cs] eqn:T;
    [discriminate|].
  intros H. injection H as <- <-.
  exists ws, (drop (String.length (String c cs)) (drop (S k) (drop 8 s))).
  repeat split; try assumption; try lia.
  - rewrite <- E', <- E. exact P.
  - cbn [String.length]. lia.
  - cbn [String.length]. lia.
Qed.

Lemma digit_not_space (c : ascii) : isDigit c = true -> isSpace c = false.
Proof.
  destruct c as [[] [] [] [] [] [] [] []]; simpl; intros H;
    try reflexivity; discriminate H.
Qed.

Lemma countSpaces_app (ws t : string) :
  allChars isSpace ws = true ->
  countSpaces (ws ++ t) = (String.length ws + countSpaces t)%nat.
Proof.
  induction ws as [|c ws IH]; simpl; [reflexivity|].
  intros H. apply andb_true_iff in H. destruct H as [-> H].
  now rewrite IH.
Qed.

Lemma drop_app (ws t : string) : drop (String.length ws) (ws ++ t) = t.
Proof. induction ws as [|c ws IH]; simpl; [now destruct t | exact IH]. Qed.

Lemma takeDigits_app (n : nat) (ds rest : string) :
  allChars isDigit ds = true -> (String.length ds <= n)%nat ->
  String.length ds = n \/ startsWithDigit rest = false ->
  takeDigits n (ds ++ rest) = ds.
Proof.
  revert n. induction ds as [|c ds IH]; intros n D L E.
  - simpl. destruct n as [|n]; [reflexivity|].
    destruct E as [E|E]; [discriminate E|].
    destruct rest as [|c r]; [reflexivity|]. simpl in *. now rewrite E.
  - cbn [allChars] in D. apply andb_true_iff in D. destruct D as [Dc D].
    destruct n as [|n]; [simpl in L; lia|].
    cbn [append takeDigits]. rewrite Dc. f_equal.
    apply IH; [exact D | simpl in L; lia |].
    destruct E as [E|E]; [left; simpl in E; lia | now right].
Qed.

Lemma prefix_append (p x : string) : prefix p (p ++ x) = true.
Proof.
  induction p as [|c p IH]; [now destruct x|].
  cbn [append prefix]. destruct (ascii_dec c c); [exact IH | contradiction].
Qed.

(** Every text of that shape is matched at its head. *)
Lemma execRegistro5_complete (ws ds rest : string) :
  (1 <= String.length ws)%nat ->
  allChars isSpace ws = true ->
  allChars isDigit ds = true ->
  (1 <= String.length ds <= 5)%nat ->
  String.length ds = 5%nat \/ startsWithDigit rest = false ->
  execRegistro5 ("Registro" ++ ws ++ ds ++ rest)
  = Some (ds, (8 + String.length ws + String.length ds)%nat).
Proof.
  intros Lw W D Ld E. unfold execRegistro5, execRegistro.
  rewrite prefix_append.
  change (drop 8 ("Registro" ++ ws ++ ds ++ rest)) with (ws ++ ds ++ rest).
  assert (countSpaces (ds ++ rest) = O) as C0.
  { destruct ds as [|c ds]; [simpl in Ld; lia|].
    cbn [allChars] in D. apply andb_true_iff in D. destruct D as [Dc _].
    simpl. now rewrite (digit_not_space c Dc). }
  rewrite (countSpaces_app ws _ W), C0, Nat.add_0_r.
  destruct (String.length ws) as [|k] eqn:Lk; [lia|].
  rewrite <- Lk, drop_app, takeDigits_app by (auto; lia).
  destruct ds as [|c ds]; [simpl in Ld; lia | reflexivity].
Qed.

Lemma matchAllFrom_In (exec : string -> option (string * nat))
      (s : string) (skip : nat) (cap : string) :
  In cap (matchAllFrom exec skip s) ->
  exists t n, exec t = Some (cap, n).
Proof.
  revert skip. induction s as [|c s IH]; intros skip H; simpl in H.
  - destruct H.
  - destruct skip as [|k]; [|now apply IH in H].
    destruct (exec (String c s)) as [[cap' n]|] eqn:E.
    + destruct H as [<-|H]; [eauto | now apply IH in H].
    + now apply IH in H.
Qed.

Lemma includes_false_tail (c : ascii) (s kw : string) :
  includes (String c s) kw = false ->
  prefix kw (String c s) = false /\ includes s kw = false.
Proof. cbn [includes]. intros H. now apply orb_false_iff in H. Qed.

Lemma matchAllFrom_no_word (digits : string -> string) (s : string)
      (skip : nat) :
  includes s "Registro" = false ->
  matchAllFrom (execRegistro digits) skip s = [].
Proof.
  revert skip. induction s as [|c s IH]; intros skip H; [reflexivity|].
  apply includes_false_tail in H. destruct H as [P H].
  cbn [matchAllFrom]. destruct skip; [|now apply IH].
  unfold execRegistro at 1. rewrite P. now apply IH.
Qed.

End Scan.

Section RegistroExtractor.
Import JsString JsRegExp JsArray PreBcpTxt.

Lemma Zleb_total (x y : Z) : (x <=? y) = true \/ (y <=? x) = true.
Proof. rewrite !Z.leb_le. lia. Qed.

Lemma Zleb_trans (x y z : Z) :
  (x <=? y) = true -> (y <=? z) = true -> (x <=? z) = true.
Proof. rewrite !Z.leb_le. lia. Qed.

Lemma extract_In (pdfText : string) (r : Z) :
  In r (extractRegistrosFromPdf pdfText) <->
  exists ds, In ds (matchAll execRegistro5 pdfText) /\ r = digitsValue ds.
Proof.
  unfold extractRegistrosFromPdf.
  rewrite sort_In, (dedupe_In _ _ Z.eqb_eq), in_map_iff.
  split; intros (ds & H1 & H2); exists ds; auto.
Qed.

Lemma extract_NoDup (pdfText : string) :
  NoDup (extractRegistrosFromPdf pdfText).
Proof. apply sort_NoDup, (dedupe_NoDup _ _ Z.eqb_eq). Qed.

Lemma extract_ascending (pdfText : string) :
  StronglySorted Z.lt (extractRegistrosFromPdf pdfText).
Proof.
  unfold extractRegistrosFromPdf.
  pose proof (sort_dedupe_strict _ _ _ Z.eqb_eq Zleb_total Zleb_trans
                (map digitsValue (matchAll execRegistro5 pdfText))) as H.
  induction H as [|x r Hs IH Hall]; constructor; [exact IH|].
  eapply Forall_impl; [|exact Hall].
  intros y [L N]. apply Z.leb_le in L. lia.
Qed.

Lemma extract_range (pdfText : string) (r : Z) :
  In r (extractRegistrosFromPdf pdfText) -> 0 <= r <= 99999.
Proof.
  rewrite extract_In. intros (ds & Hin & ->).
  apply matchAllFrom_In in Hin. destruct Hin as (t & n & E).
  apply execRegistro5_sound in E.
  destruct E as (ws & rest & _ & _ & _ & D & L & _).
  destruct (digitsValueFrom_range ds 0 D) as [Lo Hi]; [lia|].
  unfold digitsValue. split; [exact Lo|].
  assert (10 ^ Z.of_nat (String.length ds) <= 10 ^ 5)
    by (apply Z.pow_le_mono_r; lia).
  lia.
Qed.

Lemma extract_no_match (pdfText : string) :
  matchAll execRegistro5 pdfText = [] -> extractRegistrosFromPdf pdfText = [].
Proof. unfold extractRegistrosFromPdf. now intros ->. Qed.

End RegistroExtractor.

(** ** RowIndexMapper and the two PDF-driven handlers *)

Section TextPath.
Import JsString JsNumber JsArray Api PreBcpTxt.

Lemma pushRow_fold (lines : list string) (code desc : string)
      (indices : list Z) (acc : list ResultData) :
  fold_left (pushRow lines code desc) indices acc =
  (acc ++ map (fun i => buildRow (lineAt lines (i - 1)) code desc)
              (filter (lineInRange lines) indices))%list.
Proof.
  revert acc. induction indices as [|i r IH]; intros acc; simpl.
  - now rewrite app_nil_r.
  - rewrite IH. unfold pushRow, lineInRange.
    destruct ((1 <=? i) && (i <=? Z.of_nat (List.length lines))); simpl.
    + now rewrite <- app_assoc.
    + reflexivity.
Qed.

Lemma txt_serve_present (pdfText txtContent code desc : string) :
  serve (Some pdfText) (Some txtContent) code desc =
  respond
    (map (fun i => buildRow (lineAt (split "010" txtContent) (i - 1)) code desc)
         (filter (lineInRange (split "010" txtContent)) (lineIndices pdfText))).
Proof. unfold serve. rewrite pushRow_fold. reflexivity. Qed.

Lemma lineIndices_In (pdfText : string) (i : Z) :
  In i (lineIndices pdfText) <->
  exists r, In r (extractRegistrosFromPdf pdfText) /\ i = r * MULT.
Proof.
  unfold lineIndices. rewrite sort_In, in_map_iff.
  split; intros (r & H1 & H2); exists r; auto.
Qed.

Lemma lineInRange_spec (lines : list string) (i : Z) :
  lineInRange lines i = true <-> 1 <= i <= Z.of_nat (List.length lines).
Proof. unfold lineInRange. rewrite andb_true_iff, !Z.leb_le. tauto. Qed.

End TextPath.

Section TabularPath.
Import JsString JsNumber JsValue JsArray Api PreBcpXlsx.

Lemma rowEqb_eq (a b : rowNumber) : rowEqb a b = true <-> a = b.
Proof.
  destruct a as [x|], b as [y|]; simpl; try (split; congruence).
  rewrite Z.eqb_eq. split; congruence.
Qed.

Lemma rowLeb_total (a b : rowNumber) : rowLeb a b = true \/ rowLeb b a = true.
Proof.
  destruct a as [x|], b as [y|]; simpl; auto. rewrite !Z.leb_le. lia.
Qed.

Lemma rowLeb_trans (a b c : rowNumber) :
  rowLeb a b = true -> rowLeb b c = true -> rowLeb a c = true.
Proof.
  destruct a as [x|], b as [y|], c as [z|]; simpl; auto; try discriminate.
  rewrite !Z.leb_le. lia.
Qed.

Lemma inRange_spec (A : Type) (data : list A) (i : rowNumber) :
  inRange data i = true <->
  exists z, i = Fin z /\ 0 <= z < Z.of_nat (List.length data).
Proof.
  destruct i as [z|]; simpl.
  - rewrite andb_true_iff, Z.leb_le, Z.ltb_lt. split.
    + intros H. exists z. auto.
    + intros (z' & E & H). injection E as ->. exact H.
  - split; [discriminate | intros (z & E & _); discriminate].
Qed.

Lemma xlsx_serve_present (f : number -> string) (pdfText : string)
      (data : list (list value)) (code desc : string) :
  serve f (Some pdfText) (Some (Sheet data)) code desc =
  respond
    (map (buildRow f code desc)
         (map (rowAt data)
              (filter (inRange data) (extractRowNumbersFromPdf pdfText)))).
Proof. reflexivity. Qed.

Lemma rowNumbers_NoDup (pdfText : string) :
  NoDup (extractRowNumbersFromPdf pdfText).
Proof. apply sort_NoDup, (dedupe_NoDup _ _ rowEqb_eq). Qed.

Lemma rowNumbers_ascending (pdfText : string) :
  StronglySorted rowLt (extractRowNumbersFromPdf pdfText).
Proof.
  apply (sort_dedupe_strict _ _ _ rowEqb_eq rowLeb_total rowLeb_trans).
Qed.

End TabularPath.

Section IndexMapper.
Import JsString JsNumber JsValue JsArray Api.

(** C5: neither transform lets an index outside its target through, and
    neither fails the batch.  On the text path the records answered are
    those of the indices [registro * 2] with [1 <= i <= totalLines], read at
    line [i - 1]; on the spreadsheet path those of the row numbers
    [registro + 1] with [0 <= i < rowCount]; every other index is left out
    and the answer is still a success. *)
Theorem out_of_range_indices_dropped
        (f : number -> string) (pdfText txtContent : string)
        (data : list (list value)) (code desc : string) :
  let lines := split "010" txtContent in
  let accepted := filter (lineInRange lines) (lineIndices pdfText) in
  let rowNumbers := PreBcpXlsx.extractRowNumbersFromPdf pdfText in
  let validRows := filter (PreBcpXlsx.inRange data) rowNumbers in
  PreBcpTxt.serve (Some pdfText) (Some txtContent) code desc =
    respond (map (fun i => PreBcpTxt.buildRow
                             (PreBcpTxt.lineAt lines (i - 1)) code desc)
                 accepted)
  /\ Forall (fun i => 1 <= i <= Z.of_nat (List.length lines)) accepted
  /\ (forall r, In r (PreBcpTxt.extractRegistrosFromPdf pdfText) ->
        (In (r * 2) accepted <-> 1 <= r * 2 <= Z.of_nat (List.length lines)))
  /\ PreBcpXlsx.serve f (Some pdfText) (Some (Sheet data)) code desc =
       respond (map (PreBcpXlsx.buildRow f code desc)
                    (map (PreBcpXlsx.rowAt data) validRows))
  /\ Forall (fun i => exists z, i = PreBcpXlsx.Fin z
                                /\ 0 <= z < Z.of_nat (List.length data))
            validRows
  /\ (forall i, In i rowNumbers ->
        (In i validRows <->
         exists z, i = PreBcpXlsx.Fin z
                   /\ 0 <= z < Z.of_nat (List.length data))).
Proof.
  intros lines accepted rowNumbers validRows.
  split; [apply txt_serve_present|].
  split.
  { apply Forall_forall. intros i Hi. apply filter_In in Hi.
    now apply lineInRange_spec. }
  split.
  { intros r Hr. unfold accepted. rewrite filter_In, lineInRange_spec.
    split; [tauto|]. intros H. split; [|exact H].
    apply lineIndices_In. exists r. split; [exact Hr | reflexivity]. }
  split; [apply xlsx_serve_present|].
  split.
  { apply Forall_forall. intros i Hi. apply filter_In in Hi.
    now apply inRange_spec. }
  intros i Hi. unfold validRows. rewrite filter_In, inRange_spec. tauto.
Qed.

Lemma out_of_range_indices_dropped_witness :
  PreBcpTxt.serve (Some "Registro 1 Registro 40")
                  (Some (linesThen 3 "")) "R001" "DOCUMENTO ERRADO"
  = respond [PreBcpTxt.buildRow "" "R001" "DOCUMENTO ERRADO"]
  /\ ~ In 80 (filter (lineInRange (split "010" (linesThen 3 "")))
                     (lineIndices "Registro 1 Registro 40")).
Proof.
  destruct (out_of_range_indices_dropped
              (fun _ => "0") "Registro 1 Registro 40" (linesThen 3 "") []
              "R001" "DOCUMENTO ERRADO") as (Hs & _ & Hdrop & _).
  split; [rewrite Hs; reflexivity|].
  intros Hin. apply (Hdrop 40) in Hin; [simpl in Hin; lia|].
  vm_compute. tauto.
Defined.

(** C2, as the code has it: a report without any record marker is not an
    error.  With both files present, each PDF-driven handler answers with
    the success payload of no record, zero transactions and amount 0; the
    error answer is kept for a missing file. *)
Theorem no_markers_is_empty_success
        (f : number -> string) (pdfText txtContent : string)
        (data : list (list value)) (code desc : string) :
  (PreBcpTxt.extractRegistrosFromPdf pdfText = [] ->
   PreBcpTxt.serve (Some pdfText) (Some txtContent) code desc
   = Ok emptyPayload)
  /\ (PreBcpXlsx.extractRowNumbersFromPdf pdfText = [] ->
      PreBcpXlsx.serve f (Some pdfText) (Some (Sheet data)) code desc
      = Ok emptyPayload)
  /\ PreBcpTxt.serve None (Some txtContent) code desc
     = Error 500 "Missing files"
  /\ PreBcpTxt.serve (Some pdfText) None code desc
     = Error 500 "Missing files"
  /\ PreBcpXlsx.serve f None (Some (Sheet data)) code desc
     = Error 500 "Missing files"
  /\ PreBcpXlsx.serve f (Some pdfText) None code desc
     = Error 500 "Missing files".
Proof.
  split.
  { intros H. rewrite txt_serve_present. unfold lineIndices. rewrite H.
    reflexivity. }
  split.
  { intros H. rewrite xlsx_serve_present, H. reflexivity. }
  repeat split.
Qed.

Lemma no_markers_is_empty_success_witness :
  PreBcpTxt.serve (Some "Informe sin rechazos") (Some (linesThen 3 ""))
                  "R001" "DOCUMENTO ERRADO"
  = Ok emptyPayload
  /\ PreBcpXlsx.serve (fun _ => "0") (Some "Informe sin rechazos")
                      (Some (Sheet [[]; []])) "R001" "DOCUMENTO ERRADO"
     = Ok emptyPayload.
Proof.
  destruct (no_markers_is_empty_success
              (fun _ => "0") "Informe sin rechazos" (linesThen 3 "")
              [[]; []] "R001" "DOCUMENTO ERRADO") as (H1 & H2 & _).
  split; [apply H1 | apply H2]; reflexivity.
Defined.

(** C2, as the specification words it: both files are present, the report
    holds no marker, and the answer is a success with no record instead of
    an error. *)
Lemma no_markers_counterexample :
  PreBcpTxt.extractRegistrosFromPdf "Informe sin rechazos" = []
  /\ PreBcpTxt.serve (Some "Informe sin rechazos") (Some (linesThen 3 ""))
                     "R001" "DOCUMENTO ERRADO"
     = Ok emptyPayload
  /\ PreBcpXlsx.extractRowNumbersFromPdf "Informe sin rechazos" = []
  /\ PreBcpXlsx.serve (fun _ => "0") (Some "Informe sin rechazos")
                      (Some (Sheet [[]; []])) "R001" "DOCUMENTO ERRADO"
     = Ok emptyPayload
  /\ ~ (exists status message,
          PreBcpTxt.serve (Some "Informe sin rechazos")
                          (Some (linesThen 3 "")) "R001" "DOCUMENTO ERRADO"
          = Error status message).
Proof.
  repeat split. intros (status & message & H). discriminate H.
Qed.

End IndexMapper.

(** ** AmountParser: totality, sign and unparsable input *)

Section CharClasses.
Import JsString.

Lemma allChars_app (p : ascii -> bool) (s t : string) :
  allChars p (s ++ t) = allChars p s && allChars p t.
Proof.
  induction s as [|c s IH]; simpl; [reflexivity|].
  now rewrite IH, andb_assoc.
Qed.

Lemma allChars_filterStr (p keep : ascii -> bool) (s : string) :
  allChars p s = true -> allChars p (filterStr keep s) = true.
Proof.
  induction s as [|c s IH]; simpl; [reflexivity|].
  intros H. apply andb_true_iff in H. destruct H as [Hc H].
  destruct (keep c); simpl; [rewrite Hc|]; auto.
Qed.

Lemma allChars_kept (keep : ascii -> bool) (s : string) :
  allChars keep (filterStr keep s) = true.
Proof.
  induction s as [|c s IH]; simpl; [reflexivity|].
  destruct (keep c) eqn:K; simpl; [rewrite K|]; auto.
Qed.

Lemma allChars_and (p q : ascii -> bool) (s : string) :
  allChars p s = true -> allChars q s = true ->
  allChars (fun c => p c && q c) s = true.
Proof.
  induction s as [|c s IH]; simpl; [reflexivity|].
  intros Hp Hq. apply andb_true_iff in Hp, Hq.
  destruct Hp as [-> Hp], Hq as [-> Hq]. simpl. now apply IH.
Qed.

Lemma allChars_impl (p q : ascii -> bool) (s : string) :
  (forall c, p c = true -> q c = true) ->
  allChars p s = true -> allChars q s = true.
Proof.
  intros Hpq. induction s as [|c s IH]; simpl; [reflexivity|].
  intros H. apply andb_true_iff in H. destruct H as [Hc H].
  rewrite (Hpq c Hc). now apply IH.
Qed.

Lemma allChars_replaceAll (p : ascii -> bool) (c d : ascii) (s : string) :
  p d = true -> allChars p s = true -> allChars p (replaceAll c d s) = true.
Proof.
  intros Hd. unfold replaceAll. induction s as [|x s IH]; simpl; [reflexivity|].
  intros H. apply andb_true_iff in H. destruct H as [Hx H].
  destruct (Ascii.eqb x c); [rewrite Hd | rewrite Hx]; now apply IH.
Qed.

Lemma allChars_not_exists (p : ascii -> bool) (s : string) :
  existsChar p s = false -> allChars (fun c => negb (p c)) s = true.
Proof.
  induction s as [|c s IH]; simpl; [reflexivity|].
  intros H. apply orb_false_iff in H. destruct H as [-> H]. now apply IH.
Qed.

Lemma allChars_split (p : ascii -> bool) (sep : ascii) (s : string) :
  allChars p s = true ->
  Forall (fun x => allChars p x = true) (split sep s).
Proof.
  induction s as [|c s IH]; simpl.
  - repeat constructor.
  - intros H. apply andb_true_iff in H. destruct H as [Hc H].
    specialize (IH H). destruct (Ascii.eqb c sep).
    + now constructor.
    + destruct (split sep s) as [|h t].
      * repeat constructor. simpl. now rewrite Hc.
      * inversion IH as [|? ? Hh Ht]; subst.
        constructor; [simpl; now rewrite Hc | exact Ht].
Qed.

Lemma allChars_join (p : ascii -> bool) (parts : list string) :
  Forall (fun x => allChars p x = true) parts ->
  allChars p (join parts) = true.
Proof.
  induction 1 as [|h t Hh Ht IH]; simpl; [reflexivity|].
  now rewrite allChars_app, Hh, IH.
Qed.

Lemma Forall_removelast (A : Type) (P : A -> Prop) (l : list A) :
  Forall P l -> Forall P (removelast l).
Proof.
  induction 1 as [|x l Hx Hl IH]; simpl; [constructor|].
  destruct l; [constructor | now constructor].
Qed.

Lemma Forall_last (A : Type) (P : A -> Prop) (l : list A) (d : A) :
  P d -> Forall P l -> P (last l d).
Proof.
  intros Hd. induction 1 as [|x l Hx Hl IH]; simpl; [exact Hd|].
  destruct l; [exact Hx | exact IH].
Qed.

Lemma allChars_lastPointOnly (p : ascii -> bool) (s : string) :
  p "."%char = true -> allChars p s = true ->
  allChars p (lastPointOnly s) = true.
Proof.
  intros Hdot H. unfold lastPointOnly.
  destruct (2 <? List.length (split "." s))%nat; [|exact H].
  pose proof (allChars_split p "." s H) as F.
  rewrite !allChars_app. cbn [allChars]. rewrite Hdot.
  rewrite allChars_join by now apply Forall_removelast.
  rewrite (Forall_last _ (fun x => allChars p x = true)); auto.
Qed.

Lemma allChars_decimalPoint (p : ascii -> bool) (s : string) :
  p "."%char = true -> allChars p s = true ->
  allChars p (decimalPoint s) = true.
Proof.
  intros Hdot H. unfold decimalPoint, removeAll.
  destruct (includes s "." && includes s ",").
  - apply allChars_replaceAll; [exact Hdot|]. now apply allChars_filterStr.
  - destruct (includes s ","); [now apply allChars_replaceAll | exact H].
Qed.

(** The string handed to [parseFloat] keeps every property of the raw
    characters that the decimal point has too. *)
Lemma allChars_prepared (p : ascii -> bool) (raw : string) :
  p "."%char = true -> allChars p raw = true ->
  allChars p (lastPointOnly (decimalPoint (filterStr amountChar raw))) = true.
Proof.
  intros Hdot H.
  apply allChars_lastPointOnly, allChars_decimalPoint, allChars_filterStr; auto.
Qed.

Lemma amountChar_prepared (raw : string) :
  allChars amountChar
           (lastPointOnly (decimalPoint (filterStr amountChar raw))) = true.
Proof.
  apply allChars_lastPointOnly, allChars_decimalPoint, allChars_kept;
    reflexivity.
Qed.

Lemma separator_cases (c : ascii) :
  separatorChar c = true -> c = ","%char \/ c = "."%char \/ c = "-"%char.
Proof.
  unfold separatorChar. rewrite !orb_true_iff, !Ascii.eqb_eq. tauto.
Qed.

Lemma amountChar_no_digit (c : ascii) :
  amountChar c && negb (isDigit c) = true -> separatorChar c = true.
Proof.
  unfold amountChar, separatorChar. destruct (isDigit c); simpl.
  - discriminate.
  - now rewrite andb_true_r.
Qed.

Lemma separators_prepared (raw : string) :
  existsChar isDigit raw = false ->
  allChars separatorChar
           (lastPointOnly (decimalPoint (filterStr amountChar raw))) = true.
Proof.
  intros H. apply allChars_lastPointOnly, allChars_decimalPoint;
    try reflexivity.
  apply allChars_impl with (p := fun c => amountChar c && negb (isDigit c)).
  - apply amountChar_no_digit.
  - apply allChars_and; [apply allChars_kept|].
    now apply allChars_filterStr, allChars_not_exists.
Qed.

End CharClasses.

Section ParseFloatFacts.
Import JsString JsNumber.

Lemma binary_round_aux_signed (sx : bool) (mx ex : Z) (lx : location) :
  signed sx (binary_round_aux prec emax sx mx ex lx).
Proof.
  unfold binary_round_aux.
  destruct (shr_fexp prec emax mx ex lx) as [mrs' e'].
  destruct (shr_fexp prec emax _ e' loc_Exact) as [mrs'' e''].
  destruct (shr_m mrs''); [reflexivity | | exact I].
  destruct (e'' <=? emax - prec); reflexivity.
Qed.

Lemma binary_round_signed (sx : bool) (m : positive) (e : Z) :
  signed sx (binary_round prec emax sx m e).
Proof.
  unfold binary_round. destruct (shl_align m e _) as [mz ez].
  apply binary_round_aux_signed.
Qed.

Lemma ofDecimal_signed (neg : bool) (m e : Z) : signed neg (ofDecimal neg m e).
Proof.
  unfold ofDecimal. destruct m as [|p|p]; simpl; auto.
  destruct (0 <=? e); [apply binary_round_signed|].
  unfold SFdiv.
  destruct (SFdiv_core_binary prec emax _ 0 _ 0) as [[mz ez] lz].
  rewrite xorb_false_r. apply binary_round_aux_signed.
Qed.

Lemma parseUnsigned_signed (neg : bool) (s : string) :
  signed neg (parseUnsigned neg s).
Proof.
  unfold parseUnsigned. destruct (prefix "Infinity" s); [reflexivity|].
  destruct (spanDigits s) as [ip r1].
  destruct (match r1 with
            | EmptyString => _
            | String c r => _
            end) as [[fp r2] dot].
  destruct ip, fp; simpl; auto using ofDecimal_signed.
Qed.

Lemma allChars_trimStart (p : ascii -> bool) (s : string) :
  allChars p s = true -> allChars p (trimStart s) = true.
Proof.
  induction s as [|c s IH]; simpl; [reflexivity|].
  intros H. destruct (isSpace c); [|exact H].
  apply andb_true_iff in H. now apply IH.
Qed.

(** Without a minus sign [parseFloat] gives no negative number. *)
Lemma parseFloat_no_minus (s : string) :
  allChars notMinus s = true -> signed false (parseFloat s).
Proof.
  intros H. apply allChars_trimStart in H. unfold parseFloat.
  destruct (trimStart s) as [|c r]; [exact I|].
  cbn [allChars] in H. apply andb_true_iff in H. destruct H as [Hc _].
  unfold notMinus in Hc. apply negb_true_iff in Hc. rewrite Hc.
  destruct (Ascii.eqb c "+"); apply parseUnsigned_signed.
Qed.

Lemma spanDigits_separator (c : ascii) (r : string) :
  separatorChar c = true -> spanDigits (String c r) = ("", String c r).
Proof.
  intros H. apply separator_cases in H. destruct H as [-> | [-> | ->]]; reflexivity.
Qed.

Lemma spanDigits_separators (s : string) :
  allChars separatorChar s = true -> spanDigits s = ("", s).
Proof.
  destruct s as [|c r]; [reflexivity|]. cbn [allChars]. intros H.
  apply andb_true_iff in H. now apply spanDigits_separator.
Qed.

Lemma parseUnsigned_separators (neg : bool) (s : string) :
  allChars separatorChar s = true -> parseUnsigned neg s = NaN.
Proof.
  intros H. unfold parseUnsigned. rewrite (spanDigits_separators s H).
  destruct s as [|c r]; [reflexivity|].
  cbn [allChars] in H. apply andb_true_iff in H. destruct H as [Hc Hr].
  apply separator_cases in Hc.
  destruct Hc as [-> | [-> | ->]]; try reflexivity.
  cbn. rewrite (spanDigits_separators r Hr). reflexivity.
Qed.

(** A string of separators only has no numeric prefix. *)
Lemma parseFloat_separators (s : string) :
  allChars separatorChar s = true -> parseFloat s = NaN.
Proof.
  intros H. unfold parseFloat. destruct s as [|c r]; [reflexivity|].
  cbn [allChars] in H. apply andb_true_iff in H. destruct H as [Hc Hr].
  pose proof (parseUnsigned_separators true r Hr) as Hneg.
  pose proof (parseUnsigned_separators false (String c r)) as Hpos.
  cbn [allChars] in Hpos.
  apply separator_cases in Hc. destruct Hc as [-> | [-> | ->]]; cbn.
  - apply Hpos. now rewrite Hr.
  - apply Hpos. now rewrite Hr.
  - exact Hneg.
Qed.

Lemma orZero_not_NaN (x : number) : isNaN (orZero x) = false.
Proof. destruct x as [s|s| |s m e]; reflexivity. Qed.

Lemma orZero_nonNegative (x : number) :
  signed false x -> nonNegative (orZero x) = true.
Proof. destruct x as [s|s| |s m e]; simpl; intros H; subst; reflexivity. Qed.

End ParseFloatFacts.

(** ** AmountParser: when the result is finite *)

Section RoundingBounds.
Import JsNumber.

Lemma digits2_pos_size (p : positive) : digits2_pos p = Pos.size p.
Proof. induction p; simpl; congruence. Qed.

Lemma Zdigits2_log2 (p : positive) :
  Zdigits2 (Zpos p) = Z.log2 (Zpos p) + 1.
Proof.
  unfold Zdigits2. rewrite digits2_pos_size.
  destruct p; simpl; try rewrite Pos2Z.inj_succ; lia.
Qed.

Lemma Zdigits2_nonneg (m : Z) : 0 <= Zdigits2 m.
Proof. destruct m; simpl; lia. Qed.

Lemma Zdigits2_le (m k : Z) : 0 <= k -> 0 <= m < 2 ^ k -> Zdigits2 m <= k.
Proof.
  intros Hk [Hm Hlt]. destruct m as [|p|p]; [simpl; lia | | lia].
  rewrite Zdigits2_log2.
  assert (Z.log2 (Zpos p) < k) by (apply Z.log2_lt_pow2; lia).
  lia.
Qed.

Lemma Zdigits2_gt (m : Z) : 0 <= m -> m < 2 ^ Zdigits2 m.
Proof.
  intros Hm. destruct m as [|p|p]; [simpl; lia | | lia].
  rewrite Zdigits2_log2.
  destruct (Z.log2_spec (Zpos p)) as [_ H]; [lia|].
  exact H.
Qed.

Lemma shr_1_bound (r : shr_record) (k : Z) :
  0 <= k -> 0 <= shr_m r < 2 ^ k ->
  0 <= shr_m (shr_1 r) < 2 ^ Z.max (k - 1) 0.
Proof.
  intros Hk [Hm Hlt]. destruct r as [m rb sb]. cbn [shr_m] in *.
  destruct (Z.eq_dec k 0) as [->|Hk0].
  - assert (m = 0) as -> by (change (2 ^ 0) with 1 in Hlt; lia).
    simpl. lia.
  - replace (Z.max (k - 1) 0) with (k - 1) by lia.
    replace k with (Z.succ (k - 1)) in Hlt by lia.
    rewrite Z.pow_succ_r in Hlt by lia.
    assert (0 < 2 ^ (k - 1)) by (apply Z.pow_pos_nonneg; lia).
    destruct m as [|[p|p|]|p]; cbn [shr_1 shr_m]; lia.
Qed.

Lemma iter_shr_1_bound (p : positive) :
  forall (r : shr_record) (k : Z),
    0 <= k -> 0 <= shr_m r < 2 ^ k ->
    0 <= shr_m (iter_pos shr_1 p r) < 2 ^ Z.max (k - Zpos p) 0.
Proof.
  induction p as [p IH|p IH|]; intros r k Hk H; cbn [iter_pos].
  - apply shr_1_bound in H; [|exact Hk].
    apply IH in H; [|lia]. apply IH in H; [|lia].
    replace (Z.max (k - Z.pos p~1) 0)
      with (Z.max (Z.max (Z.max (k - 1) 0 - Z.pos p) 0 - Z.pos p) 0) by lia.
    exact H.
  - apply IH in H; [|lia]. apply IH in H; [|lia].
    replace (Z.max (k - Z.pos p~0) 0)
      with (Z.max (Z.max (k - Z.pos p) 0 - Z.pos p) 0) by lia.
    exact H.
  - now apply shr_1_bound.
Qed.

Lemma shr_m_of_loc (m : Z) (l : location) : shr_m (shr_record_of_loc m l) = m.
Proof. destruct l as [|[]]; reflexivity. Qed.

Lemma snd_shr_fexp (m e : Z) (l : location) :
  snd (shr_fexp prec emax m e l) = Z.max e (fexp prec emax (Zdigits2 m + e)).
Proof.
  unfold shr_fexp, shr.
  destruct (fexp prec emax (Zdigits2 m + e) - e) eqn:E; simpl; lia.
Qed.

Lemma fst_shr_fexp_bound (m e k : Z) (l : location) :
  0 <= k -> 0 <= m < 2 ^ k ->
  0 <= shr_m (fst (shr_fexp prec emax m e l))
  < 2 ^ Z.max (k - (snd (shr_fexp prec emax m e l) - e)) 0.
Proof.
  intros Hk H. unfold shr_fexp, shr.
  destruct (fexp prec emax (Zdigits2 m + e) - e) as [|p|p] eqn:E;
    cbn [fst snd].
  - rewrite shr_m_of_loc. replace (Z.max (k - (e - e)) 0) with k by lia.
    exact H.
  - replace (Z.max (k - (e + Z.pos p - e)) 0) with (Z.max (k - Z.pos p) 0)
      by lia.
    apply iter_shr_1_bound; [exact Hk|]. now rewrite shr_m_of_loc.
  - rewrite shr_m_of_loc. replace (Z.max (k - (e - e)) 0) with k by lia.
    exact H.
Qed.

Lemma round_nearest_even_bound (m : Z) (l : location) :
  m <= round_nearest_even m l <= m + 1.
Proof. destruct l as [|[]]; simpl; try destruct (Z.even m); lia. Qed.

Lemma fexp_value (e : Z) : fexp prec emax e = Z.max (e - 53) (-1074).
Proof. reflexivity. Qed.

(** Rounding a magnitude below [2^1023] does not overflow. *)
Lemma binary_round_aux_no_overflow (sx s : bool) (mx ex : Z) (lx : location) :
  0 <= mx -> ex <= 970 -> Zdigits2 mx + ex <= 1023 ->
  binary_round_aux prec emax sx mx ex lx <> S754_infinity s.
Proof.
  intros Hmx Hex Hmag. unfold binary_round_aux.
  pose proof (snd_shr_fexp mx ex lx) as E1.
  pose proof (fst_shr_fexp_bound mx ex (Zdigits2 mx) lx (Zdigits2_nonneg mx)
                                 (conj Hmx (Zdigits2_gt mx Hmx))) as B1.
  destruct (shr_fexp prec emax mx ex lx) as [mrs' e']. cbn [fst snd] in *.
  set (m1 := round_nearest_even (shr_m mrs') (loc_of_shr_record mrs')).
  pose proof (round_nearest_even_bound (shr_m mrs') (loc_of_shr_record mrs'))
    as R. fold m1 in R.
  pose proof (snd_shr_fexp m1 e' loc_Exact) as E2.
  destruct (shr_fexp prec emax m1 e' loc_Exact) as [mrs'' e''].
  cbn [fst snd] in *.
  destruct (shr_m mrs''); [discriminate | | discriminate].
  destruct (Z.leb_spec e'' (emax - prec)) as [_|L]; [discriminate|].
  exfalso. rewrite fexp_value in E1, E2.
  set (K := Z.max (Zdigits2 mx - (e' - ex)) 0) in *.
  assert (0 <= K) by (unfold K; lia).
  assert (Zdigits2 m1 <= K + 1).
  { apply Zdigits2_le; [lia|].
    replace (K + 1) with (Z.succ K) by lia.
    rewrite Z.pow_succ_r by lia.
    assert (0 < 2 ^ K) by (apply Z.pow_pos_nonneg; lia).
    lia. }
  unfold emax, prec in L. unfold K in *. lia.
Qed.

Lemma iter_xO_value (m d : positive) :
  Zpos (Pos.iter xO m d) = Zpos m * 2 ^ Zpos d.
Proof.
  induction d as [|d IH] using Pos.peano_ind.
  - simpl. lia.
  - rewrite Pos.iter_succ, Pos2Z.inj_xO, IH, Pos2Z.inj_succ.
    rewrite Z.pow_succ_r by lia. lia.
Qed.

Lemma binary_round_no_overflow (sx s : bool) (m : positive) (e : Z) :
  e <= 970 -> Zdigits2 (Zpos m) + e <= 1023 ->
  binary_round prec emax sx m e <> S754_infinity s.
Proof.
  intros He Hmag. unfold binary_round, shl_align.
  change (Z.pos (digits2_pos m)) with (Zdigits2 (Zpos m)).
  pose proof (fexp_value (Zdigits2 (Zpos m) + e)) as F.
  destruct (fexp prec emax (Zdigits2 (Zpos m) + e) - e) as [|d|d] eqn:E.
  - apply binary_round_aux_no_overflow; [lia | exact He | exact Hmag].
  - apply binary_round_aux_no_overflow; [lia | exact He | exact Hmag].
  - apply binary_round_aux_no_overflow; [lia | lia |].
    assert (Zdigits2 (Zpos (Pos.iter xO m d)) <= Zdigits2 (Zpos m) + Zpos d).
    { apply Zdigits2_le.
      - pose proof (Zdigits2_nonneg (Zpos m)). lia.
      - rewrite iter_xO_value.
        rewrite Z.pow_add_r by (pose proof (Zdigits2_nonneg (Zpos m)); lia).
        pose proof (Zdigits2_gt (Zpos m)).
        assert (0 < 2 ^ Zpos d) by (apply Z.pow_pos_nonneg; lia).
        nia. }
    lia.
Qed.

End RoundingBounds.

Section NoOverflow.
Import JsString JsNumber.

Lemma SFdiv_no_overflow (neg s : bool) (p q : positive) :
  Zdigits2 (Zpos p) <= 1023 ->
  SFdiv prec emax (S754_finite neg p 0) (S754_finite false q 0)
  <> S754_infinity s.
Proof.
  intros Hp. unfold SFdiv, SFdiv_core_binary. cbv zeta.
  set (e' := Z.min _ (0 - 0)).
  assert (e' <= 0) as He' by (unfold e'; lia).
  set (m' := match 0 - 0 - e' with
             | 0 => Zpos p
             | Z.pos _ => Z.shiftl (Zpos p) (0 - 0 - e')
             | Z.neg _ => 0
             end).
  assert (m' = Zpos p * 2 ^ (- e')) as Hm'.
  { unfold m'. destruct (0 - 0 - e') as [|k|k] eqn:E.
    - replace (- e') with 0 by lia. lia.
    - rewrite Z.shiftl_mul_pow2 by lia. f_equal. f_equal. lia.
    - lia. }
  pose proof (Z_div_mod m' (Zpos q) eq_refl) as D.
  destruct (Z.div_eucl m' (Zpos q)) as [qq r]. destruct D as [D R].
  assert (0 < 2 ^ (- e')) by (apply Z.pow_pos_nonneg; lia).
  clearbody m' e'.
  assert (0 <= m') by (rewrite Hm'; apply Z.mul_nonneg_nonneg; lia).
  assert (0 <= qq) as Q0.
  { destruct (Z.le_gt_cases 0 qq) as [|N]; [assumption|]. exfalso.
    assert (Z.pos q * qq <= Z.pos q * (-1))
      by (apply Z.mul_le_mono_nonneg_l; lia).
    lia. }
  assert (qq <= m') as Q1.
  { assert (1 * qq <= Z.pos q * qq)
      by (apply Z.mul_le_mono_nonneg_r; lia).
    lia. }
  apply binary_round_aux_no_overflow; [exact Q0 | lia |].
  assert (Zdigits2 qq <= Zdigits2 (Zpos p) + - e').
  { pose proof (Zdigits2_nonneg (Zpos p)) as Hd.
    apply Zdigits2_le; [lia|]. split; [exact Q0|].
    rewrite Z.pow_add_r by lia.
    assert (Zpos p < 2 ^ Zdigits2 (Zpos p)) by (apply Zdigits2_gt; lia).
    assert (Zpos p * 2 ^ (- e') < 2 ^ Zdigits2 (Zpos p) * 2 ^ (- e'))
      by (apply Z.mul_lt_mono_pos_r; lia).
    lia. }
  lia.
Qed.

Lemma ofDecimal_no_overflow (neg s : bool) (m e : Z) :
  0 <= m < 2 ^ 1023 -> e <= 0 -> ofDecimal neg m e <> S754_infinity s.
Proof.
  intros Hm He. unfold ofDecimal.
  destruct m as [|p|p]; [discriminate | | discriminate].
  assert (Zdigits2 (Zpos p) <= 1023) by (apply Zdigits2_le; lia).
  destruct (Z.leb_spec 0 e).
  - replace e with 0 by lia. change (Z.to_pos (10 ^ 0)) with 1%positive.
    rewrite Pos.mul_1_r. apply binary_round_no_overflow; lia.
  - now apply SFdiv_no_overflow.
Qed.

Lemma strlen_app (s t : string) :
  String.length (s ++ t) = (String.length s + String.length t)%nat.
Proof. induction s as [|c s IH]; simpl; congruence. Qed.

Lemma spanDigits_spec (s ip r : string) :
  spanDigits s = (ip, r) -> s = ip ++ r /\ allChars isDigit ip = true.
Proof.
  revert ip r. induction s as [|c s IH]; intros ip r; simpl.
  - intros H. injection H as <- <-. auto.
  - destruct (isDigit c) eqn:D.
    + destruct (spanDigits s) as [ds rest]. intros H. injection H as <- <-.
      destruct (IH ds rest eq_refl) as [-> W]. simpl. now rewrite D, W.
    + intros H. injection H as <- <-. auto.
Qed.

Lemma amountChar_letters (c : ascii) :
  amountChar c = true ->
  Ascii.eqb c "e" = false /\ Ascii.eqb c "E" = false /\ c <> "I"%char.
Proof.
  intros H. repeat split.
  - destruct (Ascii.eqb_spec c "e") as [->|]; [discriminate H | reflexivity].
  - destruct (Ascii.eqb_spec c "E") as [->|]; [discriminate H | reflexivity].
  - intros ->. discriminate H.
Qed.

Lemma exponentPart_amount (r : string) :
  allChars amountChar r = true -> exponentPart r = 0.
Proof.
  destruct r as [|c r]; [reflexivity|]. cbn [allChars]. intros H.
  apply andb_true_iff in H. destruct H as [Hc _].
  apply amountChar_letters in Hc. destruct Hc as (E1 & E2 & _).
  unfold exponentPart. now rewrite E1, E2.
Qed.

Lemma prefix_Infinity_amount (s : string) :
  allChars amountChar s = true -> prefix "Infinity" s = false.
Proof.
  destruct s as [|c r]; [reflexivity|]. cbn [allChars]. intros H.
  apply andb_true_iff in H. destruct H as [Hc _].
  apply amountChar_letters in Hc. destruct Hc as (_ & _ & N).
  cbn [prefix]. destruct (ascii_dec "I" c) as [E|_]; [congruence | reflexivity].
Qed.

Lemma pow10_307 : 10 ^ 307 < 2 ^ 1023.
Proof. vm_compute. reflexivity. Qed.

Lemma parseUnsigned_no_overflow (neg s0 : bool) (s : string) :
  allChars amountChar s = true -> (String.length s <= 307)%nat ->
  parseUnsigned neg s <> S754_infinity s0.
Proof.
  intros Ha Hlen. unfold parseUnsigned.
  rewrite (prefix_Infinity_amount s Ha).
  destruct (spanDigits s) as [ip r1] eqn:S1.
  apply spanDigits_spec in S1. destruct S1 as [-> Dip].
  rewrite allChars_app in Ha. apply andb_true_iff in Ha.
  destruct Ha as [_ Ha]. rewrite strlen_app in Hlen.
  assert (exists fp r2 dot,
             match r1 with
             | EmptyString => (EmptyString, r1, false)
             | String c r =>
                 if Ascii.eqb c "." then
                   let '(fp, r2) := spanDigits r in (fp, r2, true)
                 else (EmptyString, r1, false)
             end = (fp, r2, dot)
             /\ allChars isDigit fp = true
             /\ allChars amountChar r2 = true
             /\ (String.length fp <= String.length r1)%nat)
    as (fp & r2 & dot & -> & Dfp & Ar2 & Lfp).
  { destruct r1 as [|c r]; [exists "", "", false; auto|].
    destruct (Ascii.eqb c ".").
    - destruct (spanDigits r) as [fp r2] eqn:S2.
      apply spanDigits_spec in S2. destruct S2 as [-> Dfp].
      cbn [allChars] in Ha. apply andb_true_iff in Ha. destruct Ha as [_ Ha].
      rewrite allChars_app in Ha. apply andb_true_iff in Ha.
      exists fp, r2, true. repeat split; try tauto.
      cbn [String.length]. rewrite strlen_app. lia.
    - exists "", (String c r), false. repeat split; auto. simpl. lia. }
  assert (ofDecimal neg (digitsValue (ip ++ fp))
                    (exponentPart r2 - Z.of_nat (String.length fp))
          <> S754_infinity s0) as Hfin.
  { rewrite (exponentPart_amount r2 Ar2).
    destruct (digitsValueFrom_range (ip ++ fp) 0) as [Lo Hi];
      [now rewrite allChars_app, Dip, Dfp | lia |].
    apply ofDecimal_no_overflow; [|lia].
    split; [exact Lo|].
    assert (10 ^ Z.of_nat (String.length (ip ++ fp)) <= 10 ^ 307).
    { apply Z.pow_le_mono_r; [lia|]. rewrite strlen_app. lia. }
    pose proof pow10_307. unfold digitsValue. lia. }
  destruct ip, fp; [discriminate | exact Hfin | exact Hfin | exact Hfin].
Qed.

Lemma length_trimStart (s : string) :
  (String.length (trimStart s) <= String.length s)%nat.
Proof.
  induction s as [|c s IH]; simpl; [lia|].
  destruct (isSpace c); simpl; lia.
Qed.

Lemma parseFloat_no_overflow (s0 : bool) (s : string) :
  allChars amountChar s = true -> (String.length s <= 307)%nat ->
  parseFloat s <> S754_infinity s0.
Proof.
  intros Ha Hlen. unfold parseFloat.
  pose proof (allChars_trimStart _ _ Ha) as Ha'.
  pose proof (length_trimStart s) as Hl.
  destruct (trimStart s) as [|c r]; [discriminate|].
  assert (allChars amountChar r = true /\ (String.length r <= 307)%nat)
    as [Ar Lr].
  { cbn [allChars] in Ha'. apply andb_true_iff in Ha'.
    simpl in Hl. split; [tauto | lia]. }
  destruct (Ascii.eqb c "-"); [now apply parseUnsigned_no_overflow|].
  destruct (Ascii.eqb c "+"); [now apply parseUnsigned_no_overflow|].
  apply parseUnsigned_no_overflow; [exact Ha' | lia].
Qed.

Lemma length_filterStr (keep : ascii -> bool) (s : string) :
  (String.length (filterStr keep s) <= String.length s)%nat.
Proof.
  induction s as [|c s IH]; simpl; [lia|]. destruct (keep c); simpl; lia.
Qed.

Lemma length_mapStr (f : ascii -> ascii) (s : string) :
  String.length (mapStr f s) = String.length s.
Proof. induction s as [|c s IH]; simpl; congruence. Qed.

Lemma length_decimalPoint (s : string) :
  (String.length (decimalPoint s) <= String.length s)%nat.
Proof.
  unfold decimalPoint, replaceAll, removeAll.
  destruct (includes s "." && includes s ",").
  - rewrite length_mapStr. apply length_filterStr.
  - destruct (includes s ","); [rewrite length_mapStr|]; lia.
Qed.

Lemma join_app (l1 l2 : list string) :
  join (l1 ++ l2)%list = join l1 ++ join l2.
Proof.
  induction l1 as [|h t IH]; simpl; [reflexivity|].
  rewrite IH. clear IH. induction h as [|c h IH]; simpl; congruence.
Qed.

Lemma split_join_length (sep : ascii) (s : string) :
  (String.length (join (split sep s)) + List.length (split sep s)
   = S (String.length s))%nat.
Proof.
  induction s as [|c s IH]; simpl; [reflexivity|].
  destruct (Ascii.eqb c sep); simpl; [lia|].
  destruct (split sep s) as [|h t]; simpl in *; lia.
Qed.

Lemma length_lastPointOnly (s : string) :
  (String.length (lastPointOnly s) <= String.length s)%nat.
Proof.
  unfold lastPointOnly.
  destruct (Nat.ltb_spec 2 (List.length (split "." s))) as [L|_]; [|lia].
  pose proof (split_join_length "." s) as J.
  destruct (split "." s) as [|h t] eqn:E; [simpl in L; lia|].
  rewrite (app_removelast_last "" (l := h :: t)) in J at 1 by discriminate.
  rewrite join_app, !strlen_app in J. rewrite !strlen_app.
  cbn [join fold_right String.length] in *. rewrite strlen_app in J.
  cbn [String.length] in J. lia.
Qed.

Lemma prepared_length (raw : string) :
  (String.length (lastPointOnly (decimalPoint (filterStr amountChar raw)))
   <= String.length raw)%nat.
Proof.
  pose proof (length_lastPointOnly (decimalPoint (filterStr amountChar raw))).
  pose proof (length_decimalPoint (filterStr amountChar raw)).
  pose proof (length_filterStr amountChar raw). lia.
Qed.

Lemma orZero_finite (x : number) :
  (forall s, x <> S754_infinity s) -> isFinite (orZero x) = true.
Proof.
  destruct x as [s|s| |s m e]; intros H; try reflexivity.
  now destruct (H s).
Qed.

End NoOverflow.

Section ParseAmountTotal.
Import JsString JsNumber JsValue.

Lemma parseAmount_no_digit (raw : string) :
  existsChar isDigit raw = false -> PreBcpTxt.parseAmount raw = zero.
Proof.
  intros H. rewrite parseAmount_steps.
  now rewrite parseFloat_separators by now apply separators_prepared.
Qed.

Lemma parseAmount_nonNegative (raw : string) :
  existsChar (fun c => Ascii.eqb c "-") raw = false ->
  nonNegative (PreBcpTxt.parseAmount raw) = true.
Proof.
  intros H. rewrite parseAmount_steps.
  apply orZero_nonNegative, parseFloat_no_minus.
  apply allChars_prepared; [reflexivity|].
  now apply allChars_not_exists in H.
Qed.

Lemma parseAmount_finite (raw : string) :
  (String.length raw <= 307)%nat ->
  isFinite (PreBcpTxt.parseAmount raw) = true.
Proof.
  intros H. rewrite parseAmount_steps. apply orZero_finite. intros s.
  apply parseFloat_no_overflow; [apply amountChar_prepared|].
  pose proof (prepared_length raw). lia.
Qed.

Lemma xlsx_parseAmount_as_text (f : number -> string) (v : value) :
  PreBcpXlsx.parseAmount f v =
  if isNullish v then zero else PreBcpTxt.parseAmount (ToString f v).
Proof. rewrite xlsx_parseAmount_steps, parseAmount_steps. reflexivity. Qed.

Lemma ibk_parseAmount_as_text (f : number -> string) (v : value) :
  RechazoIbk.parseAmount f v =
  if isNullish v then zero else PreBcpTxt.parseAmount (ToString f v).
Proof. rewrite ibk_parseAmount_steps, parseAmount_steps. reflexivity. Qed.

(** C3, as the code has it: every copy of [parseAmount] returns a number
    on every input and never [NaN]; an input without a digit, and an absent
    one, gives 0.0; the result is not negative when the input holds no
    minus sign, and finite when it is at most 307 code units long.  The
    copies of the spreadsheet and archive handlers are the text handler's
    copy on the string form of their argument. *)
Theorem parseAmount_total
        (f : number -> string) (raw : string) (v : value) :
  isNaN (PreBcpTxt.parseAmount raw) = false
  /\ (existsChar isDigit raw = false -> PreBcpTxt.parseAmount raw = zero)
  /\ (existsChar (fun c => Ascii.eqb c "-") raw = false ->
      nonNegative (PreBcpTxt.parseAmount raw) = true)
  /\ ((String.length raw <= 307)%nat ->
      isFinite (PreBcpTxt.parseAmount raw) = true)
  /\ PreBcpXlsx.parseAmount f v =
     (if isNullish v then zero else PreBcpTxt.parseAmount (ToString f v))
  /\ RechazoIbk.parseAmount f v =
     (if isNullish v then zero else PreBcpTxt.parseAmount (ToString f v))
  /\ isNaN (PreBcpXlsx.parseAmount f v) = false
  /\ isNaN (RechazoIbk.parseAmount f v) = false.
Proof.
  split; [rewrite parseAmount_steps; apply orZero_not_NaN|].
  split; [apply parseAmount_no_digit|].
  split; [apply parseAmount_nonNegative|].
  split; [apply parseAmount_finite|].
  split; [apply xlsx_parseAmount_as_text|].
  split; [apply ibk_parseAmount_as_text|].
  rewrite xlsx_parseAmount_steps, ibk_parseAmount_steps.
  destruct (isNullish v); split; try reflexivity; apply orZero_not_NaN.
Qed.

Lemma parseAmount_total_witness :
  PreBcpTxt.parseAmount "S/ --,." = zero
  /\ nonNegative (PreBcpTxt.parseAmount "S/ 1.234,56") = true
  /\ isFinite (PreBcpTxt.parseAmount "S/ 1.234,56") = true
  /\ PreBcpXlsx.parseAmount (fun _ => "0") VUndefined = zero.
Proof.
  destruct (parseAmount_total (fun _ => "0") "S/ --,." VUndefined)
    as (_ & H0 & _ & _ & Hx & _).
  destruct (parseAmount_total (fun _ => "0") "S/ 1.234,56" VNull)
    as (_ & _ & Hpos & Hfin & _).
  split; [apply H0; reflexivity|].
  split; [apply Hpos; reflexivity|].
  split; [apply Hfin; simpl; lia|].
  rewrite Hx. reflexivity.
Defined.

(** C3, as the specification words it: a minus sign ahead of the digits
    gives a negative amount, and a run of 309 digits gives [Infinity]. *)
Lemma parseAmount_negative_or_infinite_counterexample :
  PreBcpTxt.parseAmount "-5" = lit_minus_5
  /\ nonNegative (PreBcpTxt.parseAmount "-5") = false
  /\ PreBcpTxt.parseAmount (nines 309) = S754_infinity false
  /\ isFinite (PreBcpTxt.parseAmount (nines 309)) = false
  /\ RechazoIbk.parseAmount (fun _ => "0") (VStr "-5") = lit_minus_5
  /\ PreBcpXlsx.parseAmount (fun _ => "0") (VStr "-5") = lit_minus_5.
Proof. repeat split; vm_compute; reflexivity. Qed.

End ParseAmountTotal.

(** * Further properties of the handlers *)

(** ** AmountParser: what the cleaning and the separators do *)

Section AmountSeparators.
Import JsString JsNumber.

Lemma filterStr_app (keep : ascii -> bool) (a b : string) :
  filterStr keep (a ++ b) = filterStr keep a ++ filterStr keep b.
Proof.
  induction a as [|c a IH]; simpl; [reflexivity|].
  destruct (keep c); simpl; now rewrite IH.
Qed.

Lemma filterStr_none (keep : ascii -> bool) (s : string) :
  allChars (fun c => negb (keep c)) s = true -> filterStr keep s = "".
Proof.
  induction s as [|c s IH]; simpl; [reflexivity|].
  intros H. apply andb_true_iff in H. destruct H as [Hc H].
  apply negb_true_iff in Hc. rewrite Hc. now apply IH.
Qed.

Lemma filterStr_all (keep : ascii -> bool) (s : string) :
  allChars keep s = true -> filterStr keep s = s.
Proof.
  induction s as [|c s IH]; simpl; [reflexivity|].
  intros H. apply andb_true_iff in H. destruct H as [-> H].
  now rewrite IH.
Qed.

Lemma prefix_empty (s : string) : prefix "" s = true.
Proof. now destruct s. Qed.

Lemma includes_char (s : string) (c : ascii) :
  includes s (String c "") = existsChar (fun x => Ascii.eqb x c) s.
Proof.
  induction s as [|x s IH]; [reflexivity|].
  cbn [includes existsChar prefix]. rewrite IH, prefix_empty.
  destruct (ascii_dec c x) as [->|N].
  - now rewrite Ascii.eqb_refl.
  - destruct (Ascii.eqb_spec x c) as [->|_]; [contradiction | reflexivity].
Qed.

Lemma existsChar_filterStr (p keep : ascii -> bool) (s : string) :
  existsChar p s = false -> existsChar p (filterStr keep s) = false.
Proof.
  induction s as [|c s IH]; simpl; [reflexivity|].
  intros H. apply orb_false_iff in H. destruct H as [Hc H].
  destruct (keep c); simpl; [rewrite Hc|]; auto.
Qed.

Lemma existsChar_replaced (c d : ascii) (s : string) :
  c <> d -> existsChar (fun x => Ascii.eqb x c) (replaceAll c d s) = false.
Proof.
  intros N. unfold replaceAll. induction s as [|x s IH]; simpl; [reflexivity|].
  rewrite IH, orb_false_r.
  destruct (Ascii.eqb_spec x c) as [->|Nx].
  - destruct (Ascii.eqb_spec d c) as [->|_]; [contradiction | reflexivity].
  - destruct (Ascii.eqb_spec x c) as [->|_]; [contradiction | reflexivity].
Qed.

Lemma replaceAll_absent (c d : ascii) (s : string) :
  existsChar (fun x => Ascii.eqb x c) s = false -> replaceAll c d s = s.
Proof.
  unfold replaceAll. induction s as [|x s IH]; simpl; [reflexivity|].
  intros H. apply orb_false_iff in H. destruct H as [-> H]. now rewrite IH.
Qed.

Lemma filterStr_comma_to_point (s : string) :
  filterStr amountChar (replaceAll "," "." s)
  = replaceAll "," "." (filterStr amountChar s).
Proof.
  unfold replaceAll. induction s as [|x s IH]; simpl; [reflexivity|].
  destruct (Ascii.eqb_spec x ",") as [->|N].
  - simpl. now rewrite IH.
  - destruct (amountChar x); simpl; rewrite IH; [|reflexivity].
    destruct (Ascii.eqb_spec x ",") as [->|_]; [contradiction | reflexivity].
Qed.

Lemma decimalPoint_no_point (s : string) :
  includes s "." = false -> decimalPoint s = replaceAll "," "." s.
Proof.
  intros H. unfold decimalPoint. rewrite H. simpl.
  destruct (includes s ",") eqn:C; [reflexivity|].
  rewrite includes_char in C. now rewrite replaceAll_absent.
Qed.

Lemma decimalPoint_no_comma (s : string) :
  includes s "," = false -> decimalPoint s = s.
Proof.
  intros H. unfold decimalPoint. rewrite H, andb_false_r. reflexivity.
Qed.

(** X1: characters other than digits, [,], [.] and [-] play no part in
    the amount: dropping a run of them anywhere in the text leaves the
    result unchanged. *)
Theorem parseAmount_ignores_other_characters (a junk b : string) :
  allChars (fun c => negb (amountChar c)) junk = true ->
  PreBcpTxt.parseAmount (a ++ junk ++ b) = PreBcpTxt.parseAmount (a ++ b).
Proof.
  intros H. rewrite !parseAmount_steps, !filterStr_app.
  now rewrite (filterStr_none amountChar junk H).
Qed.

Lemma parseAmount_ignores_other_characters_witness :
  PreBcpTxt.parseAmount "1 234,56" = PreBcpTxt.parseAmount "1234,56"
  /\ PreBcpTxt.parseAmount "S/ 1234,56" = PreBcpTxt.parseAmount "1234,56".
Proof.
  split.
  - apply (parseAmount_ignores_other_characters "1" " " "234,56"). reflexivity.
  - apply (parseAmount_ignores_other_characters "" "S/ " "1234,56"). reflexivity.
Defined.

(** X2: in a text without any [.], every [,] acts exactly as a [.] would:
    the amount is that of the text with its commas turned into points. *)
Theorem parseAmount_comma_is_point (raw : string) :
  includes raw "." = false ->
  PreBcpTxt.parseAmount raw = PreBcpTxt.parseAmount (replaceAll "," "." raw).
Proof.
  intros H. rewrite includes_char in H.
  rewrite !parseAmount_steps, filterStr_comma_to_point.
  rewrite decimalPoint_no_point
    by (rewrite includes_char; now apply existsChar_filterStr).
  rewrite decimalPoint_no_comma; [reflexivity|].
  rewrite includes_char. now apply existsChar_replaced.
Qed.

Lemma parseAmount_comma_is_point_witness :
  PreBcpTxt.parseAmount "1,234,567" = PreBcpTxt.parseAmount "1.234.567".
Proof. apply (parseAmount_comma_is_point "1,234,567"). reflexivity. Defined.

End AmountSeparators.

Section AmountPoints.
Import JsString JsNumber.

Lemma countChar_app (c : ascii) (a b : string) :
  countChar c (a ++ b) = (countChar c a + countChar c b)%nat.
Proof. induction a as [|x a IH]; simpl; [reflexivity | rewrite IH; lia]. Qed.

Lemma countChar_absent (c : ascii) (s : string) :
  existsChar (fun x => Ascii.eqb x c) s = false <-> countChar c s = O.
Proof.
  induction s as [|x s IH]; simpl; [tauto|].
  rewrite orb_false_iff, IH. destruct (Ascii.eqb x c); split.
  - intros [H _]. discriminate H.
  - intros H. discriminate H.
  - tauto.
  - intros H. split; [reflexivity | exact H].
Qed.

Lemma split_parts_no_sep (sep : ascii) (s : string) :
  Forall (fun x => countChar sep x = O) (split sep s).
Proof.
  induction s as [|c s IH]; simpl; [repeat constructor|].
  destruct (Ascii.eqb c sep) eqn:E; [now constructor|].
  destruct (split sep s) as [|h t]; [repeat constructor; simpl; now rewrite E|].
  inversion IH as [|? ? Hh Ht]; subst.
  constructor; [simpl; now rewrite E | exact Ht].
Qed.

Lemma split_length_count (sep : ascii) (s : string) :
  List.length (split sep s) = S (countChar sep s).
Proof.
  induction s as [|c s IH]; simpl; [reflexivity|].
  destruct (Ascii.eqb c sep); simpl; [now rewrite IH|].
  destruct (split sep s) as [|h t]; simpl in *; [discriminate IH | exact IH].
Qed.

Lemma join_no_sep (sep : ascii) (parts : list string) :
  Forall (fun x => countChar sep x = O) parts ->
  countChar sep (join parts) = O.
Proof.
  induction 1 as [|h t Hh Ht IH]; simpl; [reflexivity|].
  now rewrite countChar_app, Hh, IH.
Qed.

Lemma lastPointOnly_points (s : string) :
  (countChar "." (lastPointOnly s) <= 1)%nat.
Proof.
  unfold lastPointOnly. pose proof (split_length_count "." s) as L.
  pose proof (split_parts_no_sep "." s) as F.
  destruct (Nat.ltb_spec 2 (List.length (split "." s))) as [_|Hn]; [|lia].
  rewrite !countChar_app.
  rewrite join_no_sep by now apply Forall_removelast.
  rewrite (Forall_last _ (fun x => countChar "." x = O)); auto.
Qed.

Lemma decimalPoint_commas (s : string) : countChar "," (decimalPoint s) = O.
Proof.
  unfold decimalPoint.
  destruct (includes s "." && includes s ",").
  - apply countChar_absent. now apply existsChar_replaced.
  - destruct (includes s ",") eqn:C.
    + apply countChar_absent. now apply existsChar_replaced.
    + apply countChar_absent. now rewrite <- includes_char.
Qed.

Lemma allChars_not_char (c : ascii) (s : string) :
  countChar c s = O -> allChars (fun x => negb (Ascii.eqb x c)) s = true.
Proof. intros H. apply allChars_not_exists. now apply countChar_absent. Qed.

Lemma countChar_not_char (c : ascii) (s : string) :
  allChars (fun x => negb (Ascii.eqb x c)) s = true -> countChar c s = O.
Proof.
  induction s as [|x s IH]; simpl; [reflexivity|].
  intros H. apply andb_true_iff in H. destruct H as [Hx H].
  apply negb_true_iff in Hx. rewrite Hx. now apply IH.
Qed.

(** X3: whatever the input, the text that reaches [parseFloat] holds no
    comma and at most one point: every point but the last one has been
    taken for a thousands separator. *)
Theorem parseAmount_single_point (raw : string) :
  PreBcpTxt.parseAmount raw = orZero (parseFloat (prepared raw))
  /\ countChar "," (prepared raw) = O
  /\ (countChar "." (prepared raw) <= 1)%nat.
Proof.
  split; [apply parseAmount_steps|]. unfold prepared.
  split; [|apply lastPointOnly_points].
  apply countChar_not_char, allChars_lastPointOnly; [reflexivity|].
  apply allChars_not_char, decimalPoint_commas.
Qed.

End AmountPoints.

(** ** Integers below [2^53] are represented exactly *)

Section ExactIntegers.
Import JsString JsNumber.

Lemma binary_round_aux_canonical (s : bool) (m : positive) (e : Z) :
  Zdigits2 (Zpos m) = 53 -> -1074 <= e <= 971 ->
  binary_round_aux prec emax s (Zpos m) e loc_Exact = S754_finite s m e.
Proof.
  intros D He. unfold binary_round_aux, shr_fexp.
  rewrite D, fexp_value.
  replace (Z.max (53 + e - 53) (-1074) - e) with 0 by lia.
  cbn [shr shr_record_of_loc shr_m loc_of_shr_record round_nearest_even].
  rewrite D, fexp_value.
  replace (Z.max (53 + e - 53) (-1074) - e) with 0 by lia.
  cbn [shr shr_record_of_loc shr_m].
  destruct (Z.leb_spec e (emax - prec)) as [_|L]; [reflexivity|].
  unfold emax, prec in L. lia.
Qed.

Lemma Zdigits2_pos (p : positive) : 1 <= Zdigits2 (Zpos p).
Proof.
  rewrite Zdigits2_log2. pose proof (Z.log2_nonneg (Zpos p)). lia.
Qed.

Lemma Zdigits2_shifted (p q k : positive) :
  Zpos q = Zpos p * 2 ^ Zpos k ->
  Zdigits2 (Zpos q) = Zdigits2 (Zpos p) + Zpos k.
Proof.
  intros H. rewrite !Zdigits2_log2, H, Z.log2_mul_pow2 by lia. lia.
Qed.

(** A mantissa of at most 53 bits is only shifted, never rounded. *)
Lemma binary_round_exact (s : bool) (p : positive) :
  Zdigits2 (Zpos p) <= 53 ->
  exists m e,
    binary_round prec emax s p 0 = S754_finite s m e
    /\ e <= 0
    /\ Zpos m = Zpos p * 2 ^ (- e).
Proof.
  intros D. pose proof (Zdigits2_pos p) as D1.
  unfold binary_round, shl_align.
  change (Z.pos (digits2_pos p)) with (Zdigits2 (Zpos p)).
  rewrite fexp_value.
  destruct (Z.max (Zdigits2 (Z.pos p) + 0 - 53) (-1074) - 0) as [|k|k] eqn:E.
  - exists p, 0. rewrite binary_round_aux_canonical by lia.
    repeat split; lia.
  - lia.
  - exists (Pos.iter xO p k), (Z.max (Zdigits2 (Z.pos p) + 0 - 53) (-1074)).
    pose proof (iter_xO_value p k) as V.
    rewrite binary_round_aux_canonical.
    + repeat split; [lia|]. rewrite V. f_equal. f_equal. lia.
    + rewrite (Zdigits2_shifted p _ k V). lia.
    + lia.
Qed.

Lemma allChars_digit_not (c : ascii) (s : string) :
  isDigit c = false -> allChars isDigit s = true ->
  existsChar (fun x => Ascii.eqb x c) s = false.
Proof.
  intros N. induction s as [|x s IH]; simpl; [reflexivity|].
  intros H. apply andb_true_iff in H. destruct H as [Hx H].
  rewrite (IH H), orb_false_r.
  destruct (Ascii.eqb_spec x c) as [->|_]; [congruence | reflexivity].
Qed.

Lemma spanDigits_all (ds : string) :
  allChars isDigit ds = true -> spanDigits ds = (ds, "").
Proof.
  induction ds as [|c ds IH]; simpl; [reflexivity|].
  intros H. apply andb_true_iff in H. destruct H as [-> H].
  now rewrite (IH H).
Qed.

Lemma append_empty (s : string) : s ++ "" = s.
Proof. induction s as [|c s IH]; simpl; congruence. Qed.

Lemma digit_letters (c : ascii) :
  isDigit c = true ->
  Ascii.eqb c "-" = false /\ Ascii.eqb c "+" = false /\ c <> "I"%char.
Proof.
  intros H. repeat split.
  - destruct (Ascii.eqb_spec c "-") as [->|]; [discriminate H | reflexivity].
  - destruct (Ascii.eqb_spec c "+") as [->|]; [discriminate H | reflexivity].
  - intros ->. discriminate H.
Qed.

(** On a run of digits [parseFloat] is the rounding of its value. *)
Lemma parseFloat_digits (ds : string) :
  allChars isDigit ds = true -> ds <> "" ->
  parseFloat ds = ofDecimal false (digitsValue ds) 0.
Proof.
  intros D N. destruct ds as [|c r]; [contradiction|].
  pose proof D as D0. cbn [allChars] in D0.
  apply andb_true_iff in D0. destruct D0 as [Dc _].
  destruct (digit_letters c Dc) as (E1 & E2 & NI).
  unfold parseFloat. cbn [trimStart].
  rewrite (digit_not_space c Dc), E1, E2.
  unfold parseUnsigned. rewrite (spanDigits_all _ D).
  cbn [prefix]. destruct (ascii_dec "I" c) as [E|_]; [congruence|].
  cbn [exponentPart String.length]. now rewrite append_empty.
Qed.

Lemma prepared_digits (ds : string) :
  allChars isDigit ds = true -> prepared ds = ds.
Proof.
  intros D. unfold prepared.
  rewrite filterStr_all
    by (apply allChars_impl with (p := isDigit); [|exact D];
        intros c Hc; unfold amountChar; now rewrite Hc).
  rewrite decimalPoint_no_comma
    by (rewrite includes_char; now apply allChars_digit_not).
  unfold lastPointOnly. rewrite split_length_count.
  assert (countChar "." ds = O) as ->
      by (apply countChar_absent; now apply allChars_digit_not).
  reflexivity.
Qed.

Lemma ofDecimal_integer (s : bool) (p : positive) :
  ofDecimal s (Zpos p) 0 = binary_round prec emax s p 0.
Proof.
  unfold ofDecimal. cbn [Z.leb Z.compare]. change (Z.to_pos (10 ^ 0)) with 1%positive.
  now rewrite Pos.mul_1_r.
Qed.

Lemma integerOf_exact (s : bool) (p m : positive) (e : Z) :
  e <= 0 -> Zpos m = Zpos p * 2 ^ (- e) ->
  integerOf (S754_finite s m e) = Some (cond_Zopp s (Zpos p)).
Proof.
  intros He V. unfold integerOf.
  assert (0 < 2 ^ (- e)) by (apply Z.pow_pos_nonneg; lia).
  destruct (Z.leb_spec 0 e).
  - replace e with 0 in * by lia. simpl in V. do 2 f_equal. lia.
  - rewrite V, Z.mod_mul, Z.div_mul by lia. reflexivity.
Qed.

(** X4: an amount written with digits only, of value below [2^53], is
    parsed exactly: the number returned is that integer. *)
Theorem parseAmount_integer_exact (ds : string) :
  allChars isDigit ds = true -> ds <> "" -> digitsValue ds < 2 ^ 53 ->
  integerOf (PreBcpTxt.parseAmount ds) = Some (digitsValue ds).
Proof.
  intros D N B. rewrite parseAmount_steps. fold (prepared ds).
  rewrite prepared_digits, parseFloat_digits by assumption.
  destruct (digitsValueFrom_range ds 0 D) as [Lo _]; [lia|].
  fold (digitsValue ds) in Lo.
  destruct (digitsValue ds) as [|p|p]; [reflexivity | | lia].
  rewrite ofDecimal_integer.
  destruct (binary_round_exact false p) as (m & e & -> & He & V).
  { apply Zdigits2_le; lia. }
  cbn [orZero truthy]. exact (integerOf_exact false p m e He V).
Qed.

Lemma parseAmount_integer_exact_witness :
  integerOf (PreBcpTxt.parseAmount "0001500") = Some 1500.
Proof.
  apply (parseAmount_integer_exact "0001500");
    [reflexivity | discriminate | reflexivity].
Defined.

End ExactIntegers.

(** ** Spreadsheet path: the row numbers read off the report *)

Section RowNumbers.
Import JsString JsNumber JsRegExp JsArray PreBcpXlsx.

Lemma shr_1_half (r : shr_record) :
  0 <= shr_m r -> shr_m (shr_1 r) = shr_m r / 2.
Proof.
  destruct r as [m rb sb]. cbn [shr_m]. intros H.
  destruct m as [|[p|p|]|p]; cbn [shr_1 shr_m]; try reflexivity; try lia.
  - apply Z.div_unique with (r := 1); lia.
  - apply Z.div_unique with (r := 0); lia.
Qed.

Lemma iter_shr_1_div (p : positive) :
  forall r : shr_record,
    0 <= shr_m r ->
    shr_m (iter_pos shr_1 p r) = shr_m r / 2 ^ Zpos p.
Proof.
  assert (forall k, 0 < 2 ^ Zpos k) as Hpow
      by (intros k; apply Z.pow_pos_nonneg; lia).
  induction p as [p IH|p IH|]; intros r H; cbn [iter_pos].
  - pose proof (Hpow p).
    assert (0 <= shr_m (shr_1 r))
      by (rewrite shr_1_half by exact H; apply Z.div_pos; lia).
    assert (0 <= shr_m (iter_pos shr_1 p (shr_1 r)))
      by (rewrite IH by assumption; apply Z.div_pos; lia).
    rewrite IH, IH, shr_1_half by assumption.
    rewrite !Z.div_div by lia. f_equal.
    replace (Z.pos p~1) with (1 + Z.pos p + Z.pos p) by lia.
    rewrite !Z.pow_add_r by lia. lia.
  - pose proof (Hpow p).
    assert (0 <= shr_m (iter_pos shr_1 p r))
      by (rewrite IH by assumption; apply Z.div_pos; lia).
    rewrite IH, IH by assumption.
    rewrite !Z.div_div by lia. f_equal.
    replace (Z.pos p~0) with (Z.pos p + Z.pos p) by lia.
    rewrite !Z.pow_add_r by lia. lia.
  - now apply shr_1_half.
Qed.

Lemma fst_shr_fexp_exact (m e : Z) (l : location) :
  0 <= m ->
  shr_m (fst (shr_fexp prec emax m e l))
  = m / 2 ^ (snd (shr_fexp prec emax m e l) - e).
Proof.
  intros H. unfold shr_fexp, shr.
  destruct (fexp prec emax (Zdigits2 m + e) - e) as [|p|p]; cbn [fst snd].
  - rewrite shr_m_of_loc, Z.sub_diag. now rewrite Z.div_1_r.
  - rewrite iter_shr_1_div by now rewrite shr_m_of_loc.
    rewrite shr_m_of_loc. f_equal. f_equal. lia.
  - rewrite shr_m_of_loc, Z.sub_diag. now rewrite Z.div_1_r.
Qed.

(** Above 53 bits the rounded number keeps a positive exponent. *)
Lemma binary_round_aux_large (s : bool) (p : positive) :
  53 < Zdigits2 (Zpos p) ->
  (exists m e,
      binary_round_aux prec emax s (Zpos p) 0 loc_Exact = S754_finite s m e
      /\ 0 < e)
  \/ binary_round_aux prec emax s (Zpos p) 0 loc_Exact = S754_infinity s.
Proof.
  intros D. unfold binary_round_aux.
  pose proof (snd_shr_fexp (Zpos p) 0 loc_Exact) as E1.
  pose proof (fst_shr_fexp_exact (Zpos p) 0 loc_Exact) as X1.
  destruct (shr_fexp prec emax (Zpos p) 0 loc_Exact) as [mrs' e'].
  cbn [fst snd] in *. rewrite fexp_value in E1.
  assert (e' = Zdigits2 (Zpos p) - 53) as He' by lia.
  specialize (X1 ltac:(lia)). rewrite Z.sub_0_r in X1.
  pose proof (Zdigits2_gt (Zpos p) ltac:(lia)) as Hi.
  assert (2 ^ (Zdigits2 (Zpos p) - 1) <= Zpos p) as Lo.
  { rewrite Zdigits2_log2. replace (Z.log2 (Z.pos p) + 1 - 1) with (Z.log2 (Zpos p)) by lia.
    apply Z.log2_spec. lia. }
  assert (0 < 2 ^ e') as Pe by (apply Z.pow_pos_nonneg; lia).
  assert (2 ^ 52 <= shr_m mrs' < 2 ^ 53) as [Lm Hm].
  { rewrite X1. split.
    - apply Z.div_le_lower_bound; [lia|].
      rewrite <- Z.pow_add_r by lia.
      replace (e' + 52) with (Zdigits2 (Zpos p) - 1) by lia. exact Lo.
    - apply Z.div_lt_upper_bound; [lia|].
      rewrite <- Z.pow_add_r by lia.
      replace (e' + 53) with (Zdigits2 (Zpos p)) by lia. exact Hi. }
  set (m1 := round_nearest_even (shr_m mrs') (loc_of_shr_record mrs')).
  pose proof (round_nearest_even_bound (shr_m mrs') (loc_of_shr_record mrs'))
    as R. fold m1 in R.
  pose proof (snd_shr_fexp m1 e' loc_Exact) as E2.
  pose proof (fst_shr_fexp_exact m1 e' loc_Exact) as X2.
  destruct (shr_fexp prec emax m1 e' loc_Exact) as [mrs'' e''].
  cbn [fst snd] in *. rewrite fexp_value in E2.
  assert (2 ^ 52 = 4503599627370496) as P52 by reflexivity.
  assert (2 ^ 53 = 9007199254740992) as P53 by reflexivity.
  assert (Zdigits2 m1 <= 54).
  { apply Zdigits2_le; [lia|]. change (2 ^ 54) with 18014398509481984. lia. }
  assert (53 <= Zdigits2 m1).
  { destruct (Z.lt_ge_cases (Zdigits2 m1) 53) as [C|C]; [|lia]. exfalso.
    pose proof (Zdigits2_gt m1 ltac:(lia)) as G.
    assert (2 ^ Zdigits2 m1 <= 2 ^ 52)
      by (apply Z.pow_le_mono_r; [lia|]; pose proof (Zdigits2_nonneg m1); lia).
    lia. }
  assert (0 < shr_m mrs'') as Pos.
  { rewrite X2 by lia.
    assert (e'' - e' = 0 \/ e'' - e' = 1) as [->| ->] by lia.
    - rewrite Z.div_1_r. lia.
    - change (2 ^ 1) with 2. apply Z.div_str_pos. lia. }
  destruct (shr_m mrs'') as [|m|m]; [lia | | lia].
  destruct (e'' <=? emax - prec); [left | right; reflexivity].
  exists m, e''. split; [reflexivity | lia].
Qed.

Lemma ofInteger_exact (z : Z) : 0 <= z < 2 ^ 53 -> ofInteger z = Fin z.
Proof.
  intros [Lo Hi]. unfold ofInteger, binary_normalize.
  destruct z as [|p|p]; [reflexivity | | lia].
  destruct (binary_round_exact false p) as (m & e & -> & He & V).
  { apply Zdigits2_le; lia. }
  cbn [cond_Zopp]. rewrite Z.shiftl_div_pow2 by lia.
  assert (0 < 2 ^ (- e)) by (apply Z.pow_pos_nonneg; lia).
  now rewrite V, Z.div_mul by lia.
Qed.

Lemma ofInteger_positive (p : positive) :
  match ofInteger (Zpos p) with
  | Fin z => 1 <= z
  | Inf => True
  end.
Proof.
  destruct (Z.le_gt_cases (Zdigits2 (Zpos p)) 53) as [D|D].
  - rewrite ofInteger_exact; [lia|]. split; [lia|].
    pose proof (Zdigits2_gt (Zpos p) ltac:(lia)) as G.
    assert (2 ^ Zdigits2 (Zpos p) <= 2 ^ 53)
      by (apply Z.pow_le_mono_r; [lia | exact D]).
    lia.
  - unfold ofInteger, binary_normalize, binary_round, shl_align.
    change (Z.pos (digits2_pos p)) with (Zdigits2 (Zpos p)).
    rewrite fexp_value.
    destruct (Z.max (Zdigits2 (Z.pos p) + 0 - 53) (-1074) - 0) as [|k|k] eqn:E;
      try lia.
    destruct (binary_round_aux_large false p) as [(m & e & -> & He)| ->];
      [lia | | exact I].
    cbn [cond_Zopp]. rewrite Z.shiftl_mul_pow2 by lia.
    assert (0 < 2 ^ e) by (apply Z.pow_pos_nonneg; lia). nia.
Qed.

Lemma nextRow_exact (ds : string) :
  allChars isDigit ds = true -> digitsValue ds + 1 < 2 ^ 53 ->
  nextRow ds = Fin (digitsValue ds + 1).
Proof.
  intros D B. unfold nextRow.
  destruct (digitsValueFrom_range ds 0 D) as [Lo _]; [lia|].
  fold (digitsValue ds) in Lo.
  rewrite ofInteger_exact by lia. apply ofInteger_exact. lia.
Qed.

Lemma nextRow_positive (ds : string) :
  allChars isDigit ds = true ->
  match nextRow ds with
  | Fin z => 1 <= z
  | Inf => True
  end.
Proof.
  intros D. unfold nextRow.
  destruct (digitsValueFrom_range ds 0 D) as [Lo _]; [lia|].
  fold (digitsValue ds) in Lo.
  destruct (digitsValue ds) as [|p|p]; [exact (ofInteger_positive 1) | | lia].
  pose proof (ofInteger_positive p) as H.
  destruct (ofInteger (Zpos p)) as [z|]; [|exact I].
  destruct (z + 1) as [|q|q] eqn:E; try lia.
  apply ofInteger_positive.
Qed.

Lemma execRegistroAny_capture (s ds : string) (n : nat) :
  execRegistroAny s = Some (ds, n) ->
  allChars isDigit ds = true /\ ds <> "".
Proof.
  unfold execRegistroAny, execRegistro.
  destruct (prefix "Registro" s); [|discriminate].
  destruct (countSpaces (drop 8 s)) as [|k]; [discriminate|].
  destruct (spanDigits (drop (S k) (drop 8 s))) as [d rest] eqn:S.
  apply spanDigits_spec in S. destruct S as [_ D]. cbn [fst].
  destruct d as [|c cs]; [discriminate|].
  intros H. injection H as <- _. split; [exact D | discriminate].
Qed.

Lemma rowNumbers_In (pdfText : string) (i : rowNumber) :
  In i (extractRowNumbersFromPdf pdfText) <->
  exists ds, In ds (matchAll execRegistroAny pdfText) /\ i = nextRow ds.
Proof.
  unfold extractRowNumbersFromPdf.
  rewrite sort_In, (dedupe_In _ _ rowEqb_eq), in_map_iff.
  split; intros (ds & H1 & H2); exists ds; auto.
Qed.

Lemma matchAll_any_digits (pdfText ds : string) :
  In ds (matchAll execRegistroAny pdfText) ->
  allChars isDigit ds = true /\ ds <> "".
Proof.
  intros H. apply matchAllFrom_In in H. destruct H as (t & n & E).
  now apply execRegistroAny_capture in E.
Qed.


(** X6: a marker whose record number [r] satisfies [r + 1 < 2^53] puts
    exactly the row number [r + 1] in the list: below that bound neither
    [parseInt] nor the addition rounds. *)
Theorem rowNumber_is_registro_plus_one (pdfText ds : string) :
  In ds (matchAll execRegistroAny pdfText) ->
  digitsValue ds + 1 < 2 ^ 53 ->
  nextRow ds = Fin (digitsValue ds + 1)
  /\ In (Fin (digitsValue ds + 1)) (extractRowNumbersFromPdf pdfText).
Proof.
  intros Hin B. destruct (matchAll_any_digits _ _ Hin) as [D _].
  pose proof (nextRow_exact ds D B) as E. split; [exact E|].
  apply rowNumbers_In. exists ds. split; [exact Hin | now rewrite E].
Qed.

Lemma rowNumber_is_registro_plus_one_witness :
  In (Fin 42) (extractRowNumbersFromPdf "Registro 41").
Proof.
  apply (rowNumber_is_registro_plus_one "Registro 41" "41");
    [simpl; tauto | reflexivity].
Defined.

(** X7: no row number is below 1, whatever the report says, so the first
    row of the sheet (index 0) is never selected and the lower bound of the
    range test never rejects anything. *)
Theorem first_sheet_row_never_selected
        (pdfText : string) (data : list (list JsValue.value)) :
  Forall (fun i => i = Inf \/ exists z, i = Fin z /\ 1 <= z)
         (extractRowNumbersFromPdf pdfText)
  /\ ~ In (Fin 0) (filter (inRange data) (extractRowNumbersFromPdf pdfText))
  /\ (forall i, In i (extractRowNumbersFromPdf pdfText) ->
        inRange data i = true <->
        exists z, i = Fin z /\ z < Z.of_nat (List.length data)).
Proof.
  assert (forall i, In i (extractRowNumbersFromPdf pdfText) ->
                    i = Inf \/ exists z, i = Fin z /\ 1 <= z) as H.
  { intros i Hi. apply rowNumbers_In in Hi. destruct Hi as (ds & Hds & ->).
    destruct (matchAll_any_digits _ _ Hds) as [D _].
    pose proof (nextRow_positive ds D) as P.
    destruct (nextRow ds) as [z|]; [right; eauto | now left]. }
  split; [now apply Forall_forall|]. split.
  - intros Hin. apply filter_In in Hin. destruct Hin as [Hin _].
    destruct (H _ Hin) as [E|(z & E & L)]; [discriminate E|].
    injection E as <-. lia.
  - intros i Hi. rewrite inRange_spec.
    destruct (H _ Hi) as [->|(z & -> & L)].
    + split; intros (z & E & _); discriminate E.
    + split; intros (z' & E & B); injection E as <-; exists z; split;
        auto; lia.
Qed.

End RowNumbers.

(** ** Text path: which lines become records *)

Section SortedAgain.
Import JsArray.

Variable A : Type.
Variable leb : A -> A -> bool.

(** Sorting an ascending list changes nothing. *)
Lemma sort_sorted_id (xs : list A) :
  StronglySorted (fun a b => leb a b = true) xs -> sort leb xs = xs.
Proof.
  induction 1 as [|x r Hs IH Hall]; [reflexivity|].
  cbn [sort fold_right]. fold (sort leb r). rewrite IH.
  destruct r as [|y r']; [reflexivity|].
  inversion Hall as [|? ? Hxy _]; subst. cbn [insert]. now rewrite Hxy.
Qed.

Lemma filter_map_swap (B : Type) (g : B -> A) (p : A -> bool) (l : list B) :
  filter p (map g l) = map g (filter (fun x => p (g x)) l).
Proof.
  induction l as [|x l IH]; simpl; [reflexivity|].
  destruct (p (g x)); simpl; now rewrite IH.
Qed.

End SortedAgain.

Section TextRows.
Import JsString JsNumber JsArray Api PreBcpTxt.

Lemma doubled_ascending (l : list Z) :
  StronglySorted Z.lt l ->
  StronglySorted (fun a b => (a <=? b) = true) (map (fun r => r * MULT) l).
Proof.
  induction 1 as [|x r Hs IH Hall]; simpl; constructor; [exact IH|].
  apply Forall_map. eapply Forall_impl; [|exact Hall].
  intros y Hy. apply Z.leb_le. unfold MULT. lia.
Qed.

Lemma lineIndices_already_sorted (pdfText : string) :
  lineIndices pdfText
  = map (fun r => r * MULT) (extractRegistrosFromPdf pdfText).
Proof.
  unfold lineIndices. apply sort_sorted_id, doubled_ascending, extract_ascending.
Qed.

(** The registros whose second line exists in a text of [n] lines. *)
Lemma accepted_registros (lines : list string) (pdfText : string) :
  filter (lineInRange lines) (lineIndices pdfText)
  = map (fun r => r * MULT)
        (filter (fun r => (1 <=? r) && (2 * r <=? Z.of_nat (List.length lines)))
                (extractRegistrosFromPdf pdfText)).
Proof.
  rewrite lineIndices_already_sorted, filter_map_swap. f_equal.
  apply filter_ext. intros r. unfold lineInRange, MULT.
  destruct (Z.leb_spec 1 (r * 2)), (Z.leb_spec 1 r); try lia;
    destruct (Z.leb_spec (r * 2) (Z.of_nat (List.length lines))),
             (Z.leb_spec (2 * r) (Z.of_nat (List.length lines)));
    try lia; reflexivity.
Qed.

(** X8: on the text path the records follow the record numbers of the
    report in ascending order, one per record number [r] with
    [1 <= r] and [2 * r <= lines.length], each built from line index
    [2 * r - 1]; sorting the doubled numbers a second time changes
    nothing. *)
Theorem text_rows_follow_registros (pdfText txtContent code desc : string) :
  let lines := split "010" txtContent in
  lineIndices pdfText
  = map (fun r => r * MULT) (extractRegistrosFromPdf pdfText)
  /\ serve (Some pdfText) (Some txtContent) code desc
     = respond
         (map (fun r => buildRow (lineAt lines (2 * r - 1)) code desc)
              (filter (fun r => (1 <=? r)
                                && (2 * r <=? Z.of_nat (List.length lines)))
                      (extractRegistrosFromPdf pdfText))).
Proof.
  intros lines. split; [apply lineIndices_already_sorted|].
  rewrite txt_serve_present. fold lines.
  rewrite accepted_registros, map_map. f_equal.
  apply map_ext. intros r. unfold MULT. do 2 f_equal. lia.
Qed.

Lemma to_nat_NoDup (l : list Z) :
  Forall (fun r => 0 <= r) l -> NoDup l -> NoDup (map Z.to_nat l).
Proof.
  induction 1 as [|x r Hx Hr IH]; intros Hnd; simpl; [constructor|].
  inversion Hnd as [|? ? Hnotin Hnd']; subst.
  constructor; [|now apply IH].
  rewrite in_map_iff. intros (y & E & Hy).
  rewrite Forall_forall in Hr. specialize (Hr y Hy).
  apply Z2Nat.inj in E; [|assumption|assumption]. now subst.
Qed.

(** Distinct integers between 1 and [n] are at most [n]. *)
Lemma distinct_in_range_count (l : list Z) (n : nat) :
  NoDup l -> Forall (fun r => 1 <= r <= Z.of_nat n) l ->
  (List.length l <= n)%nat.
Proof.
  intros Hnd Hall.
  rewrite <- (length_map Z.to_nat l), <- (length_seq n 1).
  apply NoDup_incl_length.
  - apply to_nat_NoDup; [|exact Hnd].
    eapply Forall_impl; [|exact Hall]. simpl. intros; lia.
  - intros k Hk. apply in_map_iff in Hk. destruct Hk as (r & <- & Hr).
    rewrite Forall_forall in Hall. specialize (Hall r Hr).
    apply in_seq. lia.
Qed.

(** X9: a companion text of [n] lines never gives more than [n / 2]
    records, nor more records than the report has distinct record
    numbers. *)
Theorem text_rows_at_most_half_the_lines
        (pdfText txtContent code desc : string) (body : Payload) :
  serve (Some pdfText) (Some txtContent) code desc = Ok body ->
  (2 * totalTransactions body <= List.length (split "010" txtContent))%nat
  /\ (totalTransactions body
      <= List.length (extractRegistrosFromPdf pdfText))%nat.
Proof.
  destruct (text_rows_follow_registros pdfText txtContent code desc)
    as [_ ->].
  intros H. apply respond_inv in H. destruct H as (_ & -> & _).
  rewrite length_map. split; [|apply filter_length_le].
  set (lines := split "010" txtContent).
  set (n := Z.to_nat (Z.of_nat (List.length lines) / 2)).
  assert (Z.of_nat n = Z.of_nat (List.length lines) / 2) as Hn
      by (unfold n; apply Z2Nat.id, Z.div_pos; lia).
  pose proof (Z.mul_div_le (Z.of_nat (List.length lines)) 2 ltac:(lia)) as Hd.
  set (kept := filter (fun r => (1 <=? r)
                                && (2 * r <=? Z.of_nat (List.length lines)))
                      (extractRegistrosFromPdf pdfText)).
  enough (List.length kept <= n)%nat by lia.
  apply distinct_in_range_count.
  - apply NoDup_filter, extract_NoDup.
  - apply Forall_forall. intros r Hr. apply filter_In in Hr.
    destruct Hr as [_ Hr]. apply andb_true_iff in Hr.
    destruct Hr as [H1 H2]. apply Z.leb_le in H1, H2.
    split; [exact H1|]. rewrite Hn. apply Z.div_le_lower_bound; lia.
Qed.

Lemma text_rows_at_most_half_the_lines_witness :
  exists body,
    serve (Some "Registro 1 Registro 2 Registro 3") (Some (linesThen 4 ""))
          "R001" "DOCUMENTO ERRADO" = Ok body
    /\ (2 * totalTransactions body <= 5)%nat.
Proof.
  eexists. split; [reflexivity|].
  apply (text_rows_at_most_half_the_lines
           "Registro 1 Registro 2 Registro 3" (linesThen 4 "")
           "R001" "DOCUMENTO ERRADO").
  reflexivity.
Defined.

End TextRows.

(** ** Text path: the fields of a record *)

Section FieldWidth.
Import JsString JsNumber Api PreBcpTxt.

Lemma length_substring (s : string) (n m : nat) :
  (String.length (substring n m s) <= m)%nat.
Proof.
  revert n m. induction s as [|c s IH]; intros n m.
  - destruct n, m; simpl; lia.
  - destruct n as [|n]; [|apply IH].
    destruct m as [|m]; simpl; [lia|]. specialize (IH O m). lia.
Qed.

Lemma length_trimEnd (s : string) :
  (String.length (trimEnd s) <= String.length s)%nat.
Proof.
  induction s as [|c s IH]; simpl; [lia|].
  destruct (trimEnd s) as [|d t]; [destruct (isSpace c)|]; simpl in *; lia.
Qed.

Lemma length_trim (s : string) :
  (String.length (trim s) <= String.length s)%nat.
Proof.
  unfold trim. pose proof (length_trimEnd (trimStart s)).
  pose proof (length_trimStart s). lia.
Qed.

Lemma trimEnd_cons (c : ascii) (s : string) :
  trimEnd (String c s)
  = match trimEnd s with
    | EmptyString => if isSpace c then EmptyString else String c EmptyString
    | r => String c r
    end.
Proof. reflexivity. Qed.

Lemma trimEnd_idempotent (s : string) : trimEnd (trimEnd s) = trimEnd s.
Proof.
  induction s as [|c s IH]; [reflexivity|]. rewrite (trimEnd_cons c s).
  destruct (trimEnd s) as [|d t] eqn:E.
  - destruct (isSpace c) eqn:S; [reflexivity|]. cbn [trimEnd]. now rewrite S.
  - now rewrite trimEnd_cons, IH.
Qed.

Lemma trimStart_head (s : string) :
  trimStart s = ""
  \/ exists c r, trimStart s = String c r /\ isSpace c = false.
Proof.
  induction s as [|c s IH]; simpl; [now left|].
  destruct (isSpace c) eqn:S; [exact IH | right; eauto].
Qed.

Lemma trimEnd_head (c : ascii) (r : string) :
  isSpace c = false -> exists r', trimEnd (String c r) = String c r'.
Proof.
  intros S. cbn [trimEnd]. destruct (trimEnd r) as [|d t]; [rewrite S|]; eauto.
Qed.

Lemma trim_idempotent (s : string) : trim (trim s) = trim s.
Proof.
  unfold trim. destruct (trimStart_head s) as [->|(c & r & -> & S)];
    [reflexivity|].
  destruct (trimEnd_head c r S) as (r' & E). rewrite E.
  cbn [trimStart]. rewrite S, <- E. apply trimEnd_idempotent.
Qed.

Lemma sliceFixed_width (line : string) (startCol endCol : Z) :
  0 <= endCol ->
  (String.length (sliceFixed line startCol endCol)
   <= Z.to_nat endCol - offsetOf startCol)%nat.
Proof.
  intros He.
  destruct (Nat.lt_ge_cases (offsetOf startCol) (String.length line)) as [L|L].
  - rewrite sliceFixed_within by assumption.
    pose proof (length_trim
                  (substring (offsetOf startCol)
                             (Nat.min (Z.to_nat endCol) (String.length line)
                              - offsetOf startCol) line)).
    pose proof (length_substring line (offsetOf startCol)
                  (Nat.min (Z.to_nat endCol) (String.length line)
                   - offsetOf startCol)).
    lia.
  - rewrite sliceFixed_beyond by assumption. simpl. lia.
Qed.

Lemma sliceFixed_trimmed (line : string) (startCol endCol : Z) :
  trim (sliceFixed line startCol endCol) = sliceFixed line startCol endCol.
Proof.
  unfold sliceFixed. destruct (String.eqb line ""); [reflexivity|].
  destruct (Z.max 0 (startCol - 1) <? len line); [|reflexivity].
  apply trim_idempotent.
Qed.

(** X10: a field cut by [sliceFixed] carries no white space at either end
    (trimming it again changes nothing) and, for a non-negative end column,
    is never longer than the columns from the offset to the end column. *)
Theorem sliceFixed_trimmed_within_width
        (line : string) (startCol endCol : Z) :
  trim (sliceFixed line startCol endCol) = sliceFixed line startCol endCol
  /\ (0 <= endCol ->
      (String.length (sliceFixed line startCol endCol)
       <= Z.to_nat endCol - offsetOf startCol)%nat).
Proof. split; [apply sliceFixed_trimmed | apply sliceFixed_width]. Qed.

Lemma sliceFixed_trimmed_within_width_witness :
  (String.length (sliceFixed "   12345678  PEREZ" 4 11) <= 8)%nat.
Proof.
  destruct (sliceFixed_trimmed_within_width "   12345678  PEREZ" 4 11)
    as [_ H].
  apply H. lia.
Defined.

Lemma buildRow_bounds (ln code desc : string) :
  let r := buildRow ln code desc in
  (String.length (dni_cex r) <= 9)%nat
  /\ (String.length (nombre r) <= 46)%nat
  /\ (String.length (Referencia r) <= 12)%nat
  /\ isFinite (importe r) = true
  /\ isNaN (importe r) = false.
Proof.
  cbn [buildRow dni_cex nombre Referencia importe start stop
       TXT_POS_dni TXT_POS_nombre TXT_POS_referencia TXT_POS_importe].
  pose proof (sliceFixed_width ln 25 33 ltac:(lia)) as H1.
  pose proof (sliceFixed_width ln 40 85 ltac:(lia)) as H2.
  pose proof (sliceFixed_width ln 115 126 ltac:(lia)) as H3.
  pose proof (sliceFixed_width ln 186 195 ltac:(lia)) as H4.
  change (Z.to_nat 33 - offsetOf 25)%nat with 9%nat in H1.
  change (Z.to_nat 85 - offsetOf 40)%nat with 46%nat in H2.
  change (Z.to_nat 126 - offsetOf 115)%nat with 12%nat in H3.
  change (Z.to_nat 195 - offsetOf 186)%nat with 10%nat in H4.
  repeat split; try assumption.
  - apply parseAmount_finite. lia.
  - rewrite parseAmount_steps. apply orZero_not_NaN.
Qed.

(** X11: every record the text handler answers with has an identifier of
    at most 9 characters, a name of at most 46, a reference of at most 12,
    and an amount that is a finite number: the ten columns of the amount
    field cannot overflow. *)
Theorem text_records_bounded
        (pdfText txtContent code desc : string) (body : Payload) :
  serve (Some pdfText) (Some txtContent) code desc = Ok body ->
  Forall (fun r =>
            (String.length (dni_cex r) <= 9)%nat
            /\ (String.length (nombre r) <= 46)%nat
            /\ (String.length (Referencia r) <= 12)%nat
            /\ isFinite (importe r) = true
            /\ isNaN (importe r) = false)
         (results body).
Proof.
  rewrite txt_serve_present. intros H. apply respond_inv in H.
  destruct H as (-> & _). apply Forall_map, Forall_forall.
  intros i _. apply buildRow_bounds.
Qed.

Lemma text_records_bounded_witness :
  exists body,
    serve (Some "Registro 1") (Some (linesThen 1 "   x"))
          "R001" "DOCUMENTO ERRADO" = Ok body
    /\ Forall (fun r => isFinite (importe r) = true) (results body).
Proof.
  eexists. split; [reflexivity|].
  eapply Forall_impl;
    [|apply (text_records_bounded "Registro 1" (linesThen 1 "   x")
                                  "R001" "DOCUMENTO ERRADO"); reflexivity].
  simpl. tauto.
Defined.

(** X12: a line too short for a field gives that field its default
    instead of failing: below 186 characters the amount is 0, below 25
    characters every text field is empty as well. *)
Theorem short_line_gives_defaults (ln code desc : string) :
  ((String.length ln < 186)%nat ->
   importe (buildRow ln code desc) = zero)
  /\ ((String.length ln < 25)%nat ->
      buildRow ln code desc
      = {| dni_cex := "";
           nombre := "";
           importe := zero;
           Referencia := "";
           Estado := "rechazada";
           Codigo_de_Rechazo := code;
           Descripcion_de_Rechazo := desc |}).
Proof.
  split; intros H; unfold buildRow;
    cbn [start stop TXT_POS_dni TXT_POS_nombre TXT_POS_referencia
         TXT_POS_importe importe].
  - rewrite (sliceFixed_beyond ln 186 195) by (unfold offsetOf; simpl; lia).
    reflexivity.
  - rewrite (sliceFixed_beyond ln 25 33), (sliceFixed_beyond ln 40 85),
      (sliceFixed_beyond ln 115 126), (sliceFixed_beyond ln 186 195)
      by (unfold offsetOf; simpl; lia).
    reflexivity.
Qed.

Lemma short_line_gives_defaults_witness :
  importe (buildRow "0123456789" "R001" "DOCUMENTO ERRADO") = zero
  /\ dni_cex (buildRow "0123456789" "R001" "DOCUMENTO ERRADO") = "".
Proof.
  destruct (short_line_gives_defaults "0123456789" "R001" "DOCUMENTO ERRADO")
    as [H1 H2].
  split; [apply H1; simpl; lia|].
  rewrite H2 by (simpl; lia). reflexivity.
Defined.

End FieldWidth.

(** ** Archive path: which rows count and how they are classified *)

Section ArchiveRows.
Import JsString JsNumber JsValue Api RechazoIbk.

Variable f : number -> string.

Lemma notSpace_trimStart (s : string) :
  existsChar notSpace (trimStart s) = existsChar notSpace s.
Proof.
  induction s as [|c s IH]; [reflexivity|]. cbn [trimStart existsChar].
  destruct (isSpace c) eqn:S; [|reflexivity].
  unfold notSpace at 2. now rewrite S.
Qed.

(** Trimming leaves nothing exactly when there is only white space. *)
Lemma trim_empty_iff (s : string) :
  String.eqb (trim s) "" = negb (existsChar notSpace s).
Proof.
  rewrite <- notSpace_trimStart. unfold trim.
  destruct (trimStart_head s) as [->|(c & r & -> & S)]; [reflexivity|].
  destruct (trimEnd_head c r S) as (r' & ->).
  cbn [existsChar]. unfold notSpace at 1. now rewrite S.
Qed.

Lemma hasStatus_text (row : list value) (s : string) :
  get row 14 = VStr s -> hasStatus f row = existsChar notSpace s.
Proof.
  unfold hasStatus. intros ->. cbn [isNullish ToString negb andb].
  now rewrite trim_empty_iff, negb_involutive.
Qed.

End ArchiveRows.

Section ArchiveRowFacts.
Import JsString JsNumber JsValue Api RechazoIbk.

(** X13: a row counts only if its column 14 holds something else than
    white space: a row of fewer than 15 cells, a null cell, and a text of
    spaces, tabs or line breaks only are passed over, while a text with any
    other character is kept. *)
Theorem blank_status_is_skipped
        (f : number -> string) (row : list value) (s : string) :
  ((List.length row <= 14)%nat -> hasStatus f row = false)
  /\ (get row 14 = VNull -> hasStatus f row = false)
  /\ (get row 14 = VStr s -> hasStatus f row = existsChar notSpace s)
  /\ (get row 14 = VStr s -> allChars isSpace s = true ->
      hasStatus f row = false).
Proof.
  split; [|split; [|split]].
  - intros H. unfold hasStatus, get. now rewrite nth_overflow.
  - intros H. unfold hasStatus. now rewrite H.
  - apply hasStatus_text.
  - intros H W. rewrite (hasStatus_text f row s H).
    clear H. induction s as [|c s IH]; [reflexivity|].
    cbn [allChars] in W. apply andb_true_iff in W. destruct W as [Wc W].
    cbn [existsChar]. unfold notSpace at 1. rewrite Wc. now apply IH.
Qed.

Lemma blank_status_is_skipped_witness :
  hasStatus (fun _ => "0") (rowWithStatus "   ") = false
  /\ hasStatus (fun _ => "0") [VStr "a"; VStr "b"] = false.
Proof.
  destruct (blank_status_is_skipped (fun _ => "0") (rowWithStatus "   ") "   ")
    as (_ & _ & _ & H).
  destruct (blank_status_is_skipped (fun _ => "0") [VStr "a"; VStr "b"] "")
    as (H0 & _).
  split; [apply H; reflexivity | apply H0; simpl; lia].
Defined.

(** X14: the first eleven rows of the sheet never reach the answer: it is
    built from the rows after them alone, a sheet of at most eleven rows
    gives the empty success, and the count is at most the number of rows
    beyond the eleventh. *)
Theorem archive_skips_first_eleven_rows
        (f : number -> string) (header rows data : list (list value))
        (body : Payload) :
  (List.length header = 11%nat ->
   serve f (Some (Excel (Sheet (header ++ rows)%list)))
   = respond (map (buildRow f) (filter (hasStatus f) rows)))
  /\ ((List.length data <= 11)%nat ->
      serve f (Some (Excel (Sheet data))) = Ok emptyPayload)
  /\ (serve f (Some (Excel (Sheet data))) = Ok body ->
      (totalTransactions body <= List.length data - 11)%nat).
Proof.
  split; [|split].
  - intros H. rewrite ibk_serve_sheet, skipn_app, H, Nat.sub_diag.
    rewrite skipn_all2 by lia. reflexivity.
  - intros H. rewrite ibk_serve_sheet, skipn_all2 by lia. reflexivity.
  - rewrite ibk_serve_sheet. intros H. apply respond_inv in H.
    destruct H as (_ & -> & _). rewrite length_map.
    pose proof (filter_length_le (hasStatus f) (skipn 11 data)) as L.
    rewrite length_skipn in L. exact L.
Qed.

Lemma archive_skips_first_eleven_rows_witness :
  serve (fun _ => "0")
        (Some (Excel (Sheet (repeat (rowWithStatus "no titular") 11))))
  = Ok emptyPayload.
Proof.
  destruct (archive_skips_first_eleven_rows
              (fun _ => "0") [] []
              (repeat (rowWithStatus "no titular") 11) emptyPayload)
    as (_ & H & _).
  apply H. simpl. lia.
Defined.

End ArchiveRowFacts.

Section ArchivePhrases.
Import JsString JsNumber JsValue Api RechazoIbk.

Lemma strapp_assoc (a b c : string) : (a ++ b) ++ c = a ++ b ++ c.
Proof. induction a as [|x a IH]; simpl; congruence. Qed.

Lemma includes_unfold (s kw : string) :
  includes s kw
  = prefix kw s
    || match s with
       | EmptyString => false
       | String _ s' => includes s' kw
       end.
Proof. now destruct s. Qed.

Lemma includes_iff (s kw : string) :
  includes s kw = true <-> exists pre post, s = pre ++ kw ++ post.
Proof.
  split.
  - induction s as [|c s IH]; rewrite includes_unfold; intros H;
      apply orb_true_iff in H; destruct H as [H|H]; try discriminate.
    + exists "". eexists. simpl. apply (prefix_drop _ _ H).
    + exists "". eexists. simpl. apply (prefix_drop _ _ H).
    + destruct (IH H) as (pre & post & ->).
      exists (String c pre), post. reflexivity.
  - intros (pre & post & ->). induction pre as [|c pre IH].
    + change ("" ++ kw ++ post) with (kw ++ post).
      rewrite includes_unfold, prefix_append. reflexivity.
    + change (String c pre ++ kw ++ post) with (String c (pre ++ kw ++ post)).
      rewrite includes_unfold, IH. apply orb_true_r.
Qed.

(** A text that holds a phrase holds every part of the phrase. *)
Lemma includes_trans (s long short : string) :
  includes long short = true -> includes s long = true ->
  includes s short = true.
Proof.
  rewrite !includes_iff. intros (a & b & ->) (pre & post & ->).
  exists (pre ++ a), (b ++ post). now rewrite !strapp_assoc.
Qed.

Lemma decisive_phrases (t : string) :
  existsb (fun kw => includes t kw) KEYWORDS_NO_TIT
  = existsb (fun kw => includes t kw) decisivePhrases.
Proof.
  cbn [existsb KEYWORDS_NO_TIT decisivePhrases].
  pose proof (includes_trans t "cliente no titular" "no titular" eq_refl) as H3.
  pose proof (includes_trans t "puedes continuar" "continuar" eq_refl) as H6.
  pose proof (includes_trans t "si deseas, puedes continuar" "continuar"
                             eq_refl) as H7.
  destruct (includes t "no es titular"), (includes t "beneficiario no");
    try reflexivity;
    destruct (includes t "no titular"), (includes t "continuar");
    destruct (includes t "cliente no titular");
    destruct (includes t "puedes continuar");
    destruct (includes t "si deseas, puedes continuar");
    try reflexivity;
    try (specialize (H3 eq_refl); discriminate);
    try (specialize (H6 eq_refl); discriminate);
    try (specialize (H7 eq_refl); discriminate).
Qed.

Lemma lowerChar_idempotent (c : ascii) : lowerChar (lowerChar c) = lowerChar c.
Proof. destruct c as [[] [] [] [] [] [] [] []]; reflexivity. Qed.

Lemma toLowerCase_idempotent (s : string) :
  toLowerCase (toLowerCase s) = toLowerCase s.
Proof.
  unfold toLowerCase. induction s as [|c s IH]; simpl; [reflexivity|].
  now rewrite lowerChar_idempotent, IH.
Qed.

(** X15: of the seven phrases of the list four decide: a record gets
    "R016" exactly when its lower-cased status holds "no es titular",
    "beneficiario no", "no titular" or "continuar"; the three longer
    phrases never change the outcome. *)
Theorem four_phrases_decide (f : number -> string) (row : list value) :
  isNoTitular f row
  = existsb (fun kw => includes (situacion f row) kw) decisivePhrases
  /\ (Codigo_de_Rechazo (buildRow f row) = "R016" <->
      exists kw, In kw decisivePhrases
                 /\ includes (situacion f row) kw = true).
Proof.
  pose proof (decisive_phrases (situacion f row)) as E.
  split; [exact E|]. cbn [buildRow Codigo_de_Rechazo].
  unfold isNoTitular. rewrite E, <- existsb_exists.
  destruct (existsb _ decisivePhrases); split; intros H;
    try reflexivity; discriminate H.
Qed.

(** X16: the classification does not look at letter case: a status text
    and its lower-cased form give the same code and description. *)
Theorem classification_ignores_case
        (f : number -> string) (row row' : list value) (s : string) :
  get row 14 = VStr s -> get row' 14 = VStr (toLowerCase s) ->
  Codigo_de_Rechazo (buildRow f row) = Codigo_de_Rechazo (buildRow f row')
  /\ Descripcion_de_Rechazo (buildRow f row)
     = Descripcion_de_Rechazo (buildRow f row').
Proof.
  intros H H'. cbn [buildRow Codigo_de_Rechazo Descripcion_de_Rechazo].
  unfold isNoTitular.
  rewrite (situacion_of_text f row s H),
          (situacion_of_text f row' _ H'), toLowerCase_idempotent.
  split; reflexivity.
Qed.

Lemma classification_ignores_case_witness :
  Codigo_de_Rechazo
    (buildRow (fun _ => "0") (rowWithStatus "CLIENTE NO TITULAR"))
  = "R016".
Proof.
  destruct (classification_ignores_case
              (fun _ => "0") (rowWithStatus "CLIENTE NO TITULAR")
              (rowWithStatus "cliente no titular") "CLIENTE NO TITULAR")
    as [H _]; [reflexivity | reflexivity |].
  rewrite H. reflexivity.
Defined.

End ArchivePhrases.

(** ** What every record carries *)

Section RecordInvariants.
Import JsString JsNumber JsValue Api.

Lemma ibk_serve_results (f : number -> string)
      (zip : option RechazoIbk.Archive) (body : Payload) :
  RechazoIbk.serve f zip = Ok body ->
  exists rows, results body = map (RechazoIbk.buildRow f) rows.
Proof.
  unfold RechazoIbk.serve.
  destruct zip as [[m| |[m|data]]|]; try discriminate.
  intros H. apply respond_inv in H. destruct H as (-> & _). eauto.
Qed.

(** X17: every record of an answer has the status "rechazada".  On the two
    PDF-driven paths it carries the code and the description of the
    request; on the archive path the code and the description always go
    together: "R016" with "CLIENTE NO TITULAR DE LA CUENTA", "R002" with
    "CUENTA INVALIDA". *)
Theorem records_carry_status_and_code
        (f : number -> string) (pdf txt : option string)
        (excel : option Workbook) (zip : option RechazoIbk.Archive)
        (code desc : string) (body : Payload) :
  (PreBcpTxt.serve pdf txt code desc = Ok body
   \/ PreBcpXlsx.serve f pdf excel code desc = Ok body ->
   Forall (fun r => Estado r = "rechazada"
                    /\ Codigo_de_Rechazo r = code
                    /\ Descripcion_de_Rechazo r = desc)
          (results body))
  /\ (RechazoIbk.serve f zip = Ok body ->
      Forall (fun r => Estado r = "rechazada"
                       /\ ((Codigo_de_Rechazo r = "R016"
                            /\ Descripcion_de_Rechazo r
                               = "CLIENTE NO TITULAR DE LA CUENTA")
                           \/ (Codigo_de_Rechazo r = "R002"
                               /\ Descripcion_de_Rechazo r
                                  = "CUENTA INVALIDA")))
             (results body)).
Proof.
  split.
  - intros [H|H].
    + destruct pdf as [pdfText|], txt as [txtContent|]; try discriminate H.
      rewrite txt_serve_present in H. apply respond_inv in H.
      destruct H as (-> & _). apply Forall_map, Forall_forall.
      intros i _. repeat split.
    + destruct pdf as [pdfText|], excel as [[m|data]|]; try discriminate H.
      rewrite xlsx_serve_present in H. apply respond_inv in H.
      destruct H as (-> & _). apply Forall_map, Forall_forall.
      intros i _. repeat split.
  - intros H. apply ibk_serve_results in H. destruct H as (rows & ->).
    apply Forall_map, Forall_forall. intros row _.
    cbn [RechazoIbk.buildRow Estado Codigo_de_Rechazo Descripcion_de_Rechazo].
    split; [reflexivity|].
    destruct (RechazoIbk.isNoTitular f row); [left | right]; now split.
Qed.

Lemma records_carry_status_and_code_witness :
  exists body,
    PreBcpTxt.serve (Some "Registro 1") (Some (linesThen 1 ""))
                    "R007" "RECHAZO POR CCI" = Ok body
    /\ Forall (fun r => Codigo_de_Rechazo r = "R007") (results body).
Proof.
  eexists. split; [reflexivity|].
  match goal with
  | |- Forall _ (results ?b) =>
      destruct (records_carry_status_and_code
                  (fun _ => "0") (Some "Registro 1") (Some (linesThen 1 ""))
                  None None "R007" "RECHAZO POR CCI" b) as [H _]
  end.
  eapply Forall_impl; [|apply H; left; reflexivity].
  simpl. tauto.
Defined.

End RecordInvariants.

(** ** Forwarding: the columns that leave the system *)

Section Forwarding.
Import JsString JsNumber Api SendToEndpoint.

Lemma filterRow_keys (row : Json) (filtered : list (string * option Json)) :
  filterRow row = Some filtered -> map fst filtered = SUBSET_COLS.
Proof.
  unfold filterRow. destruct row; try discriminate;
    intros H; injection H as <-; reflexivity.
Qed.

Lemma filterRow_none (row : Json) : filterRow row = None <-> row = JNull.
Proof. destruct row; simpl; split; congruence. Qed.

Lemma filterData_none (rows : list Json) :
  filterData rows = None <-> In JNull rows.
Proof.
  induction rows as [|row rest IH]; simpl; [split; [discriminate | tauto]|].
  destruct (filterRow row) as [filtered|] eqn:E.
  - assert (row <> JNull) as N by (intros ->; discriminate E).
    destruct (filterData rest) as [others|].
    + split; [discriminate|]. intros [H|H]; [congruence|].
      now apply IH in H.
    + split; [right; now apply IH | reflexivity].
  - apply filterRow_none in E. split; [now left | reflexivity].
Qed.

Lemma filterData_some (rows : list Json)
      (out : list (list (string * option Json))) :
  filterData rows = Some out ->
  List.length out = List.length rows
  /\ Forall (fun r => map fst r = SUBSET_COLS) out.
Proof.
  revert out. induction rows as [|row rest IH]; intros out; simpl.
  - intros H. injection H as <-. split; [reflexivity | constructor].
  - destruct (filterRow row) as [filtered|] eqn:E; [|discriminate].
    destruct (filterData rest) as [others|]; [|discriminate].
    intros H. injection H as <-. destruct (IH others eq_refl) as [L F].
    split; [simpl; now rewrite L|].
    constructor; [now apply filterRow_keys in E | exact F].
Qed.

(** X18: whatever the rows of the request hold, each row that is sent on
    has exactly the four columns of [SUBSET_COLS], in that order, and there
    is one per row received.  A [null] among the rows fails the request
    before anything is sent; a body whose data is not an array is answered
    with "Invalid data format". *)
Theorem only_four_columns_are_sent
        (nullRowMessage : string)
        (post : list (list (string * option Json)) -> string + (Z * string))
        (data : option Json) (rows : list Json) :
  (data = Some (JArr rows) -> ~ In JNull rows ->
   exists out,
     filterData rows = Some out
     /\ List.length out = List.length rows
     /\ Forall (fun r => map fst r = SUBSET_COLS) out
     /\ serve nullRowMessage post data
        = match post out with
          | inl message => Error 500 message
          | inr (status, responseText) => Ok status responseText
          end)
  /\ (data = Some (JArr rows) -> In JNull rows ->
      serve nullRowMessage post data = Error 500 nullRowMessage)
  /\ ((forall items, data <> Some (JArr items)) ->
      serve nullRowMessage post data = Error 500 "Invalid data format").
Proof.
  split; [|split].
  - intros -> N. destruct (filterData rows) as [out|] eqn:E.
    + exists out. destruct (filterData_some rows out E) as [L F].
      repeat split; try assumption. unfold serve. now rewrite E.
    + apply filterData_none in E. contradiction.
  - intros -> H. apply filterData_none in H. unfold serve. now rewrite H.
  - intros H. unfold serve. destruct data as [[| | | |items|]|];
      try reflexivity.
    now destruct (H items).
Qed.

Lemma only_four_columns_are_sent_witness :
  serve "null row" (fun _ => inr (200, "ok"))
        (Some (JArr [JObj [("Estado", JStr "rechazada"); ("x", JNull)]]))
  = Ok 200 "ok"
  /\ serve "null row" (fun _ => inr (200, "ok")) (Some (JArr [JNull]))
     = Error 500 "null row"
  /\ serve "null row" (fun _ => inr (200, "ok")) (Some (JStr "x"))
     = Error 500 "Invalid data format".
Proof.
  destruct (only_four_columns_are_sent
              "null row" (fun _ => inr (200, "ok"))
              (Some (JArr [JObj [("Estado", JStr "rechazada"); ("x", JNull)]]))
              [JObj [("Estado", JStr "rechazada"); ("x", JNull)]])
    as (H1 & _ & _).
  destruct (only_four_columns_are_sent
              "null row" (fun _ => inr (200, "ok"))
              (Some (JArr [JNull])) [JNull]) as (_ & H2 & _).
  destruct (only_four_columns_are_sent
              "null row" (fun _ => inr (200, "ok"))
              (Some (JStr "x")) []) as (_ & _ & H3).
  split; [|split].
  - destruct H1 as (out & _ & _ & _ & ->); [reflexivity | |reflexivity].
    simpl. intros [H|[]]. discriminate H.
  - apply H2; [reflexivity | simpl; tauto].
  - apply H3. intros items. discriminate.
Defined.

(** X19: the records of an answer, handed on as they are, are always
    accepted, and what is sent for each is its reference, status, code and
    description: neither the identifier, the name nor the amount of a
    record leaves the system, whatever the amount is. *)
Theorem records_forward_without_amount
        (nullRowMessage : string)
        (post : list (list (string * option Json)) -> string + (Z * string))
        (records : list ResultData) :
  filterData (map toJson records) = Some (map forwarded records)
  /\ serve nullRowMessage post (Some (JArr (map toJson records)))
     = match post (map forwarded records) with
       | inl message => Error 500 message
       | inr (status, responseText) => Ok status responseText
       end
  /\ Forall (fun r => map fst r = SUBSET_COLS) (map forwarded records).
Proof.
  assert (filterData (map toJson records) = Some (map forwarded records)) as E.
  { induction records as [|r rest IH]; [reflexivity|].
    cbn [map filterData]. rewrite IH. reflexivity. }
  split; [exact E|]. split.
  - unfold serve. now rewrite E.
  - apply Forall_map, Forall_forall. intros r _. reflexivity.
Qed.

End Forwarding.

(** ** Spreadsheet paths: cells that are missing or falsy *)

Section CellDefaults.
Import JsString JsNumber JsValue Api.

Lemma ToString_orEmpty_falsy (f : number -> string) (v : value) :
  truthy v = false -> ToString f (orEmpty v) = "".
Proof. unfold orEmpty. now intros ->. Qed.

(** X20: a cell that is missing or falsy (absent, null, the empty text,
    false, the number 0 or [NaN]) gives the empty text in a text column,
    with the name falling back from column 3 to column 1; an absent or null
    amount cell gives 0; a row without cells gives the default record on
    both spreadsheet paths. *)
Theorem falsy_cells_become_empty
        (f : number -> string) (code desc : string) (row : list value) :
  (truthy (get row 0) = false ->
   dni_cex (PreBcpXlsx.buildRow f code desc row) = "")
  /\ (truthy (get row 7) = false ->
      Referencia (PreBcpXlsx.buildRow f code desc row) = "")
  /\ (truthy (get row 3) = false -> truthy (get row 1) = true ->
      nombre (PreBcpXlsx.buildRow f code desc row) = ToString f (get row 1))
  /\ (truthy (get row 3) = false -> truthy (get row 1) = false ->
      nombre (PreBcpXlsx.buildRow f code desc row) = "")
  /\ (isNullish (get row 12) = true ->
      importe (PreBcpXlsx.buildRow f code desc row) = zero)
  /\ PreBcpXlsx.buildRow f code desc []
     = {| dni_cex := "";
          nombre := "";
          importe := zero;
          Referencia := "";
          Estado := "rechazada";
          Codigo_de_Rechazo := code;
          Descripcion_de_Rechazo := desc |}
  /\ RechazoIbk.buildRow f []
     = {| dni_cex := "";
          nombre := "";
          importe := zero;
          Referencia := "";
          Estado := "rechazada";
          Codigo_de_Rechazo := "R002";
          Descripcion_de_Rechazo := "CUENTA INVALIDA" |}.
Proof.
  cbn [PreBcpXlsx.buildRow dni_cex nombre importe Referencia].
  split; [apply ToString_orEmpty_falsy|].
  split; [apply ToString_orEmpty_falsy|].
  split; [intros -> H; unfold orEmpty; now rewrite H|].
  split; [intros -> H; now apply ToString_orEmpty_falsy|].
  split; [intros H; unfold PreBcpXlsx.parseAmount; now rewrite H|].
  split; reflexivity.
Qed.

Lemma falsy_cells_become_empty_witness :
  dni_cex (PreBcpXlsx.buildRow (fun _ => "0") "R001" "DOCUMENTO ERRADO"
                               [VNum zero; VStr "PEREZ"]) = ""
  /\ nombre (PreBcpXlsx.buildRow (fun _ => "0") "R001" "DOCUMENTO ERRADO"
                                 [VNum zero; VStr "PEREZ"]) = "PEREZ".
Proof.
  destruct (falsy_cells_become_empty
              (fun _ => "0") "R001" "DOCUMENTO ERRADO"
              [VNum zero; VStr "PEREZ"]) as (H0 & _ & H1 & _).
  split; [apply H0; reflexivity|].
  rewrite H1 by reflexivity. reflexivity.
Defined.

End CellDefaults.

(** * The handlers against independent descriptions *)

(** ** FixedFieldExtractor: what trimming means *)

Section TrimSpec.
Import JsString PreBcpTxt.

Lemma trimStart_spec (s : string) :
  exists lead,
    s = lead ++ trimStart s
    /\ allChars isSpace lead = true
    /\ startsWithSpace (trimStart s) = false.
Proof.
  induction s as [|c s (lead & E & W & H)]; [exists ""; auto|].
  cbn [trimStart]. destruct (isSpace c) eqn:S.
  - exists (String c lead). cbn [append allChars]. rewrite S, W.
    repeat split; [now f_equal | exact H].
  - exists "". repeat split. exact S.
Qed.

Lemma trimEnd_spec (u : string) :
  exists trail,
    u = trimEnd u ++ trail
    /\ allChars isSpace trail = true
    /\ endsWithSpace (trimEnd u) = false.
Proof.
  induction u as [|c u (trail & E & W & H)]; [exists ""; auto|].
  rewrite (trimEnd_cons c u). destruct (trimEnd u) as [|d t] eqn:T.
  - destruct (isSpace c) eqn:S.
    + exists (String c trail). cbn [append allChars]. rewrite S, W.
      repeat split. now f_equal.
    + exists trail. cbn [append]. repeat split; [now f_equal | exact W | exact S].
  - exists trail. cbn [append]. repeat split; [now f_equal | exact W | exact H].
Qed.

Lemma trimEnd_keeps_head (u : string) :
  startsWithSpace u = false -> startsWithSpace (trimEnd u) = false.
Proof.
  destruct u as [|c u]; [reflexivity|]. cbn [startsWithSpace]. intros S.
  rewrite (trimEnd_cons c u).
  destruct (trimEnd u); [rewrite S|]; cbn [startsWithSpace]; auto.
Qed.

(** [trim] removes the white space around a text and nothing else. *)
Lemma trim_spec (s : string) : trimmedOf (trim s) s.
Proof.
  unfold trim, trimmedOf.
  destruct (trimStart_spec s) as (lead & E & W & H).
  destruct (trimEnd_spec (trimStart s)) as (trail & E' & W' & H').
  split; [|split; [now apply trimEnd_keeps_head | exact H']].
  exists lead, trail. repeat split; try assumption.
  now rewrite <- E', <- E.
Qed.

(** C9: [sliceFixed] is total and trims.  The three worked examples hold,
    and a cut that ends in white space loses it; a line shorter than 200
    characters gives the empty text for columns 200..210; and for column
    numbers with a non-negative end, an offset ([startCol - 1], floored at
    0) inside the line gives the substring from the offset through
    [endCol], clipped to the length of the line, without the white space
    around it: the substring is the result between two runs of white
    space, and the result neither begins nor ends with white space.  An
    offset outside the line gives the empty text. *)
Theorem sliceFixed_total_and_trims (line : string) (startCol endCol : Z) :
  0 <= endCol ->
  sliceFixed "" 1 5 = ""
  /\ sliceFixed "AB" 1 10 = "AB"
  /\ sliceFixed "AB   " 1 5 = "AB"
  /\ sliceFixed "   AB" 1 5 = "AB"
  /\ ((String.length line < 200)%nat -> sliceFixed line 200 210 = "")
  /\ ((offsetOf startCol < String.length line)%nat ->
      trimmedOf (sliceFixed line startCol endCol)
                (substring (offsetOf startCol)
                           (Nat.min (Z.to_nat endCol) (String.length line)
                            - offsetOf startCol) line)
      /\ sliceFixed line startCol endCol =
         trim (substring (offsetOf startCol)
                         (Nat.min (Z.to_nat endCol) (String.length line)
                          - offsetOf startCol) line))
  /\ ((String.length line <= offsetOf startCol)%nat ->
      sliceFixed line startCol endCol = "").
Proof.
  intros Hend.
  split; [reflexivity|]. split; [reflexivity|]. split; [reflexivity|].
  split; [reflexivity|]. split; [|split].
  - intros H. apply sliceFixed_beyond. unfold offsetOf. simpl. lia.
  - intros H. pose proof (sliceFixed_within line startCol endCol Hend H) as E.
    split; [|exact E]. rewrite E. apply trim_spec.
  - apply sliceFixed_beyond.
Qed.

Lemma sliceFixed_total_and_trims_witness :
  trimmedOf "AB CD" "  AB CD   "
  /\ sliceFixed "x  AB CD   yz" 2 11 = "AB CD".
Proof.
  destruct (sliceFixed_total_and_trims "x  AB CD   yz" 2 11)
    as (_ & _ & _ & _ & _ & H & _); [lia|].
  destruct H as [T E]; [vm_compute; lia|].
  split; [exact T | exact E].
Defined.

End TrimSpec.

(** ** The archive path: matching a phrase without regard to case *)

Section IgnoringCase.
Import JsString JsNumber JsValue Api RechazoIbk.

Lemma allAscii_complete (c : ascii) : In c allAscii.
Proof.
  unfold allAscii. rewrite <- (ascii_nat_embedding c).
  apply in_map, in_seq. pose proof (nat_ascii_bounded c). lia.
Qed.

(** Lower-casing a unit gives the plain unit [k] exactly when the unit is
    [k] or the capital of [k]: checked on every pair of units. *)
Lemma lowerChar_foldsTo (c k : ascii) :
  plainChar k = true -> Ascii.eqb (lowerChar c) k = foldsTo c k.
Proof.
  assert (forallb
            (fun k => implb (plainChar k)
               (forallb (fun c => Bool.eqb (Ascii.eqb (lowerChar c) k)
                                           (foldsTo c k)) allAscii))
            allAscii = true) as T by (vm_compute; reflexivity).
  intros P. rewrite forallb_forall in T.
  specialize (T k (allAscii_complete k)). rewrite P in T. cbn [implb] in T.
  rewrite forallb_forall in T. specialize (T c (allAscii_complete c)).
  now apply Bool.eqb_prop.
Qed.

Lemma prefix_toLowerCase (kw s : string) :
  allChars plainChar kw = true ->
  prefix kw (toLowerCase s) = prefixIgnoringCase kw s.
Proof.
  revert s. induction kw as [|k kw IH]; intros s P.
  - now destruct s.
  - cbn [allChars] in P. apply andb_true_iff in P. destruct P as [Pk P].
    destruct s as [|c s]; [reflexivity|].
    cbn [toLowerCase mapStr prefix prefixIgnoringCase].
    fold (toLowerCase s). rewrite <- (lowerChar_foldsTo c k Pk), <- (IH s P).
    destruct (ascii_dec k (lowerChar c)) as [->|N].
    + now rewrite Ascii.eqb_refl.
    + destruct (Ascii.eqb_spec (lowerChar c) k) as [E|_];
        [now elim N | reflexivity].
Qed.

(** A plain phrase occurs in the lower-cased text exactly when it occurs in
    the text with case ignored. *)
Lemma includes_toLowerCase (s kw : string) :
  allChars plainChar kw = true ->
  includes (toLowerCase s) kw = containsIgnoringCase s kw.
Proof.
  intros P. induction s as [|c s IH].
  - rewrite includes_unfold, (prefix_toLowerCase kw "" P). reflexivity.
  - rewrite includes_unfold, (prefix_toLowerCase kw (String c s) P).
    cbn [toLowerCase mapStr containsIgnoringCase].
    fold (toLowerCase s). now rewrite IH.
Qed.

Lemma isNoTitular_spec (f : number -> string) (row : list value) :
  isNoTitular f row
  = existsb (containsIgnoringCase (ToString f (orEmpty (get row 14))))
            KEYWORDS_NO_TIT.
Proof.
  unfold isNoTitular, situacion, KEYWORDS_NO_TIT. cbn [existsb].
  now rewrite !includes_toLowerCase by reflexivity.
Qed.

Lemma status_text (f : number -> string) (row : list value) (status : string) :
  get row 14 = VStr status -> ToString f (orEmpty (get row 14)) = status.
Proof.
  unfold orEmpty. intros ->. simpl.
  destruct (String.eqb_spec status "") as [->|_]; reflexivity.
Qed.

(** C6: on the archive path every row at index 11 or later with a
    non-empty column 14 has its record in the answer, and the rejection
    code of that record is "R016" when the status text contains, letters
    compared without case, one of the seven phrases of the list, and
    "R002" otherwise.  "cliente no titular" gives "R016" and "saldo
    insuficiente" gives "R002", in lower case and in capitals alike.  A
    text in column 14 counts as non-empty when it holds something else
    than white space. *)
Theorem archive_code_by_keyword
        (f : number -> string) (data : list (list value)) (k : nat)
        (row : list value) :
  (11 <= k)%nat -> nth_error data k = Some row -> hasStatus f row = true ->
  KEYWORDS_NO_TIT
  = [ "no es titular"; "beneficiario no"; "cliente no titular"; "no titular";
      "continuar"; "puedes continuar"; "si deseas, puedes continuar" ]
  /\ (exists body,
         serve f (Some (Excel (Sheet data))) = Ok body
         /\ results body
            = map (buildRow f) (filter (hasStatus f) (skipn 11 data))
         /\ In (buildRow f row) (results body))
  /\ Codigo_de_Rechazo (buildRow f row)
     = (if existsb
             (containsIgnoringCase (ToString f (orEmpty (get row 14))))
             KEYWORDS_NO_TIT
        then "R016" else "R002")
  /\ (forall status, get row 14 = VStr status ->
      Codigo_de_Rechazo (buildRow f row)
      = (if existsb (containsIgnoringCase status) KEYWORDS_NO_TIT
         then "R016" else "R002"))
  /\ (get row 14 = VStr "cliente no titular" ->
      Codigo_de_Rechazo (buildRow f row) = "R016")
  /\ (get row 14 = VStr "CLIENTE NO TITULAR" ->
      Codigo_de_Rechazo (buildRow f row) = "R016")
  /\ (get row 14 = VStr "saldo insuficiente" ->
      Codigo_de_Rechazo (buildRow f row) = "R002")
  /\ (get row 14 = VStr "SALDO INSUFICIENTE" ->
      Codigo_de_Rechazo (buildRow f row) = "R002")
  /\ (forall status, get row 14 = VStr status ->
      existsChar notSpace status = true).
Proof.
  intros Hk Hrow Hst.
  assert (forall status, get row 14 = VStr status ->
            existsChar notSpace status = true) as Hne.
  { intros status H. now rewrite <- (hasStatus_text f row status H). }
  split; [reflexivity|].
  split; [now apply qualifying_row_emitted with (k := k)|].
  assert (forall status, get row 14 = VStr status ->
            Codigo_de_Rechazo (buildRow f row)
            = (if existsb (containsIgnoringCase status) KEYWORDS_NO_TIT
               then "R016" else "R002")) as G.
  { intros status H. cbn [buildRow Codigo_de_Rechazo].
    now rewrite isNoTitular_spec, (status_text f row status H). }
  split; [cbn [buildRow Codigo_de_Rechazo]; now rewrite isNoTitular_spec|].
  split; [exact G|].
  repeat split; try exact Hne; intros H; cbn [buildRow Codigo_de_Rechazo];
    unfold isNoTitular; rewrite (situacion_of_text f row _ H); reflexivity.
Qed.

Lemma archive_code_by_keyword_witness :
  Codigo_de_Rechazo
    (buildRow (fun _ => "0") (rowWithStatus "CLIENTE NO TITULAR")) = "R016"
  /\ Codigo_de_Rechazo
       (buildRow (fun _ => "0") (rowWithStatus "Saldo Insuficiente")) = "R002"
  /\ exists body,
       serve (fun _ => "0")
             (Some (Excel (Sheet (sheetWithRowAt 11
                                    (rowWithStatus "Saldo Insuficiente")))))
       = Ok body
       /\ In (buildRow (fun _ => "0") (rowWithStatus "Saldo Insuficiente"))
             (results body).
Proof.
  destruct (archive_code_by_keyword
              (fun _ => "0")
              (sheetWithRowAt 11 (rowWithStatus "CLIENTE NO TITULAR")) 11
              (rowWithStatus "CLIENTE NO TITULAR"))
    as (_ & _ & _ & _ & _ & H16 & _); [lia | reflexivity | reflexivity |].
  destruct (archive_code_by_keyword
              (fun _ => "0")
              (sheetWithRowAt 11 (rowWithStatus "Saldo Insuficiente")) 11
              (rowWithStatus "Saldo Insuficiente"))
    as (_ & (body & Hs & _ & Hin) & _ & G & _);
    [lia | reflexivity | reflexivity |].
  split; [apply H16; reflexivity|].
  split; [apply (G "Saldo Insuficiente"); reflexivity|].
  exists body. split; assumption.
Defined.

(** C10: a qualifying row (index 11 or later, column 14 not empty) whose
    status text contains "continuar", in whatever case its letters are
    written, is emitted with code "R016" and description "CLIENTE NO
    TITULAR DE LA CUENTA", never "R002", whatever else the text says: so
    for "si deseas, puedes continuar" and for "PUEDES CONTINUAR". *)
Theorem continuar_is_no_titular
        (f : number -> string) (data : list (list value)) (k : nat)
        (row : list value) :
  (11 <= k)%nat -> nth_error data k = Some row -> hasStatus f row = true ->
  containsIgnoringCase (ToString f (orEmpty (get row 14))) "continuar" = true ->
  (exists body,
      serve f (Some (Excel (Sheet data))) = Ok body
      /\ In (buildRow f row) (results body))
  /\ Codigo_de_Rechazo (buildRow f row) = "R016"
  /\ Descripcion_de_Rechazo (buildRow f row) = "CLIENTE NO TITULAR DE LA CUENTA"
  /\ Codigo_de_Rechazo (buildRow f row) <> "R002"
  /\ containsIgnoringCase "si deseas, puedes continuar" "continuar" = true
  /\ containsIgnoringCase "PUEDES CONTINUAR" "continuar" = true
  /\ containsIgnoringCase "cuenta cancelada" "continuar" = false
  /\ Codigo_de_Rechazo (buildRow f (rowWithStatus "si deseas, puedes continuar"))
     = "R016"
  /\ Codigo_de_Rechazo (buildRow f (rowWithStatus "PUEDES CONTINUAR")) = "R016"
  /\ Codigo_de_Rechazo (buildRow f (rowWithStatus "cuenta cancelada")) = "R002".
Proof.
  intros Hk Hrow Hst Hc.
  assert (isNoTitular f row = true) as Hno.
  { rewrite isNoTitular_spec. apply existsb_exists. exists "continuar".
    split; [simpl; tauto | exact Hc]. }
  split.
  - destruct (qualifying_row_emitted f data k row Hk Hrow Hst)
      as (body & Hs & _ & Hin).
    exists body. split; assumption.
  - cbn [buildRow Codigo_de_Rechazo Descripcion_de_Rechazo]. rewrite Hno.
    repeat split. discriminate.
Qed.

Lemma continuar_is_no_titular_witness :
  Codigo_de_Rechazo
    (buildRow (fun _ => "0") (rowWithStatus "Si deseas, puedes CONTINUAR"))
  = "R016"
  /\ Descripcion_de_Rechazo
       (buildRow (fun _ => "0") (rowWithStatus "Si deseas, puedes CONTINUAR"))
     = "CLIENTE NO TITULAR DE LA CUENTA"
  /\ exists body,
       serve (fun _ => "0")
             (Some (Excel (Sheet (sheetWithRowAt 12
                                    (rowWithStatus
                                       "Si deseas, puedes CONTINUAR")))))
       = Ok body
       /\ In (buildRow (fun _ => "0")
                       (rowWithStatus "Si deseas, puedes CONTINUAR"))
             (results body).
Proof.
  destruct (continuar_is_no_titular
              (fun _ => "0")
              (sheetWithRowAt 12 (rowWithStatus "Si deseas, puedes CONTINUAR"))
              12 (rowWithStatus "Si deseas, puedes CONTINUAR"))
    as (E & C & D & _); [lia | reflexivity | reflexivity | reflexivity |].
  split; [exact C|]. split; [exact D | exact E].
Defined.

End IgnoringCase.

(** ** The record-number scan finds every marker of the text *)

Section ScanComplete.
Import JsString JsRegExp.

Lemma space_notR (c : ascii) : isSpace c = true -> notR c = true.
Proof.
  destruct c as [[] [] [] [] [] [] [] []]; simpl; intros H;
    try reflexivity; discriminate H.
Qed.

Lemma digit_notR (c : ascii) : isDigit c = true -> notR c = true.
Proof.
  destruct c as [[] [] [] [] [] [] [] []]; simpl; intros H;
    try reflexivity; discriminate H.
Qed.

(** A run without a capital R that starts before an R ends before it. *)
Lemma no_R_before (body rest pre t : string) :
  body ++ rest = pre ++ String "R" t -> allChars notR body = true ->
  (String.length body <= String.length pre)%nat.
Proof.
  revert body. induction pre as [|c pre IH]; intros body E N.
  - destruct body as [|b body]; [simpl; lia|].
    cbn [append] in E. injection E as -> _. discriminate N.
  - destruct body as [|b body]; [simpl; lia|].
    cbn [append] in E. injection E as _ E.
    cbn [allChars] in N. apply andb_true_iff in N. destruct N as [_ N].
    pose proof (IH body E N). simpl. lia.
Qed.

(** A match begins with R and holds no other R, so it never runs over the
    beginning of a later match: the scan finds a match wherever one
    begins. *)
Lemma matchAllFrom_finds (exec : string -> option (string * nat)) :
  (forall s cap n, exec s = Some (cap, n) ->
     exists body rest,
       s = String "R" (body ++ rest)
       /\ allChars notR body = true
       /\ n = S (String.length body)) ->
  forall pre t cap n skip,
    exec (String "R" t) = Some (cap, n) ->
    (skip <= String.length pre)%nat ->
    In cap (matchAllFrom exec skip (pre ++ String "R" t)).
Proof.
  intros Shape pre t cap n. induction pre as [|c pre IH]; intros skip E L.
  - simpl in L. assert (skip = O) as -> by lia.
    cbn [append matchAllFrom]. rewrite E. now left.
  - cbn [append matchAllFrom]. destruct skip as [|k].
    + destruct (exec (String c (pre ++ String "R" t))) as [[cap' n']|] eqn:E'.
      * right. destruct (Shape _ _ _ E') as (body & rest & Es & N & ->).
        injection Es as _ Es. apply IH; [exact E|]. cbn [Nat.pred].
        apply (no_R_before body rest pre t); [now symmetry | exact N].
      * apply IH; [exact E | lia].
    + apply IH; [exact E | simpl in L; lia].
Qed.

(** Every capture of the scan is the capture of a match at some place of
    the text. *)
Lemma matchAllFrom_at (exec : string -> option (string * nat))
      (s : string) (skip : nat) (cap : string) :
  In cap (matchAllFrom exec skip s) ->
  exists pre t n, s = pre ++ t /\ exec t = Some (cap, n).
Proof.
  revert skip. induction s as [|c s IH]; intros skip H; cbn [matchAllFrom] in H.
  - destruct H.
  - assert (forall k, In cap (matchAllFrom exec k s) ->
              exists pre t n, String c s = pre ++ t /\ exec t = Some (cap, n))
      as Tail.
    { intros k Hk. destruct (IH k Hk) as (pre & t & n & -> & E).
      exists (String c pre), t, n. split; [reflexivity | exact E]. }
    destruct skip as [|k]; [|now apply Tail in H].
    destruct (exec (String c s)) as [[cap' n]|] eqn:E.
    + destruct H as [<-|H]; [|now apply Tail in H].
      exists "", (String c s), n. split; [reflexivity | exact E].
    + now apply Tail in H.
Qed.

Lemma marker_shape (ws ds rest : string) :
  allChars isSpace ws = true -> allChars isDigit ds = true ->
  exists body,
    "Registro" ++ ws ++ ds ++ rest = String "R" (body ++ rest)
    /\ allChars notR body = true
    /\ (8 + String.length ws + String.length ds)%nat = S (String.length body).
Proof.
  intros W D. exists ("egistro" ++ ws ++ ds). split; [|split].
  - change ("Registro" ++ ws ++ ds ++ rest)
      with (String "R" ("egistro" ++ ws ++ ds ++ rest)).
    f_equal. now rewrite !strapp_assoc.
  - rewrite !allChars_app.
    rewrite (allChars_impl _ _ ws space_notR W),
            (allChars_impl _ _ ds digit_notR D). reflexivity.
  - rewrite !strlen_app. simpl. lia.
Qed.

Lemma takeDigits_maximal (n : nat) (t : string) :
  String.length (takeDigits n t) = n
  \/ startsWithDigit (drop (String.length (takeDigits n t)) t) = false.
Proof.
  revert t. induction n as [|n IH]; intros t.
  - left. now destruct t.
  - destruct t as [|c t]; [now right|]. cbn [takeDigits].
    destruct (isDigit c) eqn:D.
    + cbn [String.length drop]. destruct (IH t) as [H|H]; [left; lia | now right].
    + right. simpl. exact D.
Qed.

Lemma spanDigits_rest (s ip r : string) :
  spanDigits s = (ip, r) -> startsWithDigit r = false.
Proof.
  revert ip r. induction s as [|c s IH]; intros ip r; simpl.
  - intros H. now injection H as <- <-.
  - destruct (isDigit c) eqn:D.
    + destruct (spanDigits s) as [ds rest]. intros H. injection H as <- <-.
      now apply (IH ds rest).
    + intros H. injection H as <- <-. exact D.
Qed.

Lemma spanDigits_app (ds rest : string) :
  allChars isDigit ds = true -> startsWithDigit rest = false ->
  spanDigits (ds ++ rest) = (ds, rest).
Proof.
  intros D R. induction ds as [|c ds IH].
  - destruct rest as [|c r]; [reflexivity|]. simpl in *. now rewrite R.
  - cbn [allChars] in D. apply andb_true_iff in D. destruct D as [Dc D].
    cbn [append spanDigits]. now rewrite Dc, (IH D).
Qed.

(** One match of the five-digit expression is a marker read with at most
    five digits, at the head of the text. *)
Lemma execRegistro5_marker (s ds : string) (n : nat) :
  execRegistro5 s = Some (ds, n) ->
  exists ws rest,
    marker5 s "" ws ds rest
    /\ n = (8 + String.length ws + String.length ds)%nat.
Proof.
  unfold execRegistro5, execRegistro.
  destruct (prefix "Registro" s) eqn:P; [|discriminate].
  apply prefix_drop in P. cbn [String.length] in P.
  destruct (countSpaces_drop (drop 8 s)) as (ws & E & L & W).
  destruct (countSpaces (drop 8 s)) as [|k] eqn:C; [discriminate|].
  destruct (takeDigits_drop 5 (drop (S k) (drop 8 s))) as (E' & D & U).
  pose proof (takeDigits_maximal 5 (drop (S k) (drop 8 s))) as M.
  destruct (takeDigits 5 (drop (S k) (drop 8 s))) as [|c cs] eqn:T;
    [discriminate|].
  intros H. injection H as <- <-.
  exists ws, (drop (String.length (String c cs)) (drop (S k) (drop 8 s))).
  split; [|cbn [String.length]; lia]. repeat split; try assumption; try lia.
  - rewrite <- E', <- E. exact P.
  - cbn [String.length]. lia.
Qed.

Lemma execRegistroAny_marker (s ds : string) (n : nat) :
  execRegistroAny s = Some (ds, n) ->
  exists ws rest,
    markerAny s "" ws ds rest
    /\ n = (8 + String.length ws + String.length ds)%nat.
Proof.
  unfold execRegistroAny, execRegistro.
  destruct (prefix "Registro" s) eqn:P; [|discriminate].
  apply prefix_drop in P. cbn [String.length] in P.
  destruct (countSpaces_drop (drop 8 s)) as (ws & E & L & W).
  destruct (countSpaces (drop 8 s)) as [|k] eqn:C; [discriminate|].
  destruct (spanDigits (drop (S k) (drop 8 s))) as [d rest] eqn:Sp.
  pose proof (spanDigits_rest _ _ _ Sp) as R.
  apply spanDigits_spec in Sp. destruct Sp as [E' D]. cbn [fst].
  destruct d as [|c cs]; [discriminate|].
  intros H. injection H as <- <-.
  exists ws, rest.
  split; [|cbn [String.length]; lia]. repeat split; try assumption; try lia.
  - rewrite <- E', <- E. exact P.
  - cbn [String.length]. lia.
Qed.

Lemma execRegistroAny_complete (ws ds rest : string) :
  (1 <= String.length ws)%nat ->
  allChars isSpace ws = true ->
  (1 <= String.length ds)%nat ->
  allChars isDigit ds = true ->
  startsWithDigit rest = false ->
  execRegistroAny ("Registro" ++ ws ++ ds ++ rest)
  = Some (ds, (8 + String.length ws + String.length ds)%nat).
Proof.
  intros Lw W Ld D E. unfold execRegistroAny, execRegistro.
  rewrite prefix_append.
  change (drop 8 ("Registro" ++ ws ++ ds ++ rest)) with (ws ++ ds ++ rest).
  assert (countSpaces (ds ++ rest) = O) as C0.
  { destruct ds as [|c ds]; [simpl in Ld; lia|].
    cbn [allChars] in D. apply andb_true_iff in D. destruct D as [Dc _].
    simpl. now rewrite (digit_not_space c Dc). }
  rewrite (countSpaces_app ws _ W), C0, Nat.add_0_r.
  destruct (String.length ws) as [|k] eqn:Lk; [lia|].
  rewrite <- Lk, drop_app, (spanDigits_app ds rest D E). cbn [fst].
  destruct ds as [|c ds]; [simpl in Ld; lia | reflexivity].
Qed.

Lemma execRegistro5_shape (s cap : string) (n : nat) :
  execRegistro5 s = Some (cap, n) ->
  exists body rest,
    s = String "R" (body ++ rest)
    /\ allChars notR body = true
    /\ n = S (String.length body).
Proof.
  intros H. apply execRegistro5_marker in H.
  destruct H as (ws & rest & ((E & _ & W & _ & D) & _) & ->).
  destruct (marker_shape ws cap rest W D) as (body & Eb & N & Ln).
  exists body, rest. cbn [append] in E. rewrite E. now rewrite <- Ln.
Qed.

Lemma execRegistroAny_shape (s cap : string) (n : nat) :
  execRegistroAny s = Some (cap, n) ->
  exists body rest,
    s = String "R" (body ++ rest)
    /\ allChars notR body = true
    /\ n = S (String.length body).
Proof.
  intros H. apply execRegistroAny_marker in H.
  destruct H as (ws & rest & ((E & _ & W & _ & D) & _) & ->).
  destruct (marker_shape ws cap rest W D) as (body & Eb & N & Ln).
  exists body, rest. cbn [append] in E. rewrite E. now rewrite <- Ln.
Qed.

Lemma marker_moved (pre t ws ds rest : string) :
  markerAt t "" ws ds rest -> markerAt (pre ++ t) pre ws ds rest.
Proof.
  intros (E & H). split; [|exact H]. cbn [append] in E. now rewrite E at 1.
Qed.

(** The captures of the five-digit scan are the digits of the markers of
    the text, each read with at most five digits. *)
Lemma matchAll5_markers (text ds : string) :
  In ds (matchAll execRegistro5 text) <->
  exists pre ws rest, marker5 text pre ws ds rest.
Proof.
  split.
  - intros H. apply matchAllFrom_at in H. destruct H as (pre & t & n & -> & E).
    apply execRegistro5_marker in E. destruct E as (ws & rest & (M & B) & _).
    exists pre, ws, rest. split; [now apply marker_moved | exact B].
  - intros (pre & ws & rest & ((-> & Lw & W & Ld & D) & L5 & Mx)).
    change ("Registro" ++ ws ++ ds ++ rest)
      with (String "R" ("egistro" ++ ws ++ ds ++ rest)).
    apply (matchAllFrom_finds execRegistro5 execRegistro5_shape)
      with (n := (8 + String.length ws + String.length ds)%nat); [|lia].
    apply (execRegistro5_complete ws ds rest); auto.
Qed.

(** The captures of the scan of the spreadsheet handler are the digits of
    the markers, each read as far as its digits go. *)
Lemma matchAllAny_markers (text ds : string) :
  In ds (matchAll execRegistroAny text) <->
  exists pre ws rest, markerAny text pre ws ds rest.
Proof.
  split.
  - intros H. apply matchAllFrom_at in H. destruct H as (pre & t & n & -> & E).
    apply execRegistroAny_marker in E. destruct E as (ws & rest & (M & B) & _).
    exists pre, ws, rest. split; [now apply marker_moved | exact B].
  - intros (pre & ws & rest & ((-> & Lw & W & Ld & D) & Mx)).
    change ("Registro" ++ ws ++ ds ++ rest)
      with (String "R" ("egistro" ++ ws ++ ds ++ rest)).
    apply (matchAllFrom_finds execRegistroAny execRegistroAny_shape)
      with (n := (8 + String.length ws + String.length ds)%nat); [|lia].
    apply (execRegistroAny_complete ws ds rest); auto.
Qed.

End ScanComplete.

Section DedupeAgain.
Import JsArray.

Variable A : Type.
Variable eqb : A -> A -> bool.
Hypothesis eqb_eq : forall x y, eqb x y = true <-> x = y.

Lemma dedupeFrom_distinct (xs seen : list A) :
  NoDup xs -> (forall x, In x xs -> ~ In x seen) ->
  dedupeFrom eqb seen xs = xs.
Proof.
  intros N. revert seen. induction N as [|x r Hx N IH]; intros seen Hs.
  - reflexivity.
  - cbn [dedupeFrom].
    destruct (existsb (eqb x) seen) eqn:E.
    + apply (existsb_eqb_In A eqb eqb_eq) in E.
      elim (Hs x); [now left | exact E].
    + f_equal. apply IH. intros y Hy [<-|Hin]; [contradiction|].
      apply (Hs y); [now right | exact Hin].
Qed.

(** De-duplicating a list without duplicates changes nothing. *)
Lemma dedupe_distinct (xs : list A) : NoDup xs -> dedupe eqb xs = xs.
Proof. intros N. apply dedupeFrom_distinct; auto. Qed.

Lemma filter_none (g : A -> bool) (l : list A) :
  (forall y, In y l -> g y = false) -> filter g l = [].
Proof.
  induction l as [|y l IH]; intros H; [reflexivity|].
  cbn [filter]. rewrite (H y) by now left.
  apply IH. intros z Hz. apply H. now right.
Qed.

(** In a list without duplicates, a test passed by one element only keeps
    that element only. *)
Lemma filter_single (g : A -> bool) (l : list A) (x : A) :
  NoDup l -> In x l -> g x = true ->
  (forall y, In y l -> y <> x -> g y = false) ->
  filter g l = [x].
Proof.
  intros N. induction N as [|h r Hh N IH]; intros Hin Hx Ho; [destruct Hin|].
  cbn [filter]. destruct Hin as [->|Hin].
  - rewrite Hx. f_equal. apply filter_none. intros y Hy.
    apply Ho; [now right|]. intros ->. contradiction.
  - assert (g h = false) as ->.
    { apply Ho; [now left|]. intros ->. contradiction. }
    apply IH; [exact Hin | exact Hx |].
    intros y Hy. apply Ho. now right.
Qed.

End DedupeAgain.

(** ** RegistroExtractor: the two scanners *)

Section Scanners.
Import JsString JsRegExp JsArray PreBcpTxt PreBcpXlsx.

Lemma extract_markers (pdfText : string) (r : Z) :
  In r (extractRegistrosFromPdf pdfText) <->
  exists pre ws ds rest,
    marker5 pdfText pre ws ds rest /\ r = digitsValue ds.
Proof.
  rewrite extract_In. split.
  - intros (ds & Hin & ->). apply matchAll5_markers in Hin.
    destruct Hin as (pre & ws & rest & M). now exists pre, ws, ds, rest.
  - intros (pre & ws & ds & rest & M & ->). exists ds. split; [|reflexivity].
    apply matchAll5_markers. now exists pre, ws, rest.
Qed.

Lemma rowNumbers_markers (pdfText : string) (i : rowNumber) :
  In i (extractRowNumbersFromPdf pdfText) <->
  exists pre ws ds rest,
    markerAny pdfText pre ws ds rest /\ i = nextRow ds.
Proof.
  rewrite rowNumbers_In. split.
  - intros (ds & Hin & ->). apply matchAllAny_markers in Hin.
    destruct Hin as (pre & ws & rest & M). now exists pre, ws, ds, rest.
  - intros (pre & ws & ds & rest & M & ->). exists ds. split; [|reflexivity].
    apply matchAllAny_markers. now exists pre, ws, rest.
Qed.

Lemma nil_of_no_member (A : Type) (l : list A) :
  (forall x, ~ In x l) -> l = [].
Proof.
  destruct l as [|x l]; [reflexivity|]. intros H. elim (H x). now left.
Qed.

(** C7: the two scanners of the report.  The scanner of the text handler
    returns, for every text, a duplicate-free and strictly ascending list
    that holds exactly the values of the markers of the text (the word,
    white space, one to five digits read greedily), is empty when the
    text has no marker, and is not changed by de-duplicating and sorting
    it again; on "Registro 3 ... Registro 1 ... Registro 3" it is [1; 3],
    and of "Registro 123456" it reads the first five digits.  The scanner
    of the spreadsheet handler returns a duplicate-free and strictly
    ascending list too, empty when the text has no marker, but it reads a
    run of digits of any length and returns each record number plus one:
    [2; 4] on the same example and [123457] for "Registro 123456". *)
Theorem scanners_sorted_distinct (pdfText : string) :
  (NoDup (extractRegistrosFromPdf pdfText)
   /\ StronglySorted Z.lt (extractRegistrosFromPdf pdfText)
   /\ (forall r, In r (extractRegistrosFromPdf pdfText) <->
         exists pre ws ds rest,
           marker5 pdfText pre ws ds rest /\ r = digitsValue ds)
   /\ (forall r, In r (extractRegistrosFromPdf pdfText) -> 0 <= r <= 99999)
   /\ ((forall pre ws ds rest, ~ marker5 pdfText pre ws ds rest) ->
       extractRegistrosFromPdf pdfText = [])
   /\ sort Z.leb (dedupe Z.eqb (extractRegistrosFromPdf pdfText))
      = extractRegistrosFromPdf pdfText
   /\ extractRegistrosFromPdf "Registro 3 ... Registro 1 ... Registro 3"
      = [1; 3]
   /\ extractRegistrosFromPdf "Registro 123456" = [12345]
   /\ extractRegistrosFromPdf "Sin rechazos" = [])
  /\ (NoDup (extractRowNumbersFromPdf pdfText)
      /\ StronglySorted rowLt (extractRowNumbersFromPdf pdfText)
      /\ (forall i, In i (extractRowNumbersFromPdf pdfText) <->
            exists pre ws ds rest,
              markerAny pdfText pre ws ds rest /\ i = nextRow ds)
      /\ (forall pre ws ds rest,
            markerAny pdfText pre ws ds rest ->
            digitsValue ds + 1 < 2 ^ 53 ->
            In (Fin (digitsValue ds + 1)) (extractRowNumbersFromPdf pdfText))
      /\ ((forall pre ws ds rest, ~ markerAny pdfText pre ws ds rest) ->
          extractRowNumbersFromPdf pdfText = [])
      /\ sort rowLeb (dedupe rowEqb (extractRowNumbersFromPdf pdfText))
         = extractRowNumbersFromPdf pdfText
      /\ extractRowNumbersFromPdf "Registro 3 ... Registro 1 ... Registro 3"
         = [Fin 2; Fin 4]
      /\ extractRowNumbersFromPdf "Registro 123456" = [Fin 123457]
      /\ extractRowNumbersFromPdf "Sin rechazos" = []).
Proof.
  split.
  - split; [apply extract_NoDup|]. split; [apply extract_ascending|].
    split; [apply extract_markers|]. split; [apply extract_range|].
    split; [|split; [|repeat split]].
    + intros H. apply nil_of_no_member. intros r Hr.
      apply extract_markers in Hr.
      destruct Hr as (pre & ws & ds & rest & M & _). now apply (H pre ws ds rest).
    + rewrite (dedupe_distinct Z Z.eqb Z.eqb_eq) by apply extract_NoDup.
      apply sort_sorted_id.
      pose proof (extract_ascending pdfText) as S.
      induction S as [|x r Hs IH Hall]; constructor; [exact IH|].
      eapply Forall_impl; [|exact Hall]. intros y L. apply Z.leb_le. lia.
  - split; [apply rowNumbers_NoDup|]. split; [apply rowNumbers_ascending|].
    split; [apply rowNumbers_markers|].
    split; [|split; [|split; [|repeat split]]].
    + intros pre ws ds rest M B. apply rowNumbers_markers.
      exists pre, ws, ds, rest. split; [exact M|].
      destruct M as ((_ & _ & _ & _ & D) & _).
      now rewrite (nextRow_exact ds D B).
    + intros H. apply nil_of_no_member. intros r Hr.
      apply rowNumbers_markers in Hr.
      destruct Hr as (pre & ws & ds & rest & M & _). now apply (H pre ws ds rest).
    + rewrite (dedupe_distinct rowNumber rowEqb rowEqb_eq)
        by apply rowNumbers_NoDup.
      apply sort_sorted_id.
      pose proof (rowNumbers_ascending pdfText) as S.
      induction S as [|x r Hs IH Hall]; constructor; [exact IH|].
      eapply Forall_impl; [|exact Hall]. intros y [L _]. exact L.
Qed.

(** C7, as the specification words it for both scanners: on the example
    the scanner of the spreadsheet handler does not return [1; 3], and it
    reads more than five digits. *)
Lemma scanners_differ_counterexample :
  extractRowNumbersFromPdf "Registro 3 ... Registro 1 ... Registro 3"
  = [Fin 2; Fin 4]
  /\ extractRowNumbersFromPdf "Registro 3 ... Registro 1 ... Registro 3"
     <> [Fin 1; Fin 3]
  /\ markerAny "Registro 123456" "" " " "123456" ""
  /\ extractRowNumbersFromPdf "Registro 123456" = [Fin 123457].
Proof.
  split; [reflexivity|]. split; [discriminate|]. split; [|reflexivity].
  repeat split; simpl; lia.
Qed.

End Scanners.

(** ** The text path from the report to the record *)

Section TextScenario.
Import JsString JsNumber JsRegExp JsArray Api PreBcpTxt.

Lemma marker5_found (pdfText pre ws ds rest : string) :
  marker5 pdfText pre ws ds rest ->
  In (digitsValue ds) (extractRegistrosFromPdf pdfText).
Proof.
  intros M. apply extract_markers. now exists pre, ws, ds, rest.
Qed.

(** C4: when the report holds a marker of record number 5 (the word,
    white space, and digits of value 5 that no further digit follows, as
    in "Registro 5"), the companion text has at least 10 lines, and every
    other marker of the report has a record number whose second line is
    not in the companion text (the number is 0, or twice the number is
    more than the number of lines), the scan finds record 5 and the answer
    holds exactly one record: the fields cut from line index 9
    ([5 * 2 - 1]) at columns 25-33, 40-85, 115-126 and 186-195, with code
    "R001" and description "DOCUMENTO ERRADO". *)
Theorem registro_5_reads_line_9
        (pre ws ds post pdfText txtContent : string) :
  marker5 pdfText pre ws ds post ->
  digitsValue ds = 5 ->
  (10 <= List.length (split "010" txtContent))%nat ->
  (forall pre' ws' ds' post',
      marker5 pdfText pre' ws' ds' post' ->
      digitsValue ds' = 5 \/ digitsValue ds' = 0
      \/ Z.of_nat (List.length (split "010" txtContent)) < 2 * digitsValue ds') ->
  let line := nth 9 (split "010" txtContent) "" in
  In 5 (extractRegistrosFromPdf pdfText)
  /\ 5 * MULT - 1 = 9
  /\ (exists body,
        serve (Some pdfText) (Some txtContent) "R001" "DOCUMENTO ERRADO"
        = Ok body
        /\ totalTransactions body = 1%nat
        /\ results body
           = [ {| dni_cex := sliceFixed line 25 33;
                  nombre := sliceFixed line 40 85;
                  importe := parseAmount (sliceFixed line 186 195);
                  Referencia := sliceFixed line 115 126;
                  Estado := "rechazada";
                  Codigo_de_Rechazo := "R001";
                  Descripcion_de_Rechazo := "DOCUMENTO ERRADO" |} ])
  /\ (forall p q,
        startsWithDigit q = false ->
        marker5 (p ++ "Registro 5" ++ q) p " " "5" q
        /\ In 5 (extractRegistrosFromPdf (p ++ "Registro 5" ++ q))).
Proof.
  intros M5 V5 Hlen Hothers line.
  assert (In 5 (extractRegistrosFromPdf pdfText)) as Hin.
  { rewrite <- V5. exact (marker5_found _ _ _ _ _ M5). }
  split; [exact Hin|]. split; [reflexivity|]. split.
  - rewrite txt_serve_present, accepted_registros.
    rewrite (filter_single Z _ _ 5 (extract_NoDup pdfText) Hin).
    + eexists. split; [reflexivity|]. split; reflexivity.
    + apply andb_true_iff. split; [reflexivity|]. apply Z.leb_le. lia.
    + intros r Hr Hne. apply extract_markers in Hr.
      destruct Hr as (pre' & ws' & ds' & rest & M & ->).
      destruct (Hothers pre' ws' ds' rest M) as [E|[E|E]]; [contradiction | |].
      * rewrite E. reflexivity.
      * apply andb_false_iff. right. apply Z.leb_gt. exact E.
  - intros p q Hq.
    assert (marker5 (p ++ "Registro 5" ++ q) p " " "5" q) as M
        by (repeat split; simpl; auto).
    split; [exact M | exact (marker5_found _ _ _ _ _ M)].
Qed.

Lemma registro_5_reads_line_9_witness :
  exists body,
    serve (Some "Rechazos: Registro 5 y Registro 600")
          (Some (linesThen 9 sampleLine)) "R001" "DOCUMENTO ERRADO"
    = Ok body
    /\ results body
       = [ {| dni_cex := "12345678";
              nombre := "PEREZ JUAN";
              importe := lit_1234_56;
              Referencia := "REF000000001";
              Estado := "rechazada";
              Codigo_de_Rechazo := "R001";
              Descripcion_de_Rechazo := "DOCUMENTO ERRADO" |} ].
Proof.
  destruct (registro_5_reads_line_9
              "Rechazos: " " " "5" " y Registro 600"
              "Rechazos: Registro 5 y Registro 600"
              (linesThen 9 sampleLine))
    as (_ & _ & (body & Hs & _ & Hr) & _).
  - repeat split; simpl; auto.
  - reflexivity.
  - vm_compute. lia.
  - intros pre' ws ds rest M. apply marker5_found in M.
    remember (digitsValue ds) as v eqn:Ev. clear Ev.
    vm_compute in M. destruct M as [<-|[<-|[]]]; [now left|].
    right. right. vm_compute. reflexivity.
  - exists body. split; [exact Hs|]. rewrite Hr. vm_compute. reflexivity.
Defined.

(** C4, as the specification words it: "Registro 5" occurs exactly once in
    the report and the companion text has twelve lines, yet the answer
    holds two records. *)
Lemma registro_5_once_counterexample :
  occurrences "Registro 5" "Registro 5 Registro 6" = 1%nat
  /\ List.length (split "010" (linesThen 11 "")) = 12%nat
  /\ extractRegistrosFromPdf "Registro 5 Registro 6" = [5; 6]
  /\ exists body,
       serve (Some "Registro 5 Registro 6") (Some (linesThen 11 ""))
             "R001" "DOCUMENTO ERRADO"
       = Ok body
       /\ List.length (results body) = 2%nat.
Proof.
  split; [reflexivity|]. split; [reflexivity|]. split; [reflexivity|].
  eexists. split; reflexivity.
Qed.

End TextScenario.

(** ** BatchAggregator: the total is the binary64 sum, exact on integers *)

Section ExactSums.
Import JsNumber Api.

Lemma shr_1_even (k : positive) :
  shr_1 {| shr_m := 2 * Zpos k; shr_r := false; shr_s := false |}
  = {| shr_m := Zpos k; shr_r := false; shr_s := false |}.
Proof. reflexivity. Qed.

(** Shifting out bits that are all zero loses nothing. *)
Lemma iter_shr_1_exact (p : positive) :
  forall k : positive,
    iter_pos shr_1 p
      {| shr_m := Zpos k * 2 ^ Zpos p; shr_r := false; shr_s := false |}
    = {| shr_m := Zpos k; shr_r := false; shr_s := false |}.
Proof.
  induction p as [p IH|p IH|]; intros k; cbn [iter_pos].
  - replace (Z.pos k * 2 ^ Z.pos p~1)
      with (2 * Zpos (Pos.iter xO (Pos.iter xO k p) p)).
    + rewrite shr_1_even.
      rewrite (iter_xO_value (Pos.iter xO k p) p), IH.
      rewrite (iter_xO_value k p). apply IH.
    + rewrite (iter_xO_value (Pos.iter xO k p) p), (iter_xO_value k p).
      replace (Z.pos p~1) with (1 + Z.pos p + Z.pos p) by lia.
      rewrite !Z.pow_add_r by lia. change (2 ^ 1) with 2. lia.
  - replace (Z.pos k * 2 ^ Z.pos p~0)
      with (Zpos (Pos.iter xO k p) * 2 ^ Zpos p).
    + rewrite IH, (iter_xO_value k p). apply IH.
    + rewrite (iter_xO_value k p).
      replace (Z.pos p~0) with (Z.pos p + Z.pos p) by lia.
      rewrite !Z.pow_add_r by lia. lia.
  - change (2 ^ 1) with 2. rewrite Z.mul_comm. apply shr_1_even.
Qed.

Lemma shl_align_value (m : positive) (e e' : Z) :
  e' <= e -> Zpos (fst (shl_align m e e')) = Zpos m * 2 ^ (e - e').
Proof.
  intros L. unfold shl_align. destruct (e' - e) as [|d|d] eqn:E; cbn [fst].
  - replace (e - e') with 0 by lia. lia.
  - lia.
  - rewrite iter_xO_value. f_equal. f_equal. lia.
Qed.

Lemma Zdigits2_scaled (m n : positive) (k : Z) :
  0 <= k -> Zpos m = Zpos n * 2 ^ k ->
  Zdigits2 (Zpos m) = Zdigits2 (Zpos n) + k.
Proof.
  intros Hk H. rewrite !Zdigits2_log2, H, Z.log2_mul_pow2 by lia. lia.
Qed.

(** Rounding [M * 2^e] when it is a positive integer [N] below [2^53]:
    the result is [N], written with 53 bits. *)
Lemma binary_round_integer (M N : positive) (e : Z) :
  (0 <= e /\ Zpos N = Zpos M * 2 ^ e)
  \/ (e < 0 /\ Zpos M = Zpos N * 2 ^ (- e)) ->
  Zpos N < 2 ^ 53 ->
  exists m e',
    binary_round prec emax false M e = S754_finite false m e'
    /\ e' <= 0
    /\ Zpos m = Zpos N * 2 ^ (- e').
Proof.
  intros V B.
  pose proof (Zdigits2_pos N) as D1.
  assert (Zdigits2 (Zpos N) <= 53) as D53 by (apply Zdigits2_le; lia).
  assert (Zdigits2 (Zpos M) + e = Zdigits2 (Zpos N)) as DM.
  { destruct V as [[He V]|[He V]].
    - rewrite (Zdigits2_scaled N M e He V). lia.
    - rewrite (Zdigits2_scaled M N (- e) ltac:(lia) V). lia. }
  set (e' := Zdigits2 (Zpos N) - 53).
  unfold binary_round, shl_align.
  change (Z.pos (digits2_pos M)) with (Zdigits2 (Zpos M)).
  rewrite fexp_value, DM.
  replace (Z.max (Zdigits2 (Z.pos N) - 53) (-1074)) with e' by (unfold e'; lia).
  destruct (e' - e) as [|k|k] eqn:E.
  - exists M, e. rewrite binary_round_aux_canonical by (unfold e' in E; lia).
    split; [reflexivity|]. split; [unfold e' in E; lia|].
    destruct V as [[He V]|[He V]]; [|exact V].
    replace e with 0 in * by (unfold e' in E; lia). simpl in *. lia.
  - assert (e < 0) as He by (unfold e' in E; lia).
    destruct V as [[He' _]|[_ V]]; [lia|].
    assert (Zpos M = Zpos N * 2 ^ (- e') * 2 ^ Zpos k) as VM.
    { rewrite V, <- Z.mul_assoc, <- Z.pow_add_r by (unfold e'; lia).
      do 2 f_equal. lia. }
    assert (0 < Zpos N * 2 ^ (- e')) as Pn
        by (apply Z.mul_pos_pos; [lia | apply Z.pow_pos_nonneg; unfold e'; lia]).
    destruct (Zpos N * 2 ^ (- e')) as [|n|n] eqn:En; try lia.
    assert (Zdigits2 (Zpos n) = 53) as Dn.
    { rewrite (Zdigits2_scaled n N (- e')); [unfold e'; lia | unfold e'; lia |].
      now rewrite En. }
    exists n, e'. split; [|split; [unfold e'; lia | now symmetry]].
    unfold binary_round_aux, shr_fexp.
    rewrite DM, fexp_value.
    replace (Z.max (Zdigits2 (Z.pos N) - 53) (-1074) - e) with (Zpos k)
      by (unfold e' in E; lia).
    cbn [shr shr_record_of_loc]. rewrite VM, iter_shr_1_exact.
    cbn [shr_m loc_of_shr_record round_nearest_even].
    rewrite Dn, fexp_value.
    replace (Z.max (53 + (e + Z.pos k) - 53) (-1074) - (e + Z.pos k)) with 0
      by (unfold e' in E; lia).
    cbn [shr shr_record_of_loc shr_m].
    replace (e + Z.pos k) with e' by lia.
    destruct (Z.leb_spec e' (emax - prec)) as [_|L]; [reflexivity|].
    unfold emax, prec, e' in L. lia.
  - pose proof (iter_xO_value M k) as VK.
    assert (Zpos (Pos.iter xO M k) = Zpos N * 2 ^ (- e')) as VM.
    { rewrite VK. destruct V as [[He V]|[He V]].
      - rewrite V, <- Z.mul_assoc, <- Z.pow_add_r by lia.
        do 2 f_equal. lia.
      - rewrite V, <- Z.mul_assoc, <- Z.pow_add_r by lia.
        do 2 f_equal. lia. }
    exists (Pos.iter xO M k), e'.
    rewrite binary_round_aux_canonical.
    + split; [reflexivity|]. split; [unfold e'; lia | exact VM].
    + rewrite (Zdigits2_scaled _ N (- e')); [unfold e'; lia | unfold e'; lia |].
      exact VM.
    + unfold e'. lia.
Qed.

Lemma integerOf_finite_nonneg (s : bool) (m : positive) (e a : Z) :
  integerOf (S754_finite s m e) = Some a -> 0 <= a ->
  s = false
  /\ 0 < a
  /\ ((0 <= e /\ a = Zpos m * 2 ^ e) \/ (e < 0 /\ Zpos m = a * 2 ^ (- e))).
Proof.
  unfold integerOf. destruct (Z.leb_spec 0 e) as [He|He].
  - intros H Ha.
    assert (a = cond_Zopp s (Zpos m * 2 ^ e)) as -> by congruence. clear H.
    assert (0 < Zpos m * 2 ^ e)
      by (apply Z.mul_pos_pos; [lia | apply Z.pow_pos_nonneg; lia]).
    destruct s; cbn [cond_Zopp] in *; [lia|]. auto.
  - assert (0 < 2 ^ (- e)) as P by (apply Z.pow_pos_nonneg; lia).
    destruct (Z.eqb_spec (Zpos m mod 2 ^ (- e)) 0) as [R|_]; [|discriminate].
    intros H Ha.
    assert (a = cond_Zopp s (Zpos m / 2 ^ (- e))) as -> by congruence. clear H.
    pose proof (Z.div_mod (Zpos m) (2 ^ (- e)) ltac:(lia)) as Q.
    rewrite R, Z.add_0_r in Q.
    pose proof (Z.div_pos (Zpos m) (2 ^ (- e)) ltac:(lia) P) as Q0.
    assert (0 < Zpos m / 2 ^ (- e)).
    { destruct (Z.eq_dec (Zpos m / 2 ^ (- e)) 0) as [Z0|]; [|lia].
      rewrite Z0, Z.mul_0_r in Q. lia. }
    destruct s; cbn [cond_Zopp] in *; [lia|].
    split; [reflexivity|]. split; [assumption|]. right. split; [exact He|].
    rewrite Q at 1. apply Z.mul_comm.
Qed.

Lemma integer_scaled_down (m : positive) (e a ez : Z) :
  ez <= e -> ez < 0 ->
  (0 <= e /\ a = Zpos m * 2 ^ e) \/ (e < 0 /\ Zpos m = a * 2 ^ (- e)) ->
  Zpos m * 2 ^ (e - ez) = a * 2 ^ (- ez).
Proof.
  intros L N [[He ->]|[He ->]].
  - rewrite <- !Z.mul_assoc, <- !Z.pow_add_r by lia. do 2 f_equal; lia.
  - rewrite <- !Z.mul_assoc, <- !Z.pow_add_r by lia. do 2 f_equal; lia.
Qed.

Lemma integer_scaled_up (m : positive) (e a ez : Z) :
  ez <= e -> 0 <= ez ->
  (0 <= e /\ a = Zpos m * 2 ^ e) \/ (e < 0 /\ Zpos m = a * 2 ^ (- e)) ->
  Zpos m * 2 ^ (e - ez) * 2 ^ ez = a.
Proof.
  intros L N [[He ->]|[He _]]; [|lia].
  rewrite <- Z.mul_assoc, <- Z.pow_add_r by lia. do 2 f_equal; lia.
Qed.

(** Adding two non-negative integers whose sum is below [2^53] gives
    their sum. *)
Lemma add_integers (x y : number) (a b : Z) :
  integerOf x = Some a -> integerOf y = Some b ->
  0 <= a -> 0 <= b -> a + b < 2 ^ 53 ->
  integerOf (add x y) = Some (a + b).
Proof.
  intros Hx Hy Ha Hb B.
  destruct x as [sx|sx| |sx mx ex]; try discriminate Hx;
    destruct y as [sy|sy| |sy my ey]; try discriminate Hy.
  - injection Hx as <-. injection Hy as <-. now destruct sx, sy.
  - injection Hx as <-. exact Hy.
  - injection Hy as <-. rewrite Z.add_0_r. exact Hx.
  - destruct (integerOf_finite_nonneg _ _ _ _ Hx Ha) as (-> & Pa & Vx).
    destruct (integerOf_finite_nonneg _ _ _ _ Hy Hb) as (-> & Pb & Vy).
    unfold add, SFadd. cbn [cond_Zopp].
    pose proof (shl_align_value mx ex (Z.min ex ey) ltac:(lia)) as Sx.
    pose proof (shl_align_value my ey (Z.min ex ey) ltac:(lia)) as Sy.
    set (px := fst (shl_align mx ex (Z.min ex ey))) in *.
    set (py := fst (shl_align my ey (Z.min ex ey))) in *.
    change (Z.pos px + Z.pos py) with (Z.pos (px + py)).
    cbn [binary_normalize].
    destruct (a + b) as [|n|n] eqn:En; try lia.
    destruct (binary_round_integer (px + py) n (Z.min ex ey))
      as (m & e' & -> & He' & V); [|lia|].
    + rewrite Pos2Z.inj_add, Sx, Sy.
      destruct (Z.le_gt_cases 0 (Z.min ex ey)) as [L|L]; [left | right];
        (split; [exact L|]).
      * rewrite Z.mul_add_distr_r.
        rewrite (integer_scaled_up mx ex a), (integer_scaled_up my ey b);
          auto; lia.
      * rewrite (integer_scaled_down mx ex a), (integer_scaled_down my ey b);
          auto; lia.
    + exact (integerOf_exact false n m e' He' V).
Qed.

Lemma integerSum_nonneg (xs : list number) (total : Z) :
  integerSum xs = Some total -> 0 <= total.
Proof.
  revert total. induction xs as [|x xs IH]; intros total; cbn [integerSum].
  - intros H. injection H as <-. lia.
  - destruct (integerOf x) as [a|]; [|discriminate].
    destruct (integerSum xs) as [b|]; [|discriminate].
    destruct (Z.leb_spec 0 a) as [Pa|]; [|discriminate].
    intros E. injection E as <-. specialize (IH b eq_refl). lia.
Qed.

Lemma fold_add_integers (rows : list ResultData) :
  forall (acc : number) (a total : Z),
    integerOf acc = Some a -> 0 <= a ->
    integerSum (map importe rows) = Some total ->
    a + total < 2 ^ 53 ->
    integerOf (fold_left (fun sum row => add sum (importe row)) rows acc)
    = Some (a + total).
Proof.
  induction rows as [|r rows IH]; intros acc a total Hacc Ha Hs B;
    cbn [map integerSum] in Hs; cbn [fold_left].
  - injection Hs as <-. now rewrite Z.add_0_r.
  - destruct (integerOf (importe r)) as [b|] eqn:Hb; [|discriminate].
    destruct (integerSum (map importe rows)) as [c|] eqn:Hc; [|discriminate].
    destruct (Z.leb_spec 0 b) as [Pb|]; [|discriminate].
    injection Hs as <-. pose proof (integerSum_nonneg _ _ Hc) as Pc.
    rewrite Z.add_assoc. apply IH; [|lia|reflexivity|lia].
    apply add_integers; auto; lia.
Qed.

(** The total of amounts that are non-negative integers is their exact
    sum, as long as it stays below [2^53]. *)
Lemma sumImporte_integers (rows : list ResultData) (total : Z) :
  integerSum (map importe rows) = Some total -> total < 2 ^ 53 ->
  integerOf (sumImporte rows) = Some total.
Proof.
  intros Hs B. unfold sumImporte.
  change (Some total) with (Some (0 + total)).
  apply fold_add_integers; [reflexivity | lia | exact Hs | lia].
Qed.

End ExactSums.

Section Totals.
Import JsNumber JsValue Api.

(** C8: whatever a handler answers with success, the count is the number
    of records it returns and the amount is the binary64 sum of the
    [importe] fields of those same records, added from left to right
    starting at 0.  That sum is the exact total whenever the amounts are
    non-negative integers and the total is below [2^53]; with no record
    the count is 0 and the amount is 0.0. *)
Theorem totals_of_returned_records
        (f : number -> string) (pdf txt : option string)
        (excel : option Workbook) (zip : option RechazoIbk.Archive)
        (code desc : string) (body : Payload) :
  PreBcpTxt.serve pdf txt code desc = Ok body
  \/ PreBcpXlsx.serve f pdf excel code desc = Ok body
  \/ RechazoIbk.serve f zip = Ok body ->
  totalTransactions body = List.length (results body)
  /\ totalAmount body
     = fold_left (fun sum row => SFadd 53 1024 sum (importe row))
                 (results body) (S754_zero false)
  /\ (forall total,
        integerSum (map importe (results body)) = Some total ->
        total < 2 ^ 53 ->
        integerOf (totalAmount body) = Some total)
  /\ (results body = [] ->
      totalTransactions body = 0%nat /\ totalAmount body = S754_zero false)
  /\ respond [] = Ok emptyPayload.
Proof.
  intros H.
  assert (exists rows, respond rows = Ok body) as [rows Hr].
  { destruct H as [H|[H|H]].
    - eapply txt_serve_inv; eauto.
    - eapply xlsx_serve_inv; eauto.
    - eapply ibk_serve_inv; eauto. }
  apply respond_inv in Hr. destruct Hr as (<- & -> & ->).
  split; [reflexivity|]. split; [reflexivity|].
  split; [apply sumImporte_integers|].
  split; [|reflexivity]. intros ->. split; reflexivity.
Qed.

Lemma totals_of_returned_records_witness :
  exists body,
    PreBcpTxt.serve (Some "Registro 1 Registro 2")
                    (Some (twoRecords "1500" "250")) "R001" "DOCUMENTO ERRADO"
    = Ok body
    /\ map (fun r => integerOf (importe r)) (results body)
       = [Some 1500; Some 250]
    /\ totalTransactions body = 2%nat
    /\ integerOf (totalAmount body) = Some 1750.
Proof.
  eexists. split; [reflexivity|].
  destruct (totals_of_returned_records
              (fun _ => "0") (Some "Registro 1 Registro 2")
              (Some (twoRecords "1500" "250")) None
              None "R001" "DOCUMENTO ERRADO" _ (or_introl eq_refl))
    as (H1 & _ & H3 & _).
  split; [vm_compute; reflexivity|]. split; [exact H1|].
  apply H3; vm_compute; reflexivity.
Defined.

(** C8, as the specification words it: the amounts 0.1 and 0.2 are
    returned, and the total is not the number 0.3 but the next one above
    it, which is not the nearest number to the sum of the two amounts; and
    two finite amounts of [10^308] have the total [+Infinity], which the
    response body writes as [null]. *)
Lemma total_is_not_the_sum_counterexample :
  (exists body,
      PreBcpTxt.serve (Some "Registro 1 Registro 2")
                      (Some (twoRecords "0,1" "0,2")) "R001" "DOCUMENTO ERRADO"
      = Ok body
      /\ map importe (results body) = [lit_0_1; lit_0_2]
      /\ nearestDouble lit_0_1 1 10 = true
      /\ nearestDouble lit_0_2 2 10 = true
      /\ nearestDouble lit_0_3 3 10 = true
      /\ totalAmount body = lit_0_30000000000000004
      /\ totalAmount body <> lit_0_3
      /\ nearestDouble (totalAmount body) 3 10 = false)
  /\ (exists body,
         RechazoIbk.serve
           (fun _ => "0")
           (Some (RechazoIbk.Excel
                    (Sheet (repeat [] 11
                            ++ [rowWithAmount bigAmount "RECHAZO";
                                rowWithAmount bigAmount "RECHAZO"]))))
         = Ok body
         /\ map (fun r => isFinite (importe r)) (results body) = [true; true]
         /\ totalAmount body = S754_infinity false
         /\ jsonNumber (totalAmount body) = SendToEndpoint.JNull).
Proof.
  split.
  - eexists. split; [reflexivity|].
    repeat split; try (vm_compute; reflexivity). vm_compute. discriminate.
  - eexists. split; [reflexivity|].
    repeat split; vm_compute; reflexivity.
Qed.

End Totals.
